(** * taller.cc: assembly of the clustered wireless topology

    A shallow embedding of [main] of [src/taller.cc] and of the engine
    helpers it drives, followed by the verification of the topology
    assembly: subnet partitioning, cluster construction, representative
    selection, backbone assembly and the stop-time check.

    Conventions.  A [uint32_t] is a [Z] in [0, 2^32) with its wrap-around
    written out; an IPv4 address is its 32-bit value; node, device and
    channel handles ([Ptr<Node>], [Ptr<NetDevice>], [Ptr<Channel>]) are
    indices into the engine's object stores; the doubles handed to the
    position allocator are small integers (exactly representable), hence
    [Z]. *)

From stdpp Require Import base numbers list strings.

Local Open Scope Z_scope.

(** ** Machine integers *)

Definition uint32_t (z : Z) : Z := z mod 2 ^ 32.

(** [int (x)] for [x] a [uint32_t] (two's complement reinterpretation). *)
Definition int (z : Z) : Z := if z <? 2 ^ 31 then z else z - 2 ^ 32.

(** ** IPv4 addresses, masks and subnets *)

(** Dotted-quad literal, as [Ipv4Address ("a.b.c.d")] reads it. *)
Definition Ipv4Address (a b c d : Z) : Z :=
  Z.lor (Z.lor (Z.lor (a ≪ 24) (b ≪ 16)) (c ≪ 8)) d.

Definition Ipv4Mask (a b c d : Z) : Z := Ipv4Address a b c d.

(** A subnet is a network address together with its mask. *)
Record Subnet := { subnet_network : Z; subnet_mask : Z }.

(** An address belongs to a subnet when its masked bits are the network's
    ([Ipv4Mask::IsMatch]). *)
Definition in_subnet (a : Z) (s : Subnet) : Prop :=
  Z.land a (subnet_mask s) = subnet_network s.

(** Two subnets overlap when some 32-bit address belongs to both. *)
Definition overlap (s1 s2 : Subnet) : Prop :=
  ∃ a, 0 ≤ a < 2 ^ 32 ∧ in_subnet a s1 ∧ in_subnet a s2.

(** ** The random generator *)

(** Modelled from the spec: the generator of the C++ standard library, which
    is not under src/ (spec 4.3: "drawing index [i] uniformly from
    [[0, size-1]] using a process-wide random generator seeded once per
    program run", "advanced, not reseeded").  [std::mt19937] seeded from
    [std::random_device] and drawn from through
    [std::uniform_int_distribution<int>]: an interface with a state, a
    seeding constructor, and a draw that returns a value of the closed range
    together with the advanced state.  The range law is the contract of the
    distribution, for [a <= b]; that the values are equally likely is a
    statement on probabilities, which the interface does not carry. *)

Class UniformRandomBitGenerator := {
  Rng : Type;
  mt19937 : Z → Rng;
  uniform_int_distribution : Z → Z → Rng → Z * Rng;
  uniform_int_distribution_range :
    ∀ a b g, a ≤ b → a ≤ (uniform_int_distribution a b g).1 ≤ b
}.

(** ** The engine's objects

    The engine (ns-3) is an external collaborator: none of it is under
    src/, which only calls it.  Its objects are modelled from what the spec
    says of the collaborator (data model, section 3): nodes with their
    interfaces, interconnects (channels), and addresses. *)

Inductive ChannelType := YansWifiChannel | CsmaChannel.

#[global] Instance ChannelType_eq_dec : EqDecision ChannelType.
Proof. solve_decision. Defined.

(** [Ipv4InterfaceAddress (local, mask)]. *)
Record Ipv4InterfaceAddress := { ifa_local : Z; ifa_mask : Z }.

Definition ifa_subnet (a : Ipv4InterfaceAddress) : Subnet :=
  {| subnet_network := Z.land (ifa_local a) (ifa_mask a);
     subnet_mask := ifa_mask a |}.

(** A net device: the node it is installed on, the channel it is attached
    to, and the addresses of the IPv4 interface bound to it. *)
Record NetDevice := {
  dev_node : nat;
  dev_channel : nat;
  dev_type : ChannelType;
  dev_addresses : list Ipv4InterfaceAddress
}.

(** A node: its devices (handles, in installation order), whether the
    internet stack is aggregated, and the position given by its mobility
    model at installation. *)
Record Node := {
  node_devices : list nat;
  node_ipv4 : bool;
  node_position : option (Z * Z)
}.

Definition new_Node : Node :=
  {| node_devices := []; node_ipv4 := false; node_position := None |}.

Record SimulatorImpl := {
  sim_stop : option Z;      (* the scheduled stop event, in seconds *)
  sim_ran : bool;           (* [Simulator::Run] has returned *)
  sim_destroyed : bool      (* [Simulator::Destroy] has been called *)
}.

(** The process-wide state: the engine's object stores and singletons, and
    the standard output of the process. *)
Record World := {
  NodeList : list Node;
  DeviceList : list NetDevice;
  ChannelList : list ChannelType;
  Ipv4AddressGenerator : list Z;   (* the addresses handed out so far *)
  Simulator : SimulatorImpl;
  cout : list string
}.

Definition empty_World : World :=
  {| NodeList := []; DeviceList := []; ChannelList := [];
     Ipv4AddressGenerator := [];
     Simulator := {| sim_stop := None; sim_ran := false; sim_destroyed := false |};
     cout := [] |}.

Definition set_NodeList (f : list Node → list Node) (w : World) : World :=
  {| NodeList := f (NodeList w); DeviceList := DeviceList w;
     ChannelList := ChannelList w;
     Ipv4AddressGenerator := Ipv4AddressGenerator w;
     Simulator := Simulator w; cout := cout w |}.

Definition set_DeviceList (f : list NetDevice → list NetDevice) (w : World) : World :=
  {| NodeList := NodeList w; DeviceList := f (DeviceList w);
     ChannelList := ChannelList w;
     Ipv4AddressGenerator := Ipv4AddressGenerator w;
     Simulator := Simulator w; cout := cout w |}.

Definition set_ChannelList (f : list ChannelType → list ChannelType) (w : World) : World :=
  {| NodeList := NodeList w; DeviceList := DeviceList w;
     ChannelList := f (ChannelList w);
     Ipv4AddressGenerator := Ipv4AddressGenerator w;
     Simulator := Simulator w; cout := cout w |}.

Definition set_Ipv4AddressGenerator (f : list Z → list Z) (w : World) : World :=
  {| NodeList := NodeList w; DeviceList := DeviceList w;
     ChannelList := ChannelList w;
     Ipv4AddressGenerator := f (Ipv4AddressGenerator w);
     Simulator := Simulator w; cout := cout w |}.

Definition set_Simulator (f : SimulatorImpl → SimulatorImpl) (w : World) : World :=
  {| NodeList := NodeList w; DeviceList := DeviceList w;
     ChannelList := ChannelList w;
     Ipv4AddressGenerator := Ipv4AddressGenerator w;
     Simulator := f (Simulator w); cout := cout w |}.

Definition set_cout (f : list string → list string) (w : World) : World :=
  {| NodeList := NodeList w; DeviceList := DeviceList w;
     ChannelList := ChannelList w;
     Ipv4AddressGenerator := Ipv4AddressGenerator w;
     Simulator := Simulator w; cout := f (cout w) |}.

(** ** Effects

    A computation runs on the world and either returns a value, or ends the
    process.  The process ends by [exit (status)], by a failed engine
    assertion or fatal error ([NS_ASSERT_MSG], [NS_FATAL_ERROR]: abort), or
    by leaving the behaviour defined by C++ (an array subscript out of
    range, a distribution over an empty range). *)

Inductive Result (A : Type) : Type :=
| Ok (a : A) (w : World)
| Exited (status : Z) (w : World)
| Aborted (w : World)
| Undefined (w : World).

Arguments Ok {A} a w.
Arguments Exited {A} status w.
Arguments Aborted {A} w.
Arguments Undefined {A} w.

Definition M (A : Type) : Type := World → Result A.

Definition ret {A} (a : A) : M A := fun w => Ok a w.

Definition bind {A B} (m : M A) (k : A → M B) : M B :=
  fun w =>
    match m w with
    | Ok a w' => k a w'
    | Exited s w' => Exited s w'
    | Aborted w' => Aborted w'
    | Undefined w' => Undefined w'
    end.

#[global] Instance M_ret : MRet M := @ret.
#[global] Instance M_bind : MBind M := fun A B k m => bind m k.

Definition gets {A} (f : World → A) : M A := fun w => Ok (f w) w.
Definition modify (f : World → World) : M unit := fun w => Ok tt (f w).
Definition exit {A} (status : Z) : M A := fun w => Exited status w.
Definition abort {A} : M A := fun w => Aborted w.
Definition undefined {A} : M A := fun w => Undefined w.

(** [a[i]] on a C++ array or [std::vector]: out of range is undefined. *)
Definition subscript {A} (a : list A) (i : nat) : M A :=
  match a !! i with
  | Some x => ret x
  | None => undefined
  end.

(** The world of a result, whichever way the computation ended. *)
Definition world_of {A} (r : Result A) : World :=
  match r with
  | Ok _ w | Exited _ w | Aborted w | Undefined w => w
  end.

(** ** The engine's helpers

    Each helper below stands for a call that [main] makes into the engine,
    written as a computation on the world.  None of them is under src/:
    they follow the spec's description of the collaborator (sections 4 and
    6), with the engine's argument and failure conventions. *)

Abbreviation NodeContainer := (list nat).
Abbreviation NetDeviceContainer := (list nat).

(** Modelled from the spec: the engine's container access, which is not
    under src/ (spec 4.3: "Returns the Node at that index within the
    cluster").  [NodeContainer::Get (i)] is [m_nodes[i]], for a [uint32_t]
    index. *)
Definition NodeContainer_Get (c : NodeContainer) (i : Z) : M nat :=
  if (0 <=? i) && (i <? 2 ^ 32) then subscript c (Z.to_nat i) else undefined.

(** Modelled from the spec: the engine's node creation, which is not under
    src/ (spec 4.2: "creates [size] Nodes").  [NodeContainer::Create (n)]
    creates [n] fresh nodes, registers them in the engine's node list in
    order, and appends their handles to the container. *)
Definition NodeContainer_Create (c : NodeContainer) (n : Z) : M NodeContainer :=
  first ← gets (λ w, length (NodeList w));
  modify (set_NodeList (λ l, l ++ replicate (Z.to_nat n) new_Node));;
  mret (c ++ seq first (Z.to_nat n)).

(** Modelled from the spec: the engine's channel creation, which is not
    under src/ (spec 4.2: "a fresh channel instance per cluster, not shared
    across clusters").  [YansWifiChannelHelper::Create], or the channel that
    [CsmaHelper::Install] creates for its container. *)
Definition Channel_Create (t : ChannelType) : M nat :=
  ch ← gets (λ w, length (ChannelList w));
  modify (set_ChannelList (λ l, l ++ [t]));;
  mret ch.

(** A node with one more device. *)
Definition add_device (d : nat) (nd : Node) : Node :=
  {| node_devices := node_devices nd ++ [d]; node_ipv4 := node_ipv4 nd;
     node_position := node_position nd |}.

(** Modelled from the spec: the engine's interconnect installation, which is
    not under src/ (spec 4.2, 4.4), for one node: one new device of type [t]
    on channel [ch], added to node [n]. *)
Definition Install_device (t : ChannelType) (ch : nat) (n : nat) : M nat :=
  nodes ← gets NodeList;
  subscript nodes n;;
  d ← gets (λ w, length (DeviceList w));
  modify (set_DeviceList (λ l, l ++
    [{| dev_node := n; dev_channel := ch; dev_type := t; dev_addresses := [] |}]));;
  modify (set_NodeList (alter (add_device d) n));;
  mret d.

(** Modelled from the spec: the engine's interconnect installation, which is
    not under src/ (spec 4.2, 4.4: one interconnect over exactly the given
    nodes, one device per node, in container order).  It returns the new
    devices in the order of the nodes. *)
Fixpoint Install_devices (t : ChannelType) (ch : nat) (c : NodeContainer)
  : M NetDeviceContainer :=
  match c with
  | [] => mret []
  | n :: c' =>
      d ← Install_device t ch n;
      ds ← Install_devices t ch c';
      mret (d :: ds)
  end.

(** Modelled from the spec: the engine's wireless installation, which is not
    under src/ (spec 4.2: "a fresh wireless interconnect ... over exactly
    this cluster's Nodes, using a dedicated channel instance").
    [WifiHelper::Install (wifiPhy, mac, c)]: the devices are attached to the
    channel last set on the phy helper; without one the engine aborts. *)
Definition WifiHelper_Install (wifiPhy : option nat) (c : NodeContainer)
  : M NetDeviceContainer :=
  match wifiPhy with
  | Some ch => Install_devices YansWifiChannel ch c
  | None => abort
  end.

(** Modelled from the spec: the engine's wired installation, which is not
    under src/ (spec 4.4: "one shared wired interconnect ... spanning all
    representative Nodes, in the order they were selected").
    [CsmaHelper::Install (c)]: one new shared channel for the container. *)
Definition CsmaHelper_Install (c : NodeContainer) : M NetDeviceContainer :=
  ch ← Channel_Create CsmaChannel;
  Install_devices CsmaChannel ch c.

(** A node once it carries the internet stack. *)
Definition set_ipv4 (nd : Node) : Node :=
  {| node_devices := node_devices nd; node_ipv4 := true;
     node_position := node_position nd |}.

(** Modelled from the spec: the engine's network-stack installation, which
    is not under src/ (spec 4.2: "installs the network stack on every member
    Node").  Installing a second stack on a node is a fatal engine error.
    The loopback interface that the stack keeps inside every node is the
    engine's own and attaches the node to no interconnect: it is not among
    the devices of the model. *)
Fixpoint InternetStackHelper_Install (c : NodeContainer) : M unit :=
  match c with
  | [] => mret tt
  | n :: c' =>
      nodes ← gets NodeList;
      nd ← subscript nodes n;
      (if node_ipv4 nd then abort
       else modify (set_NodeList (alter set_ipv4 n)));;
      InternetStackHelper_Install c'
  end.

(** *** The subnet allocator: [Ipv4AddressHelper] *)

(** Modelled from the spec: the engine's subnet allocator, which is not
    under src/ (spec 4.1: "maintains a cursor per address family/base
    range").  The cursor: the network number (shifted down by the address
    bits), the mask, the next host address, the first host address, the
    number of address bits and the largest host address. *)
Record Ipv4AddressHelper := {
  m_network : Z;
  m_mask : Z;
  m_address : Z;
  m_base : Z;
  m_shift : Z;
  m_max : Z
}.

(** A default-constructed cursor: every field is [0xffffffff], the mask 0. *)
Definition Ipv4AddressHelper_default : Ipv4AddressHelper :=
  {| m_network := 2 ^ 32 - 1; m_mask := 0; m_address := 2 ^ 32 - 1;
     m_base := 2 ^ 32 - 1; m_shift := 2 ^ 32 - 1; m_max := 2 ^ 32 - 1 |}.

(** Modelled from the spec: the engine's subnet allocator, which is not
    under src/ (spec 4.1: "the masked range").  The number of address bits
    of a mask: the position of its lowest set bit, searched over the 32
    bits. *)
Fixpoint NumAddressBits_from (bits : nat) (i maskbits : Z) : option Z :=
  match bits with
  | O => None
  | S bits' =>
      if Z.testbit maskbits 0 then Some i
      else NumAddressBits_from bits' (i + 1) (maskbits ≫ 1)
  end.

Definition NumAddressBits (maskbits : Z) : option Z :=
  NumAddressBits_from 32 0 maskbits.

(** Modelled from the spec: the engine's subnet allocator, which is not
    under src/ (spec 4.1: [allocate (baseAddress, mask)] binds a cursor to
    the base and the masked range).  [SetBase (network, mask)] with the
    default first host address 0.0.0.1: the network must have no bit outside
    the mask; the network number is kept shifted down by the number of
    address bits, and the largest host address is [2^shift - 2]. *)
Definition SetBase (network mask : Z) : M Ipv4AddressHelper :=
  if Z.land network (uint32_t (Z.lnot mask)) =? 0 then
    match NumAddressBits mask with
    | Some shift =>
        mret {| m_network := network ≫ shift; m_mask := mask;
                m_address := 1; m_base := 1;
                m_shift := shift; m_max := uint32_t ((1 ≪ shift) - 2) |}
    | None => abort
    end
  else abort.

(** The block the cursor stands on. *)
Definition current_subnet (h : Ipv4AddressHelper) : Subnet :=
  {| subnet_network := uint32_t (m_network h ≪ m_shift h);
     subnet_mask := m_mask h |}.

(** Modelled from the spec: the engine's subnet allocator, which is not
    under src/ (spec 4.1, 7: one address per interface from the current
    block; exhausting the block and reusing an address are fatal).
    [NewAddress]: the next host address of the current block
    (post-increment); the engine aborts when the block is exhausted and
    when the address was handed out before. *)
Definition NewAddress (h : Ipv4AddressHelper) : M (Z * Ipv4AddressHelper) :=
  if m_address h <=? m_max h then
    let addr := Z.lor (uint32_t (m_network h ≪ m_shift h)) (m_address h) in
    used ← gets Ipv4AddressGenerator;
    if bool_decide (addr ∈ used) then abort
    else
      modify (set_Ipv4AddressGenerator (λ l, addr :: l));;
      mret (addr,
            {| m_network := m_network h; m_mask := m_mask h;
               m_address := uint32_t (m_address h + 1); m_base := m_base h;
               m_shift := m_shift h; m_max := m_max h |})
  else abort.

(** Modelled from the spec: the engine's subnet allocator, which is not
    under src/ (spec 4.1: [advance] "moves the cursor to the next
    non-overlapping block of the same mask width").  [NewNetwork]: the
    network number is incremented and the host address reset. *)
Definition NewNetwork (h : Ipv4AddressHelper) : Ipv4AddressHelper :=
  {| m_network := uint32_t (m_network h + 1); m_mask := m_mask h;
     m_address := m_base h; m_base := m_base h;
     m_shift := m_shift h; m_max := m_max h |}.

(** A device with one more address on its interface. *)
Definition add_address (a : Ipv4InterfaceAddress) (d : NetDevice) : NetDevice :=
  {| dev_node := dev_node d; dev_channel := dev_channel d;
     dev_type := dev_type d; dev_addresses := dev_addresses d ++ [a] |}.

(** Modelled from the spec: the engine's address assignment, which is not
    under src/ (spec 4.2: "assigns addresses to every interface just
    created").  [Assign (c)]: each device of the container, in order,
    receives the next address of the helper on its IPv4 interface; the node
    of the device must carry the internet stack. *)
Fixpoint Assign (h : Ipv4AddressHelper) (c : NetDeviceContainer)
  : M Ipv4AddressHelper :=
  match c with
  | [] => mret h
  | d :: c' =>
      devices ← gets DeviceList;
      dev ← subscript devices d;
      nodes ← gets NodeList;
      nd ← subscript nodes (dev_node dev);
      if node_ipv4 nd then
        '(addr, h') ← NewAddress h;
        modify (set_DeviceList (alter
          (add_address {| ifa_local := addr; ifa_mask := m_mask h |}) d));;
        Assign h' c'
      else abort
  end.

(** *** Mobility: [GridPositionAllocator] and [MobilityHelper] *)

Inductive LayoutType := RowFirst | ColumnFirst.

(** The attributes that [main] sets on the allocator, and its counter. *)
Record GridPositionAllocator := {
  MinX : Z; MinY : Z; DeltaX : Z; DeltaY : Z;
  GridWidth : Z; Layout : LayoutType;
  m_current : Z
}.

(** Modelled from the spec: the engine's grid placement, which is not under
    src/ (spec 4.2: "placement grid origin/spacing").  The [m_current]-th
    position of the grid, [GridWidth] positions per row (or per column). *)
Definition GetNext (g : GridPositionAllocator) : (Z * Z) * GridPositionAllocator :=
  let p :=
    match Layout g with
    | RowFirst =>
        (MinX g + DeltaX g * (m_current g `mod` GridWidth g),
         MinY g + DeltaY g * (m_current g `div` GridWidth g))
    | ColumnFirst =>
        (MinX g + DeltaX g * (m_current g `div` GridWidth g),
         MinY g + DeltaY g * (m_current g `mod` GridWidth g))
    end in
  (p, {| MinX := MinX g; MinY := MinY g; DeltaX := DeltaX g; DeltaY := DeltaY g;
         GridWidth := GridWidth g; Layout := Layout g;
         m_current := uint32_t (m_current g + 1) |}).

(** A node placed at [p]. *)
Definition set_position (p : Z * Z) (nd : Node) : Node :=
  {| node_devices := node_devices nd; node_ipv4 := node_ipv4 nd;
     node_position := Some p |}.

(** Modelled from the spec: the engine's mobility installation, which is not
    under src/ (spec 4.2: "installs a mobility model using
    [mobilityConfig]").  [MobilityHelper::Install (c)]: each node of the
    container, in order, is placed at the next position of the allocator;
    the motion that follows is the engine's. *)
Fixpoint MobilityHelper_Install (g : GridPositionAllocator) (c : NodeContainer)
  : M unit :=
  match c with
  | [] => mret tt
  | n :: c' =>
      nodes ← gets NodeList;
      subscript nodes n;;
      let '(p, g') := GetNext g in
      modify (set_NodeList (alter (set_position p) n));;
      MobilityHelper_Install g' c'
  end.

(** *** The simulator *)

(** Modelled from the spec: the engine's stop event, which is not under src/
    (spec 4.5: "schedules the external engine's stop event at
    [stopTime]"). *)
Definition Simulator_Stop (t : Z) : M unit :=
  modify (set_Simulator (λ s,
    {| sim_stop := Some t; sim_ran := sim_ran s; sim_destroyed := sim_destroyed s |})).

(** Modelled from the spec: the engine's run loop, which is not under src/
    (spec 4.5: "starts the engine, blocks until the engine reports
    completion").  The events of the run are the engine's own; the model
    records that the call returned. *)
Definition Simulator_Run : M unit :=
  modify (set_Simulator (λ s,
    {| sim_stop := sim_stop s; sim_ran := true; sim_destroyed := sim_destroyed s |})).

(** Modelled from the spec: the engine's teardown, which is not under src/
    (spec 4.5: "then releases all engine-owned resources").  The stores of
    the world are kept, as the record of what was assembled. *)
Definition Simulator_Destroy : M unit :=
  modify (set_Simulator (λ s,
    {| sim_stop := sim_stop s; sim_ran := sim_ran s; sim_destroyed := true |})).

(** ** The program: [main]

    The three simulation parameters that [main] declares as local constants
    ([clusterHeadNodes], [infraNodes], [stopTime]) are the configuration;
    [main] is the program at the constants of the source. *)

Record Config := {
  clusterHeadNodes : Z;
  infraNodes : list Z;
  stopTime : Z
}.

Section Program.
Context `{G : UniformRandomBitGenerator}.

(** The local variables of [main] that the assembly reads and writes. *)
Record Locals := {
  rng : Rng;
  ipAddrs : list Ipv4AddressHelper;
  clusters : list NodeContainer;
  clusterDevices : list NetDeviceContainer;
  head_cluster : NodeContainer;
  ipAddrsH : Ipv4AddressHelper;
  head_clusterDevices : NetDeviceContainer
}.

(** The body of the cluster loop (lines 159-217), at index [i]. *)
Definition cluster_body (cfg : Config) (i : nat) (L : Locals) : M Locals :=
  (* wifiChannel[i] = Default (); wifiPhy.SetChannel (wifiChannel[i].Create ()) *)
  ch ← Channel_Create YansWifiChannel;
  let wifiPhy := Some ch in
  (* clusters[i].Create (infraNodes[i]) *)
  n ← subscript (infraNodes cfg) i;
  c ← subscript (clusters L) i;
  c ← NodeContainer_Create c n;
  (* clusterDevices[i] = wifi.Install (wifiPhy, mac, clusters[i]) *)
  subscript (clusterDevices L) i;;
  devs ← WifiHelper_Install wifiPhy c;
  (* internet.Install (clusters[i]) *)
  InternetStackHelper_Install c;;
  (* ipAddrs[i].Assign (clusterDevices[i]); ipAddrs[i].NewNetwork () *)
  h ← subscript (ipAddrs L) i;
  h ← Assign h devs;
  let h := NewNetwork h in
  (* mobility *)
  let mobility :=
    {| MinX := (Z.of_nat i + 1) * 50; MinY := (Z.of_nat i + 1) * 20;
       DeltaX := 5; DeltaY := 10; GridWidth := 2; Layout := RowFirst;
       m_current := 0 |} in
  MobilityHelper_Install mobility c;;
  (* std::uniform_int_distribution<int> uni (0, infraNodes[i] - 1) *)
  let b := int (uint32_t (n - 1)) in
  if 0 <=? b then
    (* auto random_integer = uni (rng) *)
    let '(random_integer, rng') := uniform_int_distribution 0 b (rng L) in
    (* head_cluster.Add (clusters[i].Get (random_integer)) *)
    rep ← NodeContainer_Get c random_integer;
    mret {| rng := rng';
            ipAddrs := <[i := h]> (ipAddrs L);
            clusters := <[i := c]> (clusters L);
            clusterDevices := <[i := devs]> (clusterDevices L);
            head_cluster := head_cluster L ++ [rep];
            ipAddrsH := ipAddrsH L;
            head_clusterDevices := head_clusterDevices L |}
  else undefined.

(** [for (int i = 0; i < int (clusterHeadNodes); ++i)], over the indices. *)
Fixpoint cluster_loop (cfg : Config) (indices : list nat) (L : Locals) : M Locals :=
  match indices with
  | [] => mret L
  | i :: rest => L' ← cluster_body cfg i L; cluster_loop cfg rest L'
  end.

(** Lines 140-217: the three cluster pools and the cluster loop. *)
Definition construct_clusters (cfg : Config) (rng0 : Rng) : M Locals :=
  h0 ← SetBase (Ipv4Address 192 167 0 0) (Ipv4Mask 255 255 255 0);
  h1 ← SetBase (Ipv4Address 192 168 0 0) (Ipv4Mask 255 255 255 0);
  h2 ← SetBase (Ipv4Address 192 169 0 0) (Ipv4Mask 255 255 255 0);
  let count := Z.to_nat (clusterHeadNodes cfg) in
  cluster_loop cfg (seq 0 (Z.to_nat (int (clusterHeadNodes cfg))))
    {| rng := rng0;
       ipAddrs := [h0; h1; h2];
       clusters := replicate count [];
       clusterDevices := replicate count [];
       head_cluster := [];
       ipAddrsH := Ipv4AddressHelper_default;
       head_clusterDevices := [] |}.

(** Lines 219-238: the backbone over the representatives. *)
Definition assemble_backbone (L : Locals) : M Locals :=
  h ← SetBase (Ipv4Address 172 16 0 0) (Ipv4Mask 255 255 255 0);
  devs ← CsmaHelper_Install (head_cluster L);
  h ← Assign h devs;
  let h := NewNetwork h in
  mret {| rng := rng L; ipAddrs := ipAddrs L; clusters := clusters L;
          clusterDevices := clusterDevices L; head_cluster := head_cluster L;
          ipAddrsH := h; head_clusterDevices := devs |}.

(** Lines 320-323. *)
Definition run_simulation (cfg : Config) : M unit :=
  Simulator_Stop (stopTime cfg);;
  Simulator_Run;;
  Simulator_Destroy.

(** [main], for a configuration and the value [rd ()] that seeds the
    generator.  [cmd.Parse] registers no variable, so the command line
    reaches none of the parameters.  [Ok L w]: control reached the end of
    [main], which returns 0. *)
Definition main_with (cfg : Config) (rd : Z) : Result Locals :=
  (let rng0 := mt19937 rd in
   (if stopTime cfg <? 10 then
      modify (set_cout (λ o, o ++ ["Use a simulation stop time >= 10 seconds"%string]));;
      exit 1
    else mret tt);;
   L ← construct_clusters cfg rng0;
   L ← assemble_backbone L;
   run_simulation cfg;;
   mret L) empty_World.

(** The configuration of the source (lines 110-112). *)
Definition shipped : Config :=
  {| clusterHeadNodes := 2; infraNodes := [4; 3]; stopTime := 20 |}.

Definition main (rd : Z) : Result Locals := main_with shipped rd.

(** The exit status of the process, when it ends by returning from [main] or
    by [exit]. *)
Definition exit_status {A} (r : Result A) : option Z :=
  match r with
  | Ok _ _ => Some 0
  | Exited s _ => Some s
  | Aborted _ | Undefined _ => None
  end.

End Program.

(** * The vocabulary of the verification

    The definitions that the statements and proofs below use: the state
    that the assembly builds, in closed form; the configurations on which
    the assembly is defined; and the observations made on a run. *)

(** ** States in closed form *)

Abbreviation mk_world nodes devs chans used sim out :=
  {| NodeList := nodes; DeviceList := devs; ChannelList := chans;
     Ipv4AddressGenerator := used; Simulator := sim; cout := out |}
  (only parsing).

(** A /24 pool whose cursor stands on network number [nw], next host [a]. *)
Definition pool24 (nw a : Z) : Ipv4AddressHelper :=
  {| m_network := nw; m_mask := Ipv4Mask 255 255 255 0; m_address := a;
     m_base := 1; m_shift := 8; m_max := 254 |}.

(** Host [a + k] of the /24 block of network number [nw]. *)
Definition host_address (nw a : Z) (k : nat) : Z := nw * 2 ^ 8 + a + Z.of_nat k.

(** A device once it received that address. *)
Definition assigned (nw a : Z) (k : nat) (d : NetDevice) : NetDevice :=
  add_address {| ifa_local := host_address nw a k;
                 ifa_mask := Ipv4Mask 255 255 255 0 |} d.

(** A device as installed, before any address. *)
Definition mk_device (t : ChannelType) (ch : nat) (n : nat) : NetDevice :=
  {| dev_node := n; dev_channel := ch; dev_type := t; dev_addresses := [] |}.

(** The node list after the devices [d], [d + 1], ... were added to the
    nodes of a container, in order. *)
Fixpoint attach (d : nat) (c : NodeContainer) (l : list Node) : list Node :=
  match c with
  | [] => l
  | n :: c' => attach (S d) c' (alter (add_device d) n l)
  end.

(** The [k]-th position of a row-first grid. *)
Definition grid_position (x0 y0 dx dy width : Z) (k : Z) : Z * Z :=
  (x0 + dx * (k `mod` width), y0 + dy * (k `div` width)).

(** The network number of cluster pool [i]: 192.(167 + i).0.0 shifted down
    by the eight address bits. *)
Definition pool_network (i : nat) : Z := 192 * 2 ^ 16 + (167 + Z.of_nat i) * 2 ^ 8.

Definition cluster_mask : Z := Ipv4Mask 255 255 255 0.

(** The network number of the backbone pool, 172.16.0.0. *)
Definition backbone_network : Z := 172 * 2 ^ 16 + 16 * 2 ^ 8.

(** Member [k] of cluster [i], whose first node has handle [first], as the
    cluster loop leaves it. *)
Definition cluster_node (i first k : nat) : Node :=
  {| node_devices := [(first + k)%nat]; node_ipv4 := true;
     node_position :=
       Some (grid_position ((Z.of_nat i + 1) * 50) ((Z.of_nat i + 1) * 20)
               5 10 2 (Z.of_nat k)) |}.

(** Its wireless device, on the channel of the cluster, with its address. *)
Definition cluster_device (i first k : nat) : NetDevice :=
  {| dev_node := (first + k)%nat; dev_channel := i; dev_type := YansWifiChannel;
     dev_addresses :=
       [{| ifa_local := host_address (pool_network i) 1 k;
           ifa_mask := cluster_mask |}] |}.

(** The backbone device of the [j]-th representative, node [h]. *)
Definition backbone_device (ch : nat) (j h : nat) : NetDevice :=
  {| dev_node := h; dev_channel := ch; dev_type := CsmaChannel;
     dev_addresses :=
       [{| ifa_local := host_address backbone_network 1 j;
           ifa_mask := cluster_mask |}] |}.

(** The nodes that the cluster loop builds for the clusters of sizes
    [sizes], numbered from [i], the first fresh handle being [first]. *)
Fixpoint nodes_from (i first : nat) (sizes : list Z) : list Node :=
  match sizes with
  | [] => []
  | n :: rest =>
      (cluster_node i first <$> seq 0 (Z.to_nat n)) ++
      nodes_from (S i) (first + Z.to_nat n) rest
  end.

(** Their wireless devices. *)
Fixpoint devices_from (i first : nat) (sizes : list Z) : list NetDevice :=
  match sizes with
  | [] => []
  | n :: rest =>
      (cluster_device i first <$> seq 0 (Z.to_nat n)) ++
      devices_from (S i) (first + Z.to_nat n) rest
  end.

(** The containers of the clusters: consecutive ranges of handles. *)
Fixpoint containers_from (first : nat) (sizes : list Z) : list (list nat) :=
  match sizes with
  | [] => []
  | n :: rest =>
      seq first (Z.to_nat n) :: containers_from (first + Z.to_nat n) rest
  end.

(** The addresses handed out, the latest first. *)
Fixpoint used_from (i : nat) (sizes : list Z) (used : list Z) : list Z :=
  match sizes with
  | [] => used
  | n :: rest =>
      used_from (S i) rest
        (reverse (host_address (pool_network i) 1 <$> seq 0 (Z.to_nat n)) ++ used)
  end.

(** The representatives: the node of each cluster at the drawn index. *)
Fixpoint heads_from (first : nat) (sizes draws : list Z) : list nat :=
  match sizes, draws with
  | n :: rest, r :: draws' =>
      (first + Z.to_nat r)%nat :: heads_from (first + Z.to_nat n) rest draws'
  | _, _ => []
  end.

(** The cluster pools [i .. i + k), before and after their cluster. *)
Definition fresh_pools (i k : nat) : list Ipv4AddressHelper :=
  (λ j, pool24 (pool_network j) 1) <$> seq i k.

Definition advanced_pools (i k : nat) : list Ipv4AddressHelper :=
  (λ j, pool24 (pool_network j + 1) 1) <$> seq i k.

(** The number of nodes of the first [j] clusters. *)
Definition offset (sizes : list Z) (j : nat) : nat :=
  sum_list (Z.to_nat <$> take j sizes).

(** The number of nodes of all the clusters. *)
Definition total (sizes : list Z) : nat := sum_list (Z.to_nat <$> sizes).

(** The configurations on which the assembly is defined: as many sizes as
    clusters, at most the three declared pools, and every cluster within the
    254 hosts of its /24 block. *)
Record wf_config (cfg : Config) : Prop := {
  wf_count : clusterHeadNodes cfg = Z.of_nat (length (infraNodes cfg));
  wf_pools : (length (infraNodes cfg) ≤ 3)%nat;
  wf_sizes : Forall (λ n, 1 ≤ n ≤ 254) (infraNodes cfg)
}.

(** The source declares [infraNodes] as an array of [clusterHeadNodes]
    sizes, and reads the count as an [int]. *)
Definition array_typed (cfg : Config) : Prop :=
  clusterHeadNodes cfg = Z.of_nat (length (infraNodes cfg)) ∧
  clusterHeadNodes cfg < 2 ^ 31.

(** The shipped topology with a stop time below the minimum. *)
Definition short_stop : Config :=
  {| clusterHeadNodes := 2; infraNodes := [4; 3]; stopTime := 5 |}.

(** A configuration with a cluster of requested size 0. *)
Definition empty_cluster : Config :=
  {| clusterHeadNodes := 2; infraNodes := [4; 0]; stopTime := 20 |}.

(** A configuration with a fourth cluster, for which no pool is declared. *)
Definition four_clusters : Config :=
  {| clusterHeadNodes := 4; infraNodes := [2; 1; 1; 1]; stopTime := 20 |}.

(** A configuration with a cluster beyond the 254 hosts of a /24 block. *)
Definition large_cluster : Config :=
  {| clusterHeadNodes := 2; infraNodes := [4; 255]; stopTime := 20 |}.

(** A configuration with a cluster of one node. *)
Definition lone_node : Config :=
  {| clusterHeadNodes := 2; infraNodes := [1; 3]; stopTime := 20 |}.

(** The shipped topology followed by a third cluster. *)
Definition three_clusters : Config :=
  {| clusterHeadNodes := 3; infraNodes := [4; 3; 2]; stopTime := 20 |}.

(** ** Observations on a run *)

(** The addresses of a device, by handle. *)
Definition device_addresses (w : World) (d : nat) : list Ipv4InterfaceAddress :=
  default [] (dev_addresses <$> DeviceList w !! d).

(** The subnets of the addresses of the devices of a container. *)
Definition container_subnets (w : World) (c : NetDeviceContainer) : list Subnet :=
  ifa_subnet <$> (c ≫= device_addresses w).

(** The [t]-th block of a pool: the block under the cursor after [t] calls
    of [NewNetwork]. *)
Definition issued (h : Ipv4AddressHelper) (t : nat) : Subnet :=
  current_subnet (Nat.iter t NewNetwork h).

(** The subnet that [main] configures for cluster pool [j] (lines 141-143). *)
Definition pool_subnet (j : nat) : Subnet :=
  {| subnet_network := Ipv4Address 192 (167 + Z.of_nat j) 0 0;
     subnet_mask := Ipv4Mask 255 255 255 0 |}.

(** The subnet that [main] configures for the backbone (line 222). *)
Definition backbone_subnet : Subnet :=
  {| subnet_network := Ipv4Address 172 16 0 0;
     subnet_mask := Ipv4Mask 255 255 255 0 |}.

#[global] Instance in_subnet_dec a s : Decision (in_subnet a s) :=
  Z.eq_dec (Z.land a (subnet_mask s)) (subnet_network s).

(** The addresses of a node, each with the device whose interface holds it. *)
Definition node_addresses (w : World) (nd : Node) : list (nat * Ipv4InterfaceAddress) :=
  node_devices nd ≫= λ d, (λ a, (d, a)) <$> device_addresses w d.

(** Those of them that lie in a subnet. *)
Definition addresses_in (s : Subnet) (w : World) (nd : Node)
  : list (nat * Ipv4InterfaceAddress) :=
  filter (λ da, in_subnet (ifa_local da.2) s) (node_addresses w nd).

(** The process printed nothing and created no node, device or channel. *)
Definition nothing_created (w : World) : Prop :=
  NodeList w = [] ∧ DeviceList w = [] ∧ ChannelList w = [].

(** What a node is, the devices it carries apart: whether it has the stack,
    and where it was placed. *)
Definition node_placement (nd : Node) : bool * option (Z * Z) :=
  (node_ipv4 nd, node_position nd).

(** What a device is attached to and addressed with, its node apart. *)
Definition device_attachment (dev : NetDevice)
  : nat * ChannelType * list Ipv4InterfaceAddress :=
  (dev_channel dev, dev_type dev, dev_addresses dev).

(** Modelled from the spec: the engine's rectangle, which is not under src/
    (spec 4.2: "a bounded-random motion model").  [Rectangle (xMin, xMax,
    yMin, yMax)], and [IsInside], which counts the border in. *)
Record Rectangle := { xMin : Z; xMax : Z; yMin : Z; yMax : Z }.

Definition IsInside (r : Rectangle) (p : Z * Z) : Prop :=
  xMin r ≤ p.1 ≤ xMax r ∧ yMin r ≤ p.2 ≤ yMax r.

(** The bounds that [main] gives to the motion of every node (line 192):
    [Rectangle (-500, 500, -500, 500)]. *)
Definition Bounds : Rectangle :=
  {| xMin := -500; xMax := 500; yMin := -500; yMax := 500 |}.

(** The line that the stop-time check prints. *)
Definition diagnostic : string := "Use a simulation stop time >= 10 seconds".

(** A computation that never calls [exit], prints nothing and destroys no
    channel. *)
Definition quiet {A} (m : M A) : Prop :=
  ∀ w, (∀ s w', m w ≠ Exited s w') ∧
       cout (world_of (m w)) = cout w ∧
       (length (ChannelList w) ≤ length (ChannelList (world_of (m w))))%nat.

(** A computation that does not return from the world [w]. *)
Definition fails {A} (m : M A) (w : World) : Prop := ∀ a w', m w ≠ Ok a w'.

(** A quiet computation that creates a channel, however it ends. *)
Definition busy {A} (m : M A) : Prop :=
  ∀ w, (∀ s w', m w ≠ Exited s w') ∧
       cout (world_of (m w)) = cout w ∧
       (length (ChannelList w) < length (ChannelList (world_of (m w))))%nat.

(** ** Generators to run the program with *)

(** A concrete generator, to run the program: a linear congruential state,
    reduced to the requested range. *)
Definition lcg_next (s : Z) : Z := (1103515245 * s + 12345) mod 2 ^ 31.

Definition lcg_draw (a b s : Z) : Z * Z :=
  (Z.max a (Z.min b (a + lcg_next s mod (b - a + 1))), lcg_next s).

#[global] Instance lcg : UniformRandomBitGenerator :=
  {| Rng := Z; mt19937 := λ seed, seed; uniform_int_distribution := lcg_draw;
     uniform_int_distribution_range := λ a b g Hab,
       conj (Z.le_max_l a _) (Z.max_lub a _ b Hab (Z.le_min_l b _)) |}.

(** A generator that replays a script: each draw returns the next value of
    the script, brought into the requested range. *)
Definition script_draw (a b : Z) (s : list Z) : Z * list Z :=
  match s with
  | [] => (a, [])
  | x :: s' => (Z.max a (Z.min b x), s')
  end.

Definition scripted (script : list Z) : UniformRandomBitGenerator :=
  {| Rng := list Z; mt19937 := λ _, script;
     uniform_int_distribution := script_draw;
     uniform_int_distribution_range := λ a b g Hab,
       match g with
       | [] => conj (Z.le_refl a) Hab
       | x :: _ => conj (Z.le_max_l a _) (Z.max_lub a _ b Hab (Z.le_min_l b _))
       end |}.

(** ** Definitions over a generator *)

Section Vocabulary.
Context `{G : UniformRandomBitGenerator}.

(** The draws: one per cluster, each from the state the previous one left. *)
Fixpoint draws_from (g : Rng) (sizes : list Z) : list Z :=
  match sizes with
  | [] => []
  | n :: rest =>
      (uniform_int_distribution 0 (n - 1) g).1 ::
      draws_from (uniform_int_distribution 0 (n - 1) g).2 rest
  end.

(** The state of the generator after those draws. *)
Fixpoint rng_after (g : Rng) (sizes : list Z) : Rng :=
  match sizes with
  | [] => g
  | n :: rest => rng_after (uniform_int_distribution 0 (n - 1) g).2 rest
  end.

(** The state in which [main] ends, for a seed [rd]. *)
Definition final_heads (sizes : list Z) (rd : Z) : list nat :=
  heads_from 0 sizes (draws_from (mt19937 rd) sizes).

Definition final_locals (cfg : Config) (rd : Z) : Locals :=
  let sizes := infraNodes cfg in
  let count := length sizes in
  {| rng := rng_after (mt19937 rd) sizes;
     ipAddrs := advanced_pools 0 count ++ fresh_pools count (3 - count);
     clusters := containers_from 0 sizes;
     clusterDevices := containers_from 0 sizes;
     head_cluster := final_heads sizes rd;
     ipAddrsH := pool24 (backbone_network + 1) 1;
     head_clusterDevices := seq (total sizes) count |}.

Definition final_world (cfg : Config) (rd : Z) : World :=
  let sizes := infraNodes cfg in
  let count := length sizes in
  let heads := final_heads sizes rd in
  mk_world
    (attach (total sizes) heads (nodes_from 0 0 sizes))
    (devices_from 0 0 sizes ++ imap (backbone_device count) heads)
    (replicate count YansWifiChannel ++ [CsmaChannel])
    (reverse (host_address backbone_network 1 <$> seq 0 count) ++
     used_from 0 sizes [])
    {| sim_stop := Some (stopTime cfg); sim_ran := true; sim_destroyed := true |}
    [].

(** The state in which the cluster loop reaches the cluster of index
    [length pre], the clusters before it (of sizes [pre]) being built and
    [rest] clusters being left. *)
Definition reached_locals (g : Rng) (pre : list Z) (rest : nat) : Locals :=
  {| rng := rng_after g pre;
     ipAddrs := advanced_pools 0 (length pre) ++
                fresh_pools (length pre) (3 - length pre);
     clusters := containers_from 0 pre ++ replicate rest [];
     clusterDevices := containers_from 0 pre ++ replicate rest [];
     head_cluster := heads_from 0 pre (draws_from g pre);
     ipAddrsH := Ipv4AddressHelper_default;
     head_clusterDevices := [] |}.

Definition reached_world (pre : list Z) : World :=
  mk_world (nodes_from 0 0 pre) (devices_from 0 0 pre)
    (replicate (length pre) YansWifiChannel) (used_from 0 pre [])
    (Simulator empty_World) [].

(** The subnets assigned to cluster [j], one per address of its devices. *)
Definition cluster_subnets (L : Locals) (w : World) (j : nat) : list Subnet :=
  default [] (container_subnets w <$> clusterDevices L !! j).

(** The subnets assigned to the backbone. *)
Definition backbone_subnets (L : Locals) (w : World) : list Subnet :=
  container_subnets w (head_clusterDevices L).

(** The index, in its cluster, of the representative of cluster [j]. *)
Definition representative_index (L : Locals) (j : nat) : option nat :=
  c ← clusters L !! j;
  rep ← head_cluster L !! j;
  fst <$> list_find (λ h, h = rep) c.

(** What a run assembled: its result with the simulator's record left out. *)
Definition assembled (r : Result Locals) : Result Locals :=
  let erase := set_Simulator (λ _, Simulator empty_World) in
  match r with
  | Ok L w => Ok L (erase w)
  | Exited s w => Exited s (erase w)
  | Aborted w => Aborted (erase w)
  | Undefined w => Undefined (erase w)
  end.

(** The process ended by [exit] with a non-zero status, having printed a
    diagnostic and created nothing. *)
Definition rejected_before_creation (r : Result Locals) : Prop :=
  ∃ status w, r = Exited status w ∧ status ≠ 0 ∧ cout w ≠ [] ∧ nothing_created w.

End Vocabulary.

(** * Verification *)

(** ** Bits of addresses *)

Lemma land_shifted_low nw a :
  0 ≤ a < 2 ^ 8 → Z.land (nw * 2 ^ 8) a = 0.
Proof.
  intros Ha. apply Z.bits_inj'. intros n Hn.
  rewrite Z.land_spec, Z.bits_0.
  destruct (Z.lt_ge_cases n 8) as [Hlt|Hge].
  - by rewrite Z.mul_pow2_bits_low.
  - assert (Z.testbit a n = false) as ->; [|by rewrite andb_false_r].
    destruct (decide (a = 0)) as [->|Hnz]; [apply Z.bits_0|].
    apply Z.bits_above_log2; [lia|].
    assert (Z.log2 a < 8); [|lia].
    apply Z.log2_lt_pow2; lia.
Qed.

Lemma lor_shifted_low nw a :
  0 ≤ a < 2 ^ 8 → Z.lor (nw * 2 ^ 8) a = nw * 2 ^ 8 + a.
Proof.
  intros Ha. pose proof (land_shifted_low nw a Ha) as Hland.
  by rewrite <- Z.lxor_lor, <- Z.add_nocarry_lxor.
Qed.

(** Masking with 255.255.255.0 clears the host byte. *)
Lemma land_mask24 nw a :
  0 ≤ nw < 2 ^ 24 → 0 ≤ a < 2 ^ 8 →
  Z.land (nw * 2 ^ 8 + a) (Ipv4Mask 255 255 255 0) = nw * 2 ^ 8.
Proof.
  intros Hnw Ha.
  change (Ipv4Mask 255 255 255 0) with (Z.ones 24 * 2 ^ 8).
  rewrite <- (lor_shifted_low nw a Ha).
  rewrite Z.land_lor_distr_l.
  rewrite (Z.land_comm a), (land_shifted_low _ a Ha), Z.lor_0_r.
  rewrite <- !Z.shiftl_mul_pow2 by lia.
  rewrite <- Z.shiftl_land, Z.land_ones by lia.
  by rewrite Z.mod_small.
Qed.

Lemma uint32_t_small z : 0 ≤ z < 2 ^ 32 → uint32_t z = z.
Proof. intros. unfold uint32_t. by apply Z.mod_small. Qed.

(** ** The engine's helpers, on ranges of fresh handles *)

Ltac munfold :=
  unfold subscript in *;
  unfold mbind, mret, M_bind, M_ret, bind, ret, gets, modify,
    undefined, abort, exit in *.

Ltac wsimpl :=
  unfold set_NodeList, set_DeviceList, set_ChannelList,
    set_Ipv4AddressGenerator, set_Simulator, set_cout;
  cbn [NodeList DeviceList ChannelList Ipv4AddressGenerator Simulator cout].

Lemma SetBase_24 nw w :
  0 ≤ nw < 2 ^ 24 →
  SetBase (nw * 2 ^ 8) (Ipv4Mask 255 255 255 0) w = Ok (pool24 nw 1) w.
Proof.
  intros Hnw. unfold SetBase.
  change (uint32_t (Z.lnot (Ipv4Mask 255 255 255 0))) with (2 ^ 8 - 1).
  rewrite land_shifted_low by lia. simpl.
  change (NumAddressBits (Ipv4Mask 255 255 255 0)) with (Some 8).
  munfold. unfold pool24. do 2 f_equal.
  rewrite Z.shiftr_div_pow2 by lia. by rewrite Z.div_mul.
Qed.

Lemma NewAddress_24 nw a nodes devs chans used sim out :
  0 ≤ nw < 2 ^ 24 → 1 ≤ a ≤ 254 → nw * 2 ^ 8 + a ∉ used →
  NewAddress (pool24 nw a) (mk_world nodes devs chans used sim out) =
  Ok (nw * 2 ^ 8 + a, pool24 nw (a + 1))
     (mk_world nodes devs chans ((nw * 2 ^ 8 + a) :: used) sim out).
Proof.
  intros Hnw Ha Hfresh. unfold NewAddress, pool24. cbn [m_address m_max m_network m_shift m_mask m_base].
  destruct (Z.leb_spec a 254) as [_|?]; [|lia].
  rewrite Z.shiftl_mul_pow2 by lia.
  rewrite (uint32_t_small (nw * 2 ^ 8)) by lia.
  rewrite lor_shifted_low by lia.
  munfold. wsimpl.
  rewrite bool_decide_eq_false_2 by done.
  rewrite uint32_t_small by lia. done.
Qed.

(** [Assign] over the devices installed last: device [k] of the range
    receives host [a + k] of the block, and the cursor moves by the number
    of devices. *)
Lemma Assign_range nw nodes chans sim out :
  0 ≤ nw < 2 ^ 24 →
  ∀ newd dl a used,
    1 ≤ a → a + Z.of_nat (length newd) ≤ 255 →
    Forall (λ d, ∃ nd, nodes !! dev_node d = Some nd ∧ node_ipv4 nd = true) newd →
    Forall (λ x, x < nw * 2 ^ 8 + a ∨ nw * 2 ^ 8 + 255 ≤ x) used →
    Assign (pool24 nw a) (seq (length dl) (length newd))
      (mk_world nodes (dl ++ newd) chans used sim out) =
    Ok (pool24 nw (a + Z.of_nat (length newd)))
       (mk_world nodes (dl ++ imap (assigned nw a) newd) chans
          (reverse (host_address nw a <$> seq 0 (length newd)) ++ used) sim out).
Proof.
  intros Hnw newd. induction newd as [|d newd IH]; intros dl a used Ha Hlen Hnodes Hused.
  - simpl. munfold. by rewrite Z.add_0_r.
  - apply Forall_cons in Hnodes as [(nd & Hnd & Hip) Hnodes].
    rewrite length_cons, Nat2Z.inj_succ in Hlen.
    cbn [length seq Assign]. munfold. wsimpl.
    rewrite list_lookup_middle by done. wsimpl.
    rewrite Hnd, Hip.
    rewrite NewAddress_24; [|done|lia|].
    2:{ intros Hin. rewrite Forall_forall in Hused. apply Hused in Hin. lia. }
    cbn [pool24 m_mask]. wsimpl.
    rewrite alter_app_r_alt by lia. rewrite Nat.sub_diag.
    cbn [alter list_alter]. rewrite cons_middle, app_assoc.
    replace (S (length dl))
      with (length (dl ++ [add_address {| ifa_local := nw * 2 ^ 8 + a;
              ifa_mask := Ipv4Mask 255 255 255 0 |} d]))
      by (rewrite length_app; simpl; lia).
    rewrite IH; [|lia|lia|done|].
    2:{ apply Forall_cons. split; [lia|]. eapply Forall_impl; [exact Hused|].
        simpl. intros; lia. }
    f_equal; [f_equal; lia|].
    f_equal.
    + rewrite <- app_assoc. simpl. do 2 f_equal.
      * unfold assigned, host_address. simpl. by rewrite Z.add_0_r.
      * apply imap_ext. intros i x _. unfold assigned, host_address. simpl.
        do 2 f_equal. lia.
    + rewrite fmap_cons, reverse_cons, <- app_assoc. simpl.
      unfold host_address at 3. rewrite Z.add_0_r. do 2 f_equal.
      rewrite <- fmap_S_seq, <- list_fmap_compose.
      apply list_fmap_ext. intros i x _. unfold host_address. simpl. lia.
Qed.

Lemma length_attach c : ∀ d l, length (attach d c l) = length l.
Proof.
  induction c as [|n c IH]; intros d l; simpl; [done|].
  by rewrite IH, length_alter.
Qed.

Lemma Install_devices_spec t ch chans used sim out c :
  ∀ nodes devs,
    Forall (λ n, (n < length nodes)%nat) c →
    Install_devices t ch c (mk_world nodes devs chans used sim out) =
    Ok (seq (length devs) (length c))
       (mk_world (attach (length devs) c nodes) (devs ++ (mk_device t ch <$> c))
          chans used sim out).
Proof.
  induction c as [|n c IH]; intros nodes devs Hc.
  - simpl. munfold. by rewrite app_nil_r.
  - apply Forall_cons in Hc as [Hn Hc].
    destruct (lookup_lt_is_Some_2 nodes n Hn) as [nd Hnd].
    cbn [Install_devices length seq fmap list_fmap attach].
    unfold Install_device. munfold. wsimpl. rewrite Hnd. wsimpl.
    rewrite IH by (by rewrite length_alter).
    rewrite length_app. simpl. rewrite Nat.add_1_r.
    by rewrite <- app_assoc.
Qed.

Lemma attach_range new : ∀ d l,
  attach d (seq (length l) (length new)) (l ++ new) =
  l ++ imap (λ k, add_device (d + k)) new.
Proof.
  induction new as [|x new IH]; intros d l; [done|].
  cbn [length seq attach].
  rewrite alter_app_r_alt by lia. rewrite Nat.sub_diag.
  cbn [alter list_alter]. rewrite cons_middle, app_assoc.
  replace (S (length l)) with (length (l ++ [add_device d x]))
    by (rewrite length_app; simpl; lia).
  rewrite IH, <- app_assoc. simpl. rewrite Nat.add_0_r. do 2 f_equal.
  apply imap_ext. intros i y _. simpl. f_equal. lia.
Qed.

Lemma attach_lookup_notin c : ∀ d l i,
  i ∉ c → attach d c l !! i = l !! i.
Proof.
  induction c as [|n c IH]; intros d l i Hi; [done|].
  apply not_elem_of_cons in Hi as [Hne Hi]. simpl.
  rewrite IH by done. by rewrite list_lookup_alter_ne.
Qed.

Lemma attach_lookup_in c : ∀ d l k i,
  NoDup c → c !! k = Some i →
  attach d c l !! i = add_device (d + k) <$> l !! i.
Proof.
  induction c as [|n c IH]; intros d l k i Hnd Hk; [done|].
  apply NoDup_cons in Hnd as [Hn Hnd].
  destruct k as [|k]; simpl in Hk.
  - injection Hk as ->. simpl.
    rewrite attach_lookup_notin by done.
    by rewrite list_lookup_alter_eq, Nat.add_0_r.
  - simpl. rewrite (IH _ _ k) by done.
    rewrite list_lookup_alter_ne.
    + do 2 f_equal. lia.
    + intros ->. apply Hn. by eapply list_elem_of_lookup_2.
Qed.

Lemma InternetStackHelper_Install_range devs chans used sim out new :
  ∀ l,
    Forall (λ nd, node_ipv4 nd = false) new →
    InternetStackHelper_Install (seq (length l) (length new))
      (mk_world (l ++ new) devs chans used sim out) =
    Ok tt (mk_world (l ++ (set_ipv4 <$> new)) devs chans used sim out).
Proof.
  induction new as [|x new IH]; intros l Hnew; [done|].
  apply Forall_cons in Hnew as [Hx Hnew].
  cbn [length seq InternetStackHelper_Install]. munfold. wsimpl.
  rewrite list_lookup_middle by done. rewrite Hx. wsimpl.
  rewrite alter_app_r_alt by lia. rewrite Nat.sub_diag.
  cbn [alter list_alter]. rewrite cons_middle, app_assoc.
  replace (S (length l)) with (length (l ++ [set_ipv4 x]))
    by (rewrite length_app; simpl; lia).
  rewrite IH by done. by rewrite <- app_assoc.
Qed.

Lemma MobilityHelper_Install_range x0 y0 dx dy width devs chans used sim out new :
  ∀ l cur,
    0 ≤ cur → cur + Z.of_nat (length new) < 2 ^ 32 →
    MobilityHelper_Install
      {| MinX := x0; MinY := y0; DeltaX := dx; DeltaY := dy;
         GridWidth := width; Layout := RowFirst; m_current := cur |}
      (seq (length l) (length new))
      (mk_world (l ++ new) devs chans used sim out) =
    Ok tt (mk_world
             (l ++ imap (λ k, set_position
                (grid_position x0 y0 dx dy width (cur + Z.of_nat k))) new)
             devs chans used sim out).
Proof.
  induction new as [|x new IH]; intros l cur Hcur Hlen; [done|].
  rewrite length_cons, Nat2Z.inj_succ in Hlen.
  cbn [length seq MobilityHelper_Install]. munfold. wsimpl.
  rewrite list_lookup_middle by done.
  unfold GetNext. cbn [Layout MinX MinY DeltaX DeltaY GridWidth m_current].
  wsimpl.
  rewrite alter_app_r_alt by lia. rewrite Nat.sub_diag.
  cbn [alter list_alter]. rewrite cons_middle, app_assoc.
  match goal with |- context [(l ++ [?y]) ++ new] =>
    replace (S (length l)) with (length (l ++ [y]))
      by (rewrite length_app; simpl; lia) end.
  rewrite uint32_t_small by lia.
  rewrite IH by lia. rewrite <- app_assoc. simpl.
  replace (cur + Z.of_nat 0) with cur by lia.
  do 4 f_equal.
  apply imap_ext. intros i y _. simpl. do 2 f_equal. lia.
Qed.

(** The same, for a range given by its length. *)
Lemma attach_range_n d l new m :
  length new = m →
  attach d (seq (length l) m) (l ++ new) = l ++ imap (λ k, add_device (d + k)) new.
Proof. intros <-. apply attach_range. Qed.

Lemma InternetStackHelper_Install_range_n devs chans used sim out new l m :
  length new = m → Forall (λ nd, node_ipv4 nd = false) new →
  InternetStackHelper_Install (seq (length l) m)
    (mk_world (l ++ new) devs chans used sim out) =
  Ok tt (mk_world (l ++ (set_ipv4 <$> new)) devs chans used sim out).
Proof. intros <-. apply InternetStackHelper_Install_range. Qed.

Lemma MobilityHelper_Install_range_n x0 y0 dx dy width devs chans used sim out new l m :
  length new = m → Z.of_nat m < 2 ^ 32 →
  MobilityHelper_Install
    {| MinX := x0; MinY := y0; DeltaX := dx; DeltaY := dy;
       GridWidth := width; Layout := RowFirst; m_current := 0 |}
    (seq (length l) m)
    (mk_world (l ++ new) devs chans used sim out) =
  Ok tt (mk_world
           (l ++ imap (λ k, set_position
              (grid_position x0 y0 dx dy width (Z.of_nat k))) new)
           devs chans used sim out).
Proof.
  intros <- Hm. rewrite MobilityHelper_Install_range by lia.
  do 3 f_equal.
Qed.

Lemma Assign_range_n nw nodes chans sim out newd dl used m first :
  0 ≤ nw < 2 ^ 24 → length dl = first → length newd = m → Z.of_nat m ≤ 254 →
  Forall (λ d, ∃ nd, nodes !! dev_node d = Some nd ∧ node_ipv4 nd = true) newd →
  Forall (λ x, x < nw * 2 ^ 8 + 1 ∨ nw * 2 ^ 8 + 255 ≤ x) used →
  Assign (pool24 nw 1) (seq first m)
    (mk_world nodes (dl ++ newd) chans used sim out) =
  Ok (pool24 nw (1 + Z.of_nat m))
     (mk_world nodes (dl ++ imap (assigned nw 1) newd) chans
        (reverse (host_address nw 1 <$> seq 0 m) ++ used) sim out).
Proof. intros Hnw <- <- Hm. apply Assign_range; [done|lia|lia]. Qed.

(** ** Lists built over a range of indices *)

Lemma imap_fmap_seq {A B} (f : nat → A → B) (g : nat → A) m :
  imap f (g <$> seq 0 m) = (λ k, f k (g k)) <$> seq 0 m.
Proof.
  apply list_eq. intros j.
  rewrite list_lookup_imap, !list_lookup_fmap.
  destruct (decide (j < m)%nat) as [Hlt|Hge].
  - by rewrite lookup_seq_lt.
  - by rewrite lookup_seq_ge by lia.
Qed.

Lemma replicate_fmap_seq {A} (x : A) m :
  replicate m x = (λ _, x) <$> seq 0 m.
Proof.
  apply list_eq. intros j. rewrite list_lookup_fmap.
  destruct (decide (j < m)%nat) as [Hlt|Hge].
  - by rewrite lookup_replicate_2, lookup_seq_lt.
  - rewrite lookup_seq_ge by lia. apply lookup_replicate_None. lia.
Qed.

Lemma fmap_seq_shift {A} (f : nat → A) first m :
  f <$> seq first m = (λ k, f (first + k)%nat) <$> seq 0 m.
Proof.
  replace first with (first + 0)%nat at 1 by lia.
  by rewrite <- fmap_add_seq, <- list_fmap_compose.
Qed.

Lemma insert_middle {A} (l1 l2 : list A) (x y : A) i :
  length l1 = i → <[i := y]> (l1 ++ x :: l2) = l1 ++ y :: l2.
Proof.
  intros <-. rewrite insert_app_r_alt by lia. by rewrite Nat.sub_diag.
Qed.

(** ** The cluster loop *)

Lemma NewNetwork_24 nw a :
  0 ≤ nw < 2 ^ 24 → NewNetwork (pool24 nw a) = pool24 (nw + 1) 1.
Proof.
  intros Hnw. unfold NewNetwork, pool24. simpl.
  by rewrite uint32_t_small by lia.
Qed.

Lemma int_uint32_t_small z : 0 ≤ z < 2 ^ 31 → int (uint32_t z) = z.
Proof.
  intros Hz. rewrite uint32_t_small by lia. unfold int.
  destruct (Z.ltb_spec z (2 ^ 31)); [done|lia].
Qed.

Lemma int_uint32_t_small_id z : 0 ≤ z < 2 ^ 31 → int z = z.
Proof. intros Hz. unfold int. destruct (Z.ltb_spec z (2 ^ 31)); [done|lia]. Qed.

Section Assembly.
Context `{G : UniformRandomBitGenerator}.

Lemma cluster_body_spec cfg i n first g doneH restH doneC restC doneD xD restD
    heads hH hD nodes devs chans used sim out :
  infraNodes cfg !! i = Some n → 1 ≤ n ≤ 254 → (i < 3)%nat →
  length doneH = i → length doneC = i → length doneD = i →
  length nodes = first → length devs = first → length chans = i →
  Forall (λ x, x < pool_network i * 2 ^ 8) used →
  cluster_body cfg i
    {| rng := g; ipAddrs := doneH ++ pool24 (pool_network i) 1 :: restH;
       clusters := doneC ++ [] :: restC;
       clusterDevices := doneD ++ xD :: restD;
       head_cluster := heads; ipAddrsH := hH; head_clusterDevices := hD |}
    (mk_world nodes devs chans used sim out) =
  Ok {| rng := (uniform_int_distribution 0 (n - 1) g).2;
        ipAddrs := doneH ++ pool24 (pool_network i + 1) 1 :: restH;
        clusters := doneC ++ seq first (Z.to_nat n) :: restC;
        clusterDevices := doneD ++ seq first (Z.to_nat n) :: restD;
        head_cluster :=
          heads ++ [(first + Z.to_nat (uniform_int_distribution 0 (n - 1) g).1)%nat];
        ipAddrsH := hH; head_clusterDevices := hD |}
     (mk_world (nodes ++ (cluster_node i first <$> seq 0 (Z.to_nat n)))
        (devs ++ (cluster_device i first <$> seq 0 (Z.to_nat n)))
        (chans ++ [YansWifiChannel])
        (reverse (host_address (pool_network i) 1 <$> seq 0 (Z.to_nat n)) ++ used)
        sim out).
Proof.
  intros Hn Hsize Hi HlenH HlenC HlenD Hnodes Hdevs Hchans Hused.
  assert (0 ≤ pool_network i < 2 ^ 24) as Hnw by (unfold pool_network; lia).
  unfold cluster_body, Channel_Create, NodeContainer_Create, WifiHelper_Install.
  munfold. wsimpl. cbn [clusters clusterDevices ipAddrs rng head_cluster
    ipAddrsH head_clusterDevices].
  rewrite Hn.
  rewrite (list_lookup_middle doneC) by done.
  rewrite (list_lookup_middle doneD) by done.
  rewrite (list_lookup_middle doneH) by done.
  wsimpl. cbn [app].
  set (m := Z.to_nat n). assert (Z.of_nat m = n) as Hm by lia.
  (* the wireless interconnect *)
  rewrite Install_devices_spec.
  2:{ apply Forall_forall. intros x Hx. apply elem_of_seq in Hx.
      rewrite length_app, length_replicate. lia. }
  rewrite attach_range_n by apply length_replicate.
  rewrite length_seq, Hnodes, Hdevs, Hchans.
  rewrite (replicate_fmap_seq new_Node), imap_fmap_seq.
  (* the network stack *)
  rewrite <- Hnodes at 1.
  rewrite InternetStackHelper_Install_range_n;
    [|by rewrite length_fmap, length_seq|by apply Forall_fmap, Forall_true].
  rewrite <- list_fmap_compose.
  (* the addresses *)
  rewrite Assign_range_n; [|done|done|by rewrite length_fmap, length_seq|lia| |].
  2:{ apply Forall_fmap, Forall_forall. intros x Hx. apply elem_of_seq in Hx.
      simpl. eexists. split; [|shelve].
      rewrite lookup_app_r by lia. rewrite list_lookup_fmap.
      rewrite lookup_seq_lt by lia. simpl. reflexivity. }
  2:{ eapply Forall_impl; [exact Hused|]. simpl. intros; lia. }
  Unshelve. 2: done.
  rewrite (fmap_seq_shift (mk_device _ _)), imap_fmap_seq.
  (* the positions *)
  rewrite <- Hnodes at 1.
  rewrite MobilityHelper_Install_range_n; [|by rewrite length_fmap, length_seq|lia].
  rewrite imap_fmap_seq.
  (* the representative *)
  rewrite int_uint32_t_small by lia.
  destruct (Z.leb_spec 0 (n - 1)) as [_|?]; [|lia].
  pose proof (uniform_int_distribution_range 0 (n - 1) g ltac:(lia)) as Hr.
  destruct (uniform_int_distribution 0 (n - 1) g) as [r g'] eqn:Hdraw.
  simpl in Hr. unfold NodeContainer_Get. munfold.
  destruct (Z.leb_spec 0 r) as [_|?]; [|lia].
  destruct (Z.ltb_spec r (2 ^ 32)) as [_|?]; [|lia].
  cbn [andb]. rewrite lookup_seq_lt by lia.
  rewrite !insert_middle by done.
  rewrite NewNetwork_24 by done.
  done.
Qed.

Lemma cluster_loop_spec cfg hH hD sim out sizes :
  ∀ i first g pre doneH restH doneC doneD heads nodes devs chans used,
    infraNodes cfg = pre ++ sizes → length pre = i →
    Forall (λ n, 1 ≤ n ≤ 254) sizes → (i + length sizes ≤ 3)%nat →
    length doneH = i → length doneC = i → length doneD = i →
    length nodes = first → length devs = first → length chans = i →
    Forall (λ x, x < pool_network i * 2 ^ 8) used →
    cluster_loop cfg (seq i (length sizes))
      {| rng := g; ipAddrs := doneH ++ fresh_pools i (length sizes) ++ restH;
         clusters := doneC ++ replicate (length sizes) [];
         clusterDevices := doneD ++ replicate (length sizes) [];
         head_cluster := heads; ipAddrsH := hH; head_clusterDevices := hD |}
      (mk_world nodes devs chans used sim out) =
    Ok {| rng := rng_after g sizes;
          ipAddrs := doneH ++ advanced_pools i (length sizes) ++ restH;
          clusters := doneC ++ containers_from first sizes;
          clusterDevices := doneD ++ containers_from first sizes;
          head_cluster := heads ++ heads_from first sizes (draws_from g sizes);
          ipAddrsH := hH; head_clusterDevices := hD |}
       (mk_world (nodes ++ nodes_from i first sizes)
          (devs ++ devices_from i first sizes)
          (chans ++ replicate (length sizes) YansWifiChannel)
          (used_from i sizes used) sim out).
Proof.
  induction sizes as [|n sizes IH];
    intros i first g pre doneH restH doneC doneD heads nodes devs chans used
      Hcfg Hpre Hsizes Hi HlenH HlenC HlenD Hnodes Hdevs Hchans Hused.
  - simpl. munfold. by rewrite !app_nil_r.
  - apply Forall_cons in Hsizes as [Hn Hsizes]. simpl in Hi.
    cbn [length seq cluster_loop replicate fresh_pools fmap list_fmap app].
    munfold.
    rewrite (cluster_body_spec cfg i n first); try done; [| |lia].
    2:{ rewrite Hcfg. by apply list_lookup_middle. }
    rewrite (cons_middle _ doneH), (cons_middle _ doneC), (cons_middle _ doneD).
    rewrite !app_assoc.
    specialize (IH (S i) (first + Z.to_nat n)%nat
      (uniform_int_distribution 0 (n - 1) g).2 (pre ++ [n])
      (doneH ++ [pool24 (pool_network i + 1) 1]) restH
      (doneC ++ [seq first (Z.to_nat n)]) (doneD ++ [seq first (Z.to_nat n)])
      (heads ++ [(first + Z.to_nat (uniform_int_distribution 0 (n - 1) g).1)%nat])).
    rewrite <- !app_assoc in IH. rewrite <- !app_assoc.
    unfold fresh_pools in IH. erewrite IH; clear IH.
    + cbn [nodes_from devices_from containers_from used_from draws_from
             rng_after heads_from advanced_pools length seq replicate fmap list_fmap app].
      rewrite <- !app_assoc. simpl. done.
    + by rewrite Hcfg.
    + rewrite length_app. simpl. lia.
    + done.
    + lia.
    + rewrite length_app. simpl. lia.
    + rewrite length_app. simpl. lia.
    + rewrite length_app. simpl. lia.
    + rewrite length_app, length_fmap, length_seq. lia.
    + rewrite length_app, length_fmap, length_seq. lia.
    + rewrite length_app. simpl. lia.
    + apply Forall_app. split.
      * apply Forall_reverse, Forall_fmap, Forall_forall. intros k Hk.
        apply elem_of_seq in Hk. unfold host_address, pool_network. simpl. lia.
      * eapply Forall_impl; [exact Hused|]. unfold pool_network. simpl.
        intros; lia.
Qed.

(** *** Facts on the state the loop builds *)

Lemma offset_0 sizes : offset sizes 0 = 0%nat.
Proof. unfold offset. by rewrite take_0. Qed.

Lemma offset_cons n sizes j :
  offset (n :: sizes) (S j) = (Z.to_nat n + offset sizes j)%nat.
Proof. done. Qed.

Lemma total_cons n sizes : total (n :: sizes) = (Z.to_nat n + total sizes)%nat.
Proof. done. Qed.

Lemma total_nil : total [] = 0%nat.
Proof. done. Qed.

#[local] Arguments offset : simpl never.
#[local] Arguments total : simpl never.

Lemma offset_lt_total sizes j n :
  sizes !! j = Some n → (offset sizes j + Z.to_nat n ≤ total sizes)%nat.
Proof.
  revert j. induction sizes as [|x sizes IH]; intros [|j] Hj; simplify_eq/=.
  - rewrite ?offset_0, ?total_cons. lia.
  - rewrite ?offset_cons, ?total_cons. apply IH in Hj. lia.
Qed.

Lemma length_nodes_from sizes : ∀ i first,
  length (nodes_from i first sizes) = total sizes.
Proof.
  induction sizes as [|n sizes IH]; intros i first; [done|].
  simpl. by rewrite length_app, length_fmap, length_seq, IH, total_cons.
Qed.

Lemma length_devices_from sizes : ∀ i first,
  length (devices_from i first sizes) = total sizes.
Proof.
  induction sizes as [|n sizes IH]; intros i first; [done|].
  simpl. by rewrite length_app, length_fmap, length_seq, IH, total_cons.
Qed.

Lemma length_containers_from sizes : ∀ first,
  length (containers_from first sizes) = length sizes.
Proof.
  induction sizes as [|n sizes IH]; intros first; [done|].
  simpl. by rewrite IH.
Qed.

Lemma length_draws_from sizes : ∀ g, length (draws_from g sizes) = length sizes.
Proof.
  induction sizes as [|n sizes IH]; intros g; [done|]. simpl. by rewrite IH.
Qed.

Lemma length_heads_from sizes : ∀ first draws,
  length draws = length sizes →
  length (heads_from first sizes draws) = length sizes.
Proof.
  induction sizes as [|n sizes IH]; intros first [|r draws] Hlen;
    simplify_eq/=; [done|]. by rewrite IH.
Qed.

Lemma containers_from_lookup sizes : ∀ first j n,
  sizes !! j = Some n →
  containers_from first sizes !! j =
  Some (seq (first + offset sizes j) (Z.to_nat n)).
Proof.
  induction sizes as [|x sizes IH]; intros first [|j] n Hj; simplify_eq/=.
  - by rewrite ?offset_0, ?Nat.add_0_r.
  - rewrite (IH _ _ _ Hj), ?offset_cons. do 2 f_equal. lia.
Qed.

Lemma nodes_from_lookup sizes : ∀ i first j n k,
  sizes !! j = Some n → (k < Z.to_nat n)%nat →
  nodes_from i first sizes !! (offset sizes j + k)%nat =
  Some (cluster_node (i + j) (first + offset sizes j) k).
Proof.
  induction sizes as [|x sizes IH]; intros i first [|j] n k Hj Hk; simplify_eq/=.
  - rewrite ?offset_0, ?Nat.add_0_r. simpl.
    rewrite lookup_app_l by (by rewrite length_fmap, length_seq).
    by rewrite list_lookup_fmap, lookup_seq_lt.
  - rewrite ?offset_cons.
    rewrite lookup_app_r by (rewrite length_fmap, length_seq; lia).
    rewrite length_fmap, length_seq.
    replace (Z.to_nat x + offset sizes j + k - Z.to_nat x)%nat
      with (offset sizes j + k)%nat by lia.
    rewrite (IH _ _ _ _ _ Hj Hk). do 2 f_equal; lia.
Qed.

Lemma devices_from_lookup sizes : ∀ i first j n k,
  sizes !! j = Some n → (k < Z.to_nat n)%nat →
  devices_from i first sizes !! (offset sizes j + k)%nat =
  Some (cluster_device (i + j) (first + offset sizes j) k).
Proof.
  induction sizes as [|x sizes IH]; intros i first [|j] n k Hj Hk; simplify_eq/=.
  - rewrite ?offset_0, ?Nat.add_0_r. simpl.
    rewrite lookup_app_l by (by rewrite length_fmap, length_seq).
    by rewrite list_lookup_fmap, lookup_seq_lt.
  - rewrite ?offset_cons.
    rewrite lookup_app_r by (rewrite length_fmap, length_seq; lia).
    rewrite length_fmap, length_seq.
    replace (Z.to_nat x + offset sizes j + k - Z.to_nat x)%nat
      with (offset sizes j + k)%nat by lia.
    rewrite (IH _ _ _ _ _ Hj Hk). do 2 f_equal; lia.
Qed.

(** Every handle below the total belongs to exactly one cluster. *)
Lemma offset_decompose sizes : ∀ h,
  (h < total sizes)%nat →
  ∃ j n k, sizes !! j = Some n ∧ (k < Z.to_nat n)%nat ∧ h = (offset sizes j + k)%nat.
Proof.
  induction sizes as [|x sizes IH]; intros h Hh.
  - rewrite total_nil in Hh. lia.
  - rewrite total_cons in Hh.
    destruct (decide (h < Z.to_nat x)%nat) as [Hlt|Hge].
    + exists 0%nat, x, h. by rewrite offset_0.
    + destruct (IH (h - Z.to_nat x)%nat) as (j & n & k & Hj & Hk & Heq);
        [lia|].
      exists (S j), n, k. rewrite ?offset_cons. split_and!; [done|done|lia].
Qed.

Lemma offset_mono sizes j j' n :
  sizes !! j = Some n → (j < j')%nat →
  (offset sizes j + Z.to_nat n ≤ offset sizes j')%nat.
Proof.
  revert j j'. induction sizes as [|x sizes IH]; intros [|j] [|j'] Hj Hlt;
    simplify_eq/=; try lia.
  - rewrite ?offset_0, ?offset_cons. lia.
  - rewrite ?offset_cons. apply (IH j j') in Hj; lia.
Qed.

(** A handle determines its cluster and its index in the cluster. *)
Lemma offset_inj sizes j j' n n' k k' :
  sizes !! j = Some n → sizes !! j' = Some n' →
  (k < Z.to_nat n)%nat → (k' < Z.to_nat n')%nat →
  (offset sizes j + k = offset sizes j' + k')%nat →
  j = j' ∧ k = k'.
Proof.
  intros Hj Hj' Hk Hk' Heq.
  destruct (Nat.lt_total j j') as [Hlt|[->|Hlt]].
  - pose proof (offset_mono _ _ _ _ Hj Hlt). lia.
  - split; [done|lia].
  - pose proof (offset_mono _ _ _ _ Hj' Hlt). lia.
Qed.

Lemma draws_from_range sizes : ∀ g j n r,
  Forall (λ n, 1 ≤ n) sizes →
  sizes !! j = Some n → draws_from g sizes !! j = Some r →
  0 ≤ r ≤ n - 1.
Proof.
  induction sizes as [|x sizes IH]; intros g [|j] n r Hsizes Hj Hr;
    apply Forall_cons in Hsizes as [Hx Hsizes] || idtac; simplify_eq/=.
  - apply uniform_int_distribution_range. lia.
  - by eapply IH.
Qed.

Lemma heads_from_lookup sizes : ∀ first draws j n r,
  sizes !! j = Some n → draws !! j = Some r →
  heads_from first sizes draws !! j =
  Some (first + offset sizes j + Z.to_nat r)%nat.
Proof.
  induction sizes as [|x sizes IH]; intros first [|d draws] [|j] n r Hj Hr;
    simplify_eq/=.
  - by rewrite ?offset_0, ?Nat.add_0_r.
  - rewrite (IH _ _ _ _ _ Hj Hr), ?offset_cons. do 2 f_equal. lia.
Qed.

Lemma heads_from_bounds sizes : ∀ first draws,
  Forall2 (λ n r, 0 ≤ r ≤ n - 1) sizes draws →
  Forall (λ h, (first ≤ h < first + total sizes)%nat)
    (heads_from first sizes draws).
Proof.
  induction sizes as [|n sizes IH]; intros first draws Hd;
    inversion Hd as [|? r ? draws' Hr Hd']; subst; simpl; [done|].
  rewrite total_cons. apply Forall_cons. split; [lia|].
  eapply Forall_impl; [apply IH; exact Hd'|]. simpl. intros; lia.
Qed.

Lemma draws_from_Forall2 sizes : ∀ g,
  Forall (λ n, 1 ≤ n) sizes →
  Forall2 (λ n r, 0 ≤ r ≤ n - 1) sizes (draws_from g sizes).
Proof.
  induction sizes as [|n sizes IH]; intros g Hs; simpl; [done|].
  apply Forall_cons in Hs as [Hn Hs]. apply Forall2_cons. split.
  - apply uniform_int_distribution_range. lia.
  - by apply IH.
Qed.

(** Representatives of distinct clusters are distinct nodes. *)
Lemma heads_from_NoDup sizes : ∀ first draws,
  Forall2 (λ n r, 0 ≤ r ≤ n - 1) sizes draws →
  NoDup (heads_from first sizes draws).
Proof.
  induction sizes as [|n sizes IH]; intros first draws Hd;
    inversion Hd as [|? r ? draws' Hr Hd']; subst; simpl; [constructor|].
  apply NoDup_cons. split; [|by apply IH].
  intros Hin. pose proof (heads_from_bounds sizes (first + Z.to_nat n) draws' Hd') as Hb.
  rewrite Forall_forall in Hb. apply Hb in Hin. lia.
Qed.

Lemma used_from_Forall (P : Z → Prop) sizes : ∀ i used,
  Forall P used →
  (∀ j k, P (host_address (pool_network j) 1 k)) →
  Forall P (used_from i sizes used).
Proof.
  induction sizes as [|n sizes IH]; intros i used Hused HP; [done|].
  simpl. apply IH; [|done]. apply Forall_app. split; [|done].
  apply Forall_reverse, Forall_fmap, Forall_forall. intros k _. apply HP.
Qed.

Lemma nodes_from_ipv4 sizes : ∀ i first,
  Forall (λ nd, node_ipv4 nd = true) (nodes_from i first sizes).
Proof.
  induction sizes as [|n sizes IH]; intros i first; simpl; [done|].
  apply Forall_app. split; [|apply IH].
  by apply Forall_fmap, Forall_true.
Qed.

Lemma attach_ipv4 c : ∀ d l,
  Forall (λ nd, node_ipv4 nd = true) l →
  Forall (λ nd, node_ipv4 nd = true) (attach d c l).
Proof.
  induction c as [|n c IH]; intros d l Hl; [done|].
  simpl. apply IH. apply Forall_forall. intros nd Hnd.
  apply list_elem_of_lookup in Hnd as [i Hi].
  rewrite Forall_forall in Hl.
  destruct (decide (n = i)) as [->|Hne].
  - rewrite list_lookup_alter_eq in Hi.
    destruct (l !! i) as [nd0|] eqn:E; simplify_eq/=.
    apply Hl. by eapply list_elem_of_lookup_2.
  - rewrite list_lookup_alter_ne in Hi by done.
    apply Hl. by eapply list_elem_of_lookup_2.
Qed.

(** ** The backbone and the whole of [main] *)

Lemma construct_clusters_spec cfg g :
  wf_config cfg →
  let sizes := infraNodes cfg in
  let count := length sizes in
  construct_clusters cfg g empty_World =
  Ok {| rng := rng_after g sizes;
        ipAddrs := advanced_pools 0 count ++ fresh_pools count (3 - count);
        clusters := containers_from 0 sizes;
        clusterDevices := containers_from 0 sizes;
        head_cluster := heads_from 0 sizes (draws_from g sizes);
        ipAddrsH := Ipv4AddressHelper_default;
        head_clusterDevices := [] |}
     (mk_world (nodes_from 0 0 sizes) (devices_from 0 0 sizes)
        (replicate count YansWifiChannel) (used_from 0 sizes [])
        (Simulator empty_World) []).
Proof.
  intros [Hcount Hpools Hsizes] sizes count.
  unfold construct_clusters. munfold.
  change (Ipv4Address 192 167 0 0) with (pool_network 0 * 2 ^ 8).
  change (Ipv4Address 192 168 0 0) with (pool_network 1 * 2 ^ 8).
  change (Ipv4Address 192 169 0 0) with (pool_network 2 * 2 ^ 8).
  rewrite !SetBase_24 by (unfold pool_network; lia).
  rewrite Hcount, int_uint32_t_small_id, !Nat2Z.id by lia.
  fold sizes count.
  change [pool24 (pool_network 0) 1; pool24 (pool_network 1) 1;
          pool24 (pool_network 2) 1] with (fresh_pools 0 3).
  replace (fresh_pools 0 3)
    with ([] ++ fresh_pools 0 count ++ fresh_pools count (3 - count)).
  2:{ assert (count ≤ 3)%nat by done.
      simpl. unfold fresh_pools. rewrite <- fmap_app.
      change count with (0 + count)%nat at 2.
      rewrite <- (seq_app count (3 - count) 0). do 2 f_equal. lia. }
  change (replicate count []) with ([] ++ replicate count (@nil nat)).
  unfold empty_World.
  erewrite (cluster_loop_spec cfg _ _ _ _ sizes 0 0 g [] [] _ [] [] [] [] [] [] []);
    try done.
Qed.

Lemma main_with_spec cfg rd :
  wf_config cfg → 10 ≤ stopTime cfg →
  main_with cfg rd = Ok (final_locals cfg rd) (final_world cfg rd).
Proof.
  intros Hwf Hstop. pose proof Hwf as [Hcount Hpools Hsizes].
  unfold main_with. munfold.
  destruct (Z.ltb_spec (stopTime cfg) 10) as [?|_]; [lia|].
  rewrite construct_clusters_spec by done.
  unfold assemble_backbone, CsmaHelper_Install, Channel_Create. munfold. wsimpl.
  cbn [head_cluster rng ipAddrs clusters clusterDevices].
  change (Ipv4Address 172 16 0 0) with (backbone_network * 2 ^ 8).
  rewrite SetBase_24 by (unfold backbone_network; lia). wsimpl.
  set (sizes := infraNodes cfg). set (count := length sizes).
  set (heads := heads_from 0 sizes (draws_from (mt19937 rd) sizes)).
  assert (Forall2 (λ n r, 0 ≤ r ≤ n - 1) sizes (draws_from (mt19937 rd) sizes))
    as Hdraws.
  { apply draws_from_Forall2. eapply Forall_impl; [exact Hsizes|].
    simpl. intros; lia. }
  assert (length heads = count) as Hheads.
  { apply length_heads_from, length_draws_from. }
  assert (count ≤ 3)%nat as Hc by done.
  (* the wired interconnect *)
  rewrite Install_devices_spec.
  2:{ eapply Forall_impl; [by apply heads_from_bounds|].
      simpl. intros h Hh. rewrite length_nodes_from. lia. }
  wsimpl. rewrite length_devices_from, length_replicate, Hheads.
  (* the backbone addresses *)
  rewrite Assign_range_n;
    [|unfold backbone_network; lia|apply length_devices_from
     |by rewrite length_fmap|lia| |].
  2:{ apply Forall_fmap, Forall_forall. intros h Hh. simpl.
      pose proof (heads_from_bounds sizes 0 _ Hdraws) as Hb.
      rewrite Forall_forall in Hb. apply Hb in Hh.
      destruct (lookup_lt_is_Some_2
        (attach (total sizes) heads (nodes_from 0 0 sizes)) h) as [nd Hnd].
      { rewrite length_attach, length_nodes_from. lia. }
      exists nd. split; [done|].
      pose proof (attach_ipv4 heads (total sizes) _ (nodes_from_ipv4 sizes 0 0)) as Hip.
      rewrite Forall_forall in Hip. apply Hip.
      by eapply list_elem_of_lookup_2. }
  2:{ apply used_from_Forall; [done|]. intros j k. right.
      unfold host_address, pool_network, backbone_network. lia. }
  rewrite NewNetwork_24 by (unfold backbone_network; lia).
  unfold run_simulation, Simulator_Stop, Simulator_Run, Simulator_Destroy.
  munfold. wsimpl. cbn [sim_stop sim_ran sim_destroyed].
  rewrite imap_fmap.
  done.
Qed.

(** With a stop time below 10 the run ends in the check. *)
Lemma main_with_low cfg rd :
  stopTime cfg < 10 →
  main_with cfg rd = Exited 1 (set_cout (λ _, [diagnostic]) empty_World).
Proof.
  intros Hlow. unfold main_with. munfold.
  destruct (Z.ltb_spec (stopTime cfg) 10) as [_|?]; [done|lia].
Qed.

(** *** The final state, handle by handle *)

Section Final.
Variables (cfg : Config) (rd : Z).
Hypothesis Hwf : wf_config cfg.

Let sizes := infraNodes cfg.
Let draws := draws_from (mt19937 rd) sizes.

Lemma final_draws_range j n r :
  sizes !! j = Some n → draws !! j = Some r → 0 ≤ r ≤ n - 1.
Proof.
  apply draws_from_range. eapply Forall_impl; [apply (wf_sizes _ Hwf)|].
  simpl. intros; lia.
Qed.

Lemma final_draws_Forall2 : Forall2 (λ n r, 0 ≤ r ≤ n - 1) sizes draws.
Proof.
  apply draws_from_Forall2. eapply Forall_impl; [apply (wf_sizes _ Hwf)|].
  simpl. intros; lia.
Qed.

Lemma final_draw_exists j n :
  sizes !! j = Some n → ∃ r, draws !! j = Some r.
Proof.
  intros Hj. apply lookup_lt_is_Some_2. unfold draws.
  rewrite length_draws_from. by eapply lookup_lt_Some.
Qed.

Lemma final_size_range j n : sizes !! j = Some n → 1 ≤ n ≤ 254.
Proof.
  intros Hj. pose proof (wf_sizes _ Hwf) as Hs.
  rewrite Forall_forall in Hs. apply Hs. by eapply list_elem_of_lookup_2.
Qed.

Lemma final_head j n r :
  sizes !! j = Some n → draws !! j = Some r →
  final_heads sizes rd !! j = Some (offset sizes j + Z.to_nat r)%nat.
Proof.
  intros Hj Hr. unfold final_heads. fold draws.
  by rewrite (heads_from_lookup _ _ _ _ _ _ Hj Hr).
Qed.

Lemma final_head_inv j h :
  final_heads sizes rd !! j = Some h →
  ∃ n r, sizes !! j = Some n ∧ draws !! j = Some r ∧
         h = (offset sizes j + Z.to_nat r)%nat.
Proof.
  intros Hh.
  assert (j < length sizes)%nat as Hlt.
  { apply lookup_lt_Some in Hh. unfold final_heads in Hh.
    by rewrite length_heads_from in Hh by apply length_draws_from. }
  destruct (lookup_lt_is_Some_2 sizes j Hlt) as [n Hn].
  destruct (final_draw_exists j n Hn) as [r Hr].
  exists n, r. split_and!; [done|done|].
  rewrite (final_head j n r Hn Hr) in Hh. by injection Hh.
Qed.

Lemma final_cluster_device j n k :
  sizes !! j = Some n → (k < Z.to_nat n)%nat →
  DeviceList (final_world cfg rd) !! (offset sizes j + k)%nat =
  Some (cluster_device j (offset sizes j) k).
Proof.
  intros Hj Hk. unfold final_world. wsimpl. fold sizes.
  rewrite lookup_app_l.
  - by rewrite (devices_from_lookup sizes 0 0 j n k Hj Hk).
  - rewrite length_devices_from. pose proof (offset_lt_total _ _ _ Hj). lia.
Qed.

Lemma final_backbone_device j h :
  final_heads sizes rd !! j = Some h →
  DeviceList (final_world cfg rd) !! (total sizes + j)%nat =
  Some (backbone_device (length sizes) j h).
Proof.
  intros Hh. unfold final_world. wsimpl. fold sizes.
  rewrite lookup_app_r by (rewrite length_devices_from; lia).
  rewrite length_devices_from.
  replace (total sizes + j - total sizes)%nat with j by lia.
  by rewrite list_lookup_imap, Hh.
Qed.

(** A member of a cluster carries its wireless device; the representative
    carries the backbone device as well. *)
Lemma final_node j n k r :
  sizes !! j = Some n → (k < Z.to_nat n)%nat → draws !! j = Some r →
  NodeList (final_world cfg rd) !! (offset sizes j + k)%nat =
  Some {| node_devices :=
            (offset sizes j + k)%nat ::
            (if decide (k = Z.to_nat r) then [(total sizes + j)%nat] else []);
          node_ipv4 := true;
          node_position :=
            Some (grid_position ((Z.of_nat j + 1) * 50) ((Z.of_nat j + 1) * 20)
                    5 10 2 (Z.of_nat k)) |}.
Proof.
  intros Hj Hk Hr. unfold final_world. wsimpl. fold sizes.
  pose proof (nodes_from_lookup sizes 0 0 j n k Hj Hk) as Hnode.
  destruct (decide (k = Z.to_nat r)) as [->|Hne].
  - rewrite (attach_lookup_in _ _ _ j).
    + by rewrite Hnode.
    + apply heads_from_NoDup, final_draws_Forall2.
    + by apply final_head with n.
  - rewrite attach_lookup_notin; [by rewrite Hnode|].
    intros Hin. apply list_elem_of_lookup in Hin as [j' Hj'].
    apply final_head_inv in Hj' as (n' & r' & Hn' & Hr' & Heq).
    pose proof (final_draws_range _ _ _ Hn' Hr').
    destruct (offset_inj sizes j j' n n' k (Z.to_nat r')) as [-> ->];
      [done|done|done|lia|done|].
    rewrite Hr in Hr'. by simplify_eq.
Qed.

End Final.

End Assembly.

(** ** Runs that do not complete

    The configurations of [wf_config] are the only ones on which [main]
    reaches its end: a cluster of size 0 ends the run in the draw over an
    empty range, a cluster beyond the 254 hosts of its block in the
    exhaustion of the block, and a fourth cluster in the subscript of the
    three declared pools. *)

Section Completion.
Context `{G : UniformRandomBitGenerator}.

Ltac fail_step :=
  match goal with
  | |- ?X ≠ Ok _ _ =>
      match X with
      | context [match ?x with _ => _ end] =>
          lazymatch x with
          | context [match _ with _ => _ end] => fail
          | _ => destruct x eqn:?
          end
      end
  end.

Lemma Install_devices_length t ch c : ∀ w ds w',
  Install_devices t ch c w = Ok ds w' → length ds = length c.
Proof.
  induction c as [|n c IH]; intros w ds w' Hrun.
  - simpl in Hrun. munfold. by injection Hrun as <- _.
  - simpl in Hrun. unfold Install_device in Hrun. munfold.
    destruct (NodeList w !! n); [|done]. simpl in Hrun.
    match type of Hrun with context [Install_devices t ch c ?w1] =>
      destruct (Install_devices t ch c w1) as [ds1 w1'| | |] eqn:E; [|done..] end.
    injection Hrun as <- _. simpl. f_equal. by eapply IH.
Qed.

(** A /24 block has 254 hosts: assigning more ends in the engine's
    exhaustion assertion (or earlier), never in a return. *)
Lemma Assign_fails nw c : ∀ a w,
  1 ≤ a ≤ 255 → 255 < a + Z.of_nat (length c) → fails (Assign (pool24 nw a) c) w.
Proof.
  induction c as [|d c IH]; intros a w Ha Hlen h' w'; [simpl in Hlen; lia|].
  rewrite length_cons, Nat2Z.inj_succ in Hlen.
  cbn [Assign]. munfold.
  destruct (DeviceList w !! d) as [dev|]; [|done]. simpl.
  destruct (NodeList w !! dev_node dev) as [nd|]; [|done]. simpl.
  destruct (node_ipv4 nd); [|done].
  unfold NewAddress. cbn [pool24 m_address m_max m_network m_shift m_mask m_base].
  destruct (Z.leb_spec a 254) as [Hle|?]; [|done].
  munfold. destruct (bool_decide _); [done|]. wsimpl.
  rewrite (uint32_t_small (a + 1)) by lia.
  apply (IH (a + 1)); lia.
Qed.

(** No pool for the cluster: the subscript of [ipAddrs] is out of range. *)
Lemma cluster_body_fails_pool cfg i L w :
  ipAddrs L !! i = None → fails (cluster_body cfg i L) w.
Proof.
  intros Hpool L' w'. unfold cluster_body, Channel_Create, NodeContainer_Create.
  munfold. rewrite Hpool. repeat fail_step; done.
Qed.

(** A cluster of requested size 0 (or below): no node to select. *)
Lemma cluster_body_fails_empty cfg i L n w :
  infraNodes cfg !! i = Some n → clusters L !! i = Some [] → n ≤ 0 →
  fails (cluster_body cfg i L) w.
Proof.
  intros Hn Hc Hle L' w'.
  unfold cluster_body, Channel_Create, NodeContainer_Create, WifiHelper_Install,
    NodeContainer_Get.
  munfold. rewrite Hn, Hc. replace (Z.to_nat n) with 0%nat by lia.
  cbn [seq app Install_devices InternetStackHelper_Install MobilityHelper_Install].
  munfold. repeat fail_step; try done.
Qed.

(** A cluster beyond the hosts of its block. *)
Lemma cluster_body_fails_large cfg i L n nw w :
  infraNodes cfg !! i = Some n → ipAddrs L !! i = Some (pool24 nw 1) → 254 < n →
  fails (cluster_body cfg i L) w.
Proof.
  intros Hn Hpool Hlarge L' w'.
  unfold cluster_body, Channel_Create, NodeContainer_Create, WifiHelper_Install.
  munfold. rewrite Hn, Hpool.
  destruct (clusters L !! i) as [c|]; [|done]. wsimpl.
  destruct (clusterDevices L !! i); [|done]. wsimpl.
  match goal with |- context [Install_devices ?t ?ch ?c1 ?w1] =>
    destruct (Install_devices t ch c1 w1) as [devs w1'| | |] eqn:Einstall;
      [|done..] end.
  apply Install_devices_length in Einstall.
  rewrite length_app, length_seq in Einstall.
  match goal with |- context [InternetStackHelper_Install ?c1 ?w1] =>
    destruct (InternetStackHelper_Install c1 w1) as [[] w2| | |]; [|done..] end.
  destruct (Assign (pool24 nw 1) devs w2) as [h w3| | |] eqn:Eassign; [|done..].
  exfalso. eapply (Assign_fails nw devs 1 w2); [lia|lia|exact Eassign].
Qed.

Lemma cluster_loop_fails cfg hH hD sim out sizes :
  ∀ i first g pre doneH doneC doneD heads nodes devs chans used,
    infraNodes cfg = pre ++ sizes → length pre = i → (i ≤ 3)%nat →
    ¬ (Forall (λ n, 1 ≤ n ≤ 254) sizes ∧ (i + length sizes ≤ 3)%nat) →
    length doneH = i → length doneC = i → length doneD = i →
    length nodes = first → length devs = first → length chans = i →
    Forall (λ x, x < pool_network i * 2 ^ 8) used →
    fails (cluster_loop cfg (seq i (length sizes))
      {| rng := g; ipAddrs := doneH ++ fresh_pools i (3 - i);
         clusters := doneC ++ replicate (length sizes) [];
         clusterDevices := doneD ++ replicate (length sizes) [];
         head_cluster := heads; ipAddrsH := hH; head_clusterDevices := hD |})
      (mk_world nodes devs chans used sim out).
Proof.
  induction sizes as [|n sizes IH];
    intros i first g pre doneH doneC doneD heads nodes devs chans used
      Hcfg Hpre Hi Hbad HlenH HlenC HlenD Hnodes Hdevs Hchans Hused L' w'.
  { destruct Hbad. split; [done|simpl; lia]. }
  cbn [length seq cluster_loop replicate]. munfold.
  assert (infraNodes cfg !! i = Some n) as Hn
    by (rewrite Hcfg; by apply list_lookup_middle).
  destruct (decide (i = 3%nat)) as [->|Hi3].
  { match goal with |- context [cluster_body cfg 3%nat ?L ?w] =>
      destruct (cluster_body cfg 3%nat L w) as [L1 w1| | |] eqn:Ebody; [|done..] end.
    exfalso. eapply cluster_body_fails_pool; [|exact Ebody].
    cbn [ipAddrs]. rewrite app_nil_r. apply lookup_ge_None. lia. }
  assert (∃ k, (3 - i = S k)%nat) as [k Hk] by (exists (2 - i)%nat; lia).
  rewrite Hk. cbn [fresh_pools seq fmap list_fmap].
  destruct (decide (1 ≤ n ≤ 254)) as [Hok|Hnok].
  - rewrite (cluster_body_spec cfg i n first); try done; [|lia].
    rewrite (cons_middle _ doneH), (cons_middle _ doneC), (cons_middle _ doneD).
    rewrite !app_assoc.
    replace k with (3 - S i)%nat by lia.
    apply (IH (S i) (first + Z.to_nat n)%nat _ (pre ++ [n])).
    + by rewrite Hcfg, <- app_assoc.
    + rewrite length_app. simpl. lia.
    + lia.
    + intros [Hrest Hlen]. apply Hbad. split; [by apply Forall_cons|simpl; lia].
    + rewrite length_app. simpl. lia.
    + rewrite length_app. simpl. lia.
    + rewrite length_app. simpl. lia.
    + rewrite length_app, length_fmap, length_seq. lia.
    + rewrite length_app, length_fmap, length_seq. lia.
    + rewrite length_app. simpl. lia.
    + apply Forall_app. split.
      * apply Forall_reverse, Forall_fmap, Forall_forall. intros j Hj.
        apply elem_of_seq in Hj. unfold host_address, pool_network. simpl. lia.
      * eapply Forall_impl; [exact Hused|]. unfold pool_network. simpl.
        intros; lia.
  - match goal with |- context [cluster_body cfg i ?L ?w] =>
      destruct (cluster_body cfg i L w) as [L1 w1| | |] eqn:Ebody; [|done..] end.
    exfalso. destruct (decide (n ≤ 0)) as [Hle|Hgt].
    + eapply (cluster_body_fails_empty cfg i _ n); [done| |done|exact Ebody].
      cbn [clusters]. by apply list_lookup_middle.
    + eapply (cluster_body_fails_large cfg i _ n (pool_network i));
        [done| |lia|exact Ebody].
      cbn [ipAddrs]. by apply list_lookup_middle.
Qed.

(** The runs that reach the end of [main] are those of the configurations
    on which the assembly is defined ([infraNodes] being the array of
    [clusterHeadNodes] sizes that the source declares). *)
Lemma main_with_Ok_inv cfg rd L w :
  array_typed cfg →
  main_with cfg rd = Ok L w → wf_config cfg ∧ 10 ≤ stopTime cfg.
Proof.
  intros [Hcount Hint] Hrun.
  destruct (Z.lt_ge_cases (stopTime cfg) 10) as [Hlow|Hstop].
  { by rewrite main_with_low in Hrun. }
  split; [|done].
  destruct (decide (Forall (λ n, 1 ≤ n ≤ 254) (infraNodes cfg) ∧
                    (0 + length (infraNodes cfg) ≤ 3)%nat)) as [[Hs Hl]|Hbad].
  { by constructor. }
  exfalso. revert Hrun. unfold main_with. munfold.
  destruct (Z.ltb_spec (stopTime cfg) 10) as [?|_]; [lia|].
  unfold construct_clusters. munfold.
  change (Ipv4Address 192 167 0 0) with (pool_network 0 * 2 ^ 8).
  change (Ipv4Address 192 168 0 0) with (pool_network 1 * 2 ^ 8).
  change (Ipv4Address 192 169 0 0) with (pool_network 2 * 2 ^ 8).
  rewrite !SetBase_24 by (unfold pool_network; lia).
  rewrite Hcount, int_uint32_t_small_id, !Nat2Z.id by lia.
  change [pool24 (pool_network 0) 1; pool24 (pool_network 1) 1;
          pool24 (pool_network 2) 1] with ([] ++ fresh_pools 0 (3 - 0)).
  change (replicate (length (infraNodes cfg)) [])
    with ([] ++ replicate (length (infraNodes cfg)) (@nil nat)).
  match goal with |- context [cluster_loop cfg ?ix ?L0 ?w0] =>
    destruct (cluster_loop cfg ix L0 w0) as [L1 w1| | |] eqn:Eloop; [|done..] end.
  exfalso.
  eapply (cluster_loop_fails cfg _ _ _ _ (infraNodes cfg) 0 0 _ [] [] [] [] [] [] [] [] []);
    [done|done|lia|exact Hbad|done..|exact Eloop].
Qed.

Lemma completes_iff cfg rd :
  array_typed cfg →
  (wf_config cfg ∧ 10 ≤ stopTime cfg ↔ ∃ L w, main_with cfg rd = Ok L w).
Proof.
  intros Htyped. split.
  - intros [Hwf Hstop]. eexists _, _. by apply main_with_spec.
  - intros (L & w & Hrun). by eapply main_with_Ok_inv.
Qed.

(** A run that reaches the end of [main] ends in the state given in closed
    form. *)
Lemma completed_run cfg rd L w :
  array_typed cfg → main_with cfg rd = Ok L w →
  wf_config cfg ∧ 10 ≤ stopTime cfg ∧
  L = final_locals cfg rd ∧ w = final_world cfg rd.
Proof.
  intros Htyped Hrun.
  destruct (main_with_Ok_inv cfg rd L w Htyped Hrun) as [Hwf Hstop].
  rewrite main_with_spec in Hrun by done. injection Hrun as <- <-. done.
Qed.

End Completion.

Lemma shipped_typed : array_typed shipped.
Proof. split; [done|simpl; lia]. Qed.

Lemma shipped_stop : 10 ≤ stopTime shipped.
Proof. simpl. lia. Qed.

(** * The claims *)

(** ** The stop-time check *)

Section Claims.
Context `{G : UniformRandomBitGenerator}.

(** C5.  With [stopTime < 10] the process prints the minimum-stop-time
    diagnostic and exits with status 1, no node, device or channel having
    been created; with [stopTime >= 10] (and a configuration on which the
    assembly is defined) the whole assembly and the simulation run are
    performed and the process ends with status 0. *)
Theorem stop_time_check cfg rd :
  (stopTime cfg < 10 →
   ∃ w, main_with cfg rd = Exited 1 w ∧ exit_status (main_with cfg rd) = Some 1 ∧
        cout w = [diagnostic] ∧ nothing_created w) ∧
  (wf_config cfg → 10 ≤ stopTime cfg →
   ∃ L w, main_with cfg rd = Ok L w ∧ exit_status (main_with cfg rd) = Some 0 ∧
          cout w = [] ∧
          length (NodeList w) = total (infraNodes cfg) ∧
          length (clusters L) = length (infraNodes cfg) ∧
          length (head_cluster L) = length (infraNodes cfg) ∧
          length (head_clusterDevices L) = length (infraNodes cfg) ∧
          Simulator w = {| sim_stop := Some (stopTime cfg); sim_ran := true;
                           sim_destroyed := true |}).
Proof.
  split.
  - intros Hlow. rewrite main_with_low by done.
    eexists. split; [done|]. by repeat split.
  - intros Hwf Hstop. rewrite main_with_spec by done.
    eexists _, _. split; [done|]. unfold final_world, final_locals, final_heads.
    wsimpl. cbn [clusters head_cluster head_clusterDevices].
    rewrite length_attach, length_nodes_from, length_containers_from, length_seq.
    rewrite length_heads_from by apply length_draws_from.
    done.
Qed.

End Claims.

Lemma shipped_wf : wf_config shipped.
Proof.
  constructor; [done|simpl; lia|].
  repeat (apply Forall_cons; split; [simpl; lia|]). done.
Qed.

Lemma stop_time_check_witness :
  (stopTime short_stop < 10 ∧
   ∃ w, @main_with lcg short_stop 5 = Exited 1 w ∧ cout w = [diagnostic] ∧
        NodeList w = []) ∧
  (wf_config shipped ∧ 10 ≤ stopTime shipped) ∧
  ∃ L w, @main_with lcg shipped 5 = Ok L w ∧ length (NodeList w) = 7%nat.
Proof.
  split; [|split].
  - split; [simpl; lia|].
    destruct (proj1 (@stop_time_check lcg short_stop 5) ltac:(simpl; lia))
      as (w & Hrun & _ & Hout & Hnone & _).
    exists w. split_and!; [exact Hrun|exact Hout|exact Hnone].
  - split; [apply shipped_wf|simpl; lia].
  - destruct (proj2 (@stop_time_check lcg shipped 5) shipped_wf shipped_stop)
      as (L & w & Hrun & _ & _ & Hlen & _).
    exists L, w. split; [exact Hrun|exact Hlen].
Defined.

Section Reference.
Context `{G : UniformRandomBitGenerator}.

(** C7.  The reference run (two clusters of sizes 4 and 3, stop time 20),
    whatever the seed: 7 nodes, clusters on 192.167.0.0/24 and
    192.168.0.0/24, 2 representatives, and one backbone interconnect, on
    172.16.0.0/24, whose devices sit on exactly those 2 representatives;
    the engine's stop event is scheduled at 20 and the run is made. *)
Theorem reference_run rd :
  ∃ L w, main rd = Ok L w ∧
    length (NodeList w) = 7%nat ∧
    clusters L = [[0; 1; 2; 3]; [4; 5; 6]]%nat ∧
    cluster_subnets L w 0 =
      replicate 4 {| subnet_network := Ipv4Address 192 167 0 0;
                     subnet_mask := Ipv4Mask 255 255 255 0 |} ∧
    cluster_subnets L w 1 =
      replicate 3 {| subnet_network := Ipv4Address 192 168 0 0;
                     subnet_mask := Ipv4Mask 255 255 255 0 |} ∧
    length (head_cluster L) = 2%nat ∧ NoDup (head_cluster L) ∧
    filter (λ t, t = CsmaChannel) (ChannelList w) = [CsmaChannel] ∧
    dev_node <$> filter (λ d, dev_type d = CsmaChannel) (DeviceList w) =
      head_cluster L ∧
    dev_channel <$> filter (λ d, dev_type d = CsmaChannel) (DeviceList w) =
      [2; 2]%nat ∧
    backbone_subnets L w =
      replicate 2 {| subnet_network := Ipv4Address 172 16 0 0;
                     subnet_mask := Ipv4Mask 255 255 255 0 |} ∧
    sim_stop (Simulator w) = Some 20 ∧ sim_ran (Simulator w) = true.
Proof.
  unfold main. rewrite main_with_spec; [|apply shipped_wf|simpl; lia].
  eexists _, _. split; [reflexivity|].
  pose proof (uniform_int_distribution_range 0 3 (mt19937 rd) ltac:(lia)) as H0.
  pose proof (uniform_int_distribution_range 0 2
    (uniform_int_distribution 0 3 (mt19937 rd)).2 ltac:(lia)) as H1.
  unfold final_world, final_locals, final_heads, cluster_subnets,
    backbone_subnets, container_subnets, device_addresses.
  cbn [infraNodes shipped stopTime clusters clusterDevices head_cluster
       head_clusterDevices NodeList DeviceList ChannelList Simulator].
  cbn [draws_from heads_from].
  change (4 - 1) with 3. change (3 - 1) with 2.
  set (r0 := (uniform_int_distribution 0 3 (mt19937 rd)).1) in *.
  set (r1 := (uniform_int_distribution 0 2
                (uniform_int_distribution 0 3 (mt19937 rd)).2).1) in *.
  clearbody r0 r1.
  split_and!.
  - by rewrite length_attach.
  - done.
  - done.
  - done.
  - done.
  - apply NoDup_cons. split; [|apply NoDup_singleton].
    rewrite list_elem_of_singleton. simpl. lia.
  - done.
  - done.
  - done.
  - done.
  - done.
  - done.
Qed.

(** C10.  As shipped, [stopTime] is the constant 20 and nothing on the
    command line reaches it: in every execution the failure branch of the
    stop-time check is not taken (no diagnostic, no [exit]), and control
    goes on into the assembly, which completes. *)
Theorem shipped_passes_stop_check rd :
  stopTime shipped = 20 ∧
  (∀ status w, main rd ≠ Exited status w) ∧
  cout (world_of (main rd)) = [] ∧
  ∃ L w, main rd = Ok L w ∧ length (NodeList w) = 7%nat ∧
         length (ChannelList w) = 3%nat.
Proof.
  unfold main. rewrite main_with_spec; [|apply shipped_wf|simpl; lia].
  split_and!; [done|done|done|].
  eexists _, _. split; [done|]. unfold final_world. wsimpl.
  by rewrite length_attach.
Qed.

End Reference.

(** ** Subnets of the assembled topology *)

Lemma pool_network_address j :
  (j < 3)%nat → Ipv4Address 192 (167 + Z.of_nat j) 0 0 = pool_network j * 2 ^ 8.
Proof. intros Hj. destruct j as [|[|[|j]]]; [done|done|done|lia]. Qed.

Lemma backbone_network_address : Ipv4Address 172 16 0 0 = backbone_network * 2 ^ 8.
Proof. done. Qed.

Lemma ifa_subnet_host nw k :
  0 ≤ nw < 2 ^ 24 → (k < 254)%nat →
  ifa_subnet {| ifa_local := host_address nw 1 k; ifa_mask := cluster_mask |} =
  {| subnet_network := nw * 2 ^ 8; subnet_mask := Ipv4Mask 255 255 255 0 |}.
Proof.
  intros Hnw Hk. unfold ifa_subnet, host_address, cluster_mask. simpl.
  f_equal. rewrite <- Z.add_assoc. apply land_mask24; lia.
Qed.

(** Subnets of one mask overlap only when they are the same network. *)
Lemma overlap_same_mask s1 s2 :
  subnet_mask s1 = subnet_mask s2 → overlap s1 s2 →
  subnet_network s1 = subnet_network s2.
Proof.
  intros Hmask (a & _ & H1 & H2). unfold in_subnet in *. congruence.
Qed.

Lemma pool_subnets_disjoint j j' :
  j ≠ j' → (j < 3)%nat → (j' < 3)%nat → ¬ overlap (pool_subnet j) (pool_subnet j').
Proof.
  intros Hne Hj Hj' Hov. apply overlap_same_mask in Hov; [|done].
  simpl in Hov. rewrite !pool_network_address in Hov by done.
  unfold pool_network in Hov. lia.
Qed.

Lemma pool_backbone_disjoint j :
  (j < 3)%nat → ¬ overlap (pool_subnet j) backbone_subnet.
Proof.
  intros Hj Hov. apply overlap_same_mask in Hov; [|done].
  simpl in Hov. rewrite pool_network_address, backbone_network_address in Hov by done.
  unfold pool_network, backbone_network in Hov. lia.
Qed.

Section Subnets.
Context `{G : UniformRandomBitGenerator}.

Lemma container_subnets_const w c s :
  (∀ d, d ∈ c → ifa_subnet <$> device_addresses w d = [s]) →
  container_subnets w c = replicate (length c) s.
Proof.
  unfold container_subnets. induction c as [|d c IH]; intros Hc; [done|].
  cbn [mbind list_bind]. rewrite fmap_app, Hc by left.
  simpl. f_equal. apply IH. intros d' Hd'. apply Hc. by right.
Qed.

Lemma final_cluster_subnets cfg rd j n :
  wf_config cfg → infraNodes cfg !! j = Some n →
  cluster_subnets (final_locals cfg rd) (final_world cfg rd) j =
  replicate (Z.to_nat n) (pool_subnet j).
Proof.
  intros Hwf Hj. unfold cluster_subnets, final_locals. cbn [clusterDevices].
  rewrite (containers_from_lookup _ _ _ _ Hj). simpl.
  pose proof (final_size_range cfg Hwf j n Hj) as Hn.
  assert (j < 3)%nat as Hj3.
  { apply lookup_lt_Some in Hj. pose proof (wf_pools _ Hwf). lia. }
  rewrite (container_subnets_const _ _ (pool_subnet j)).
  - by rewrite length_seq.
  - intros d Hd. apply elem_of_seq in Hd.
    replace d with (offset (infraNodes cfg) j + (d - offset (infraNodes cfg) j))%nat
      by lia.
    unfold device_addresses.
    rewrite (final_cluster_device cfg rd j n) by (done || lia).
    simpl. rewrite ifa_subnet_host by (unfold pool_network; lia).
    unfold pool_subnet. by rewrite pool_network_address.
Qed.

Lemma final_backbone_subnets cfg rd :
  wf_config cfg →
  backbone_subnets (final_locals cfg rd) (final_world cfg rd) =
  replicate (length (infraNodes cfg)) backbone_subnet.
Proof.
  intros Hwf. unfold backbone_subnets, final_locals. cbn [head_clusterDevices].
  rewrite (container_subnets_const _ _ backbone_subnet).
  - by rewrite length_seq.
  - intros d Hd. apply elem_of_seq in Hd.
    set (j := (d - total (infraNodes cfg))%nat).
    replace d with (total (infraNodes cfg) + j)%nat by lia.
    destruct (lookup_lt_is_Some_2 (final_heads (infraNodes cfg) rd) j) as [h Hh].
    { unfold final_heads. rewrite length_heads_from by apply length_draws_from. lia. }
    unfold device_addresses.
    rewrite (final_backbone_device cfg rd j h Hh). simpl.
    pose proof (wf_pools _ Hwf).
    rewrite ifa_subnet_host by (unfold backbone_network; lia).
    done.
Qed.

Lemma issued_pool24 nw t :
  0 ≤ nw → nw + Z.of_nat t < 2 ^ 24 →
  issued (pool24 nw 1) t =
  {| subnet_network := (nw + Z.of_nat t) * 2 ^ 8;
     subnet_mask := Ipv4Mask 255 255 255 0 |}.
Proof.
  intros Hnw Ht. unfold issued.
  assert (Nat.iter t NewNetwork (pool24 nw 1) = pool24 (nw + Z.of_nat t) 1) as ->.
  { induction t as [|t IH]; simpl.
    - by rewrite Z.add_0_r.
    - rewrite IH by lia. rewrite NewNetwork_24 by lia. f_equal. lia. }
  unfold current_subnet, pool24. simpl. f_equal.
  rewrite Z.shiftl_mul_pow2 by lia. apply uint32_t_small. lia.
Qed.

(** C1.  The runs that complete are those of the configurations on which
    the assembly is defined, and in every run that completes the subnets of
    distinct clusters do not overlap, the backbone's subnet is 172.16.0.0/24
    and overlaps no cluster's subnet; and in a pool ([SetBase] on a /24
    network), as long as the network numbers of the pool are not exhausted,
    every block issued is strictly above and disjoint from every block
    issued before it. *)
Theorem assembly_subnets_disjoint cfg rd :
  array_typed cfg →
  (wf_config cfg ∧ 10 ≤ stopTime cfg ↔ ∃ L w, main_with cfg rd = Ok L w) ∧
  (∀ L w, main_with cfg rd = Ok L w →
     (∀ j n, infraNodes cfg !! j = Some n →
        cluster_subnets L w j = replicate (Z.to_nat n) (pool_subnet j)) ∧
     backbone_subnets L w = replicate (length (infraNodes cfg)) backbone_subnet ∧
     (∀ j j' s s', j ≠ j' →
        s ∈ cluster_subnets L w j → s' ∈ cluster_subnets L w j' → ¬ overlap s s') ∧
     (∀ j s sb,
        s ∈ cluster_subnets L w j → sb ∈ backbone_subnets L w → ¬ overlap s sb)) ∧
  (∀ nw w0, 0 ≤ nw < 2 ^ 24 →
     ∃ h, SetBase (nw * 2 ^ 8) (Ipv4Mask 255 255 255 0) w0 = Ok h w0 ∧
       ∀ t t', (t < t')%nat → nw + Z.of_nat t' < 2 ^ 24 →
         subnet_network (issued h t) < subnet_network (issued h t') ∧
         ¬ overlap (issued h t) (issued h t')).
Proof.
  intros Htyped. split; [by apply completes_iff|]. split.
  - intros L w Hrun.
    destruct (completed_run cfg rd L w Htyped Hrun) as (Hwf & Hstop & -> & ->).
    assert (∀ j s, s ∈ cluster_subnets (final_locals cfg rd) (final_world cfg rd) j →
              s = pool_subnet j ∧ (j < 3)%nat) as Hcl.
    { intros j s Hs.
      destruct (infraNodes cfg !! j) as [n|] eqn:Hj.
      - rewrite (final_cluster_subnets cfg rd j n Hwf Hj) in Hs.
        apply elem_of_replicate in Hs as [-> _]. split; [done|].
        apply lookup_lt_Some in Hj. pose proof (wf_pools _ Hwf). lia.
      - unfold cluster_subnets, final_locals in Hs. cbn [clusterDevices] in Hs.
        rewrite lookup_ge_None_2 in Hs; [by apply elem_of_nil in Hs|].
        rewrite length_containers_from. by apply lookup_ge_None. }
    split_and!.
    + intros j n Hj. by apply final_cluster_subnets.
    + by apply final_backbone_subnets.
    + intros j j' s s' Hne Hs Hs'.
      apply Hcl in Hs as [-> Hj]. apply Hcl in Hs' as [-> Hj'].
      by apply pool_subnets_disjoint.
    + intros j s sb Hs Hsb. apply Hcl in Hs as [-> Hj].
      rewrite final_backbone_subnets in Hsb by done.
      apply elem_of_replicate in Hsb as [-> _].
      by apply pool_backbone_disjoint.
  - intros nw w0 Hnw. exists (pool24 nw 1). split; [by apply SetBase_24|].
    intros t t' Hlt Hcap. rewrite !issued_pool24 by lia. simpl. split; [lia|].
    intros Hov. apply overlap_same_mask in Hov; [|done]. simpl in Hov. lia.
Qed.

End Subnets.

Lemma assembly_subnets_disjoint_witness :
  array_typed shipped ∧
  ∃ L w, @main_with lcg shipped 5 = Ok L w ∧
         cluster_subnets L w 0 = replicate 4 (pool_subnet 0) ∧
         cluster_subnets L w 1 = replicate 3 (pool_subnet 1) ∧
         backbone_subnets L w = replicate 2 backbone_subnet.
Proof.
  split; [apply shipped_typed|].
  destruct (@assembly_subnets_disjoint lcg shipped 5 shipped_typed)
    as (Hiff & Hrun & _).
  destruct (proj1 Hiff (conj shipped_wf shipped_stop)) as (L & w & HLw).
  destruct (Hrun L w HLw) as (Hcl & Hbb & _).
  exists L, w. split_and!; [exact HLw| | |exact Hbb].
  - exact (Hcl 0%nat 4 eq_refl).
  - exact (Hcl 1%nat 3 eq_refl).
Defined.

(** ** Members of a cluster *)

Lemma in_subnet_host nw k :
  0 ≤ nw < 2 ^ 24 → (k < 254)%nat →
  Z.land (host_address nw 1 k) (Ipv4Mask 255 255 255 0) = nw * 2 ^ 8.
Proof.
  intros Hnw Hk. unfold host_address. rewrite <- Z.add_assoc.
  apply land_mask24; lia.
Qed.

Lemma in_subnet_cluster j k :
  (j < 3)%nat → (k < 254)%nat →
  in_subnet (host_address (pool_network j) 1 k) (pool_subnet j).
Proof.
  intros Hj Hk. unfold in_subnet, pool_subnet. simpl.
  rewrite in_subnet_host by (unfold pool_network; lia).
  by rewrite pool_network_address.
Qed.

Lemma in_subnet_backbone k :
  (k < 254)%nat → in_subnet (host_address backbone_network 1 k) backbone_subnet.
Proof.
  intros Hk. unfold in_subnet, backbone_subnet. simpl.
  by rewrite in_subnet_host by (unfold backbone_network; lia).
Qed.

Lemma not_in_subnet_backbone j k :
  (j < 3)%nat → (k < 254)%nat →
  ¬ in_subnet (host_address backbone_network 1 k) (pool_subnet j).
Proof.
  intros Hj Hk. unfold in_subnet, pool_subnet. simpl.
  rewrite in_subnet_host by (unfold backbone_network; lia).
  rewrite pool_network_address by done.
  unfold pool_network, backbone_network. lia.
Qed.

Lemma not_in_subnet_cluster j k :
  (j < 3)%nat → (k < 254)%nat →
  ¬ in_subnet (host_address (pool_network j) 1 k) backbone_subnet.
Proof.
  intros Hj Hk. unfold in_subnet, backbone_subnet. simpl.
  rewrite in_subnet_host by (unfold pool_network; lia).
  rewrite backbone_network_address.
  unfold pool_network, backbone_network. lia.
Qed.

Section Members.
Context `{G : UniformRandomBitGenerator}.

Section FinalMembers.
Variables (cfg : Config) (rd : Z).
Hypothesis Hwf : wf_config cfg.

Lemma final_cluster_lookup j n :
  infraNodes cfg !! j = Some n →
  clusters (final_locals cfg rd) !! j =
  Some (seq (offset (infraNodes cfg) j) (Z.to_nat n)).
Proof.
  intros Hj. unfold final_locals. cbn [clusters].
  by rewrite (containers_from_lookup _ _ _ _ Hj).
Qed.

Lemma final_index_bounds j n :
  infraNodes cfg !! j = Some n → (j < 3)%nat ∧ (j < length (infraNodes cfg))%nat.
Proof.
  intros Hj. apply lookup_lt_Some in Hj. pose proof (wf_pools _ Hwf). lia.
Qed.

(** The addresses of member [k] of cluster [j]: the cluster address on the
    wireless device and, for the representative, the backbone address on
    the backbone device. *)
Lemma final_node_addresses j n k r nd :
  infraNodes cfg !! j = Some n → (k < Z.to_nat n)%nat →
  draws_from (mt19937 rd) (infraNodes cfg) !! j = Some r →
  NodeList (final_world cfg rd) !! (offset (infraNodes cfg) j + k)%nat = Some nd →
  node_addresses (final_world cfg rd) nd =
  ((offset (infraNodes cfg) j + k)%nat,
   {| ifa_local := host_address (pool_network j) 1 k; ifa_mask := cluster_mask |}) ::
  (if decide (k = Z.to_nat r)
   then [((total (infraNodes cfg) + j)%nat,
          {| ifa_local := host_address backbone_network 1 j;
             ifa_mask := cluster_mask |})]
   else []).
Proof.
  intros Hj Hk Hr Hnd.
  rewrite (final_node cfg rd Hwf j n k r Hj Hk Hr) in Hnd.
  injection Hnd as <-. unfold node_addresses. cbn [node_devices mbind list_bind].
  unfold device_addresses at 1.
  rewrite (final_cluster_device cfg rd j n k Hj Hk). simpl.
  destruct (decide (k = Z.to_nat r)) as [->|Hne]; [|done].
  simpl. unfold device_addresses.
  rewrite (final_backbone_device cfg rd j _ (final_head cfg rd j n r Hj Hr)).
  done.
Qed.

Lemma final_addresses_in_cluster j n k r nd :
  infraNodes cfg !! j = Some n → (k < Z.to_nat n)%nat →
  draws_from (mt19937 rd) (infraNodes cfg) !! j = Some r →
  NodeList (final_world cfg rd) !! (offset (infraNodes cfg) j + k)%nat = Some nd →
  addresses_in (pool_subnet j) (final_world cfg rd) nd =
  [((offset (infraNodes cfg) j + k)%nat,
    {| ifa_local := host_address (pool_network j) 1 k; ifa_mask := cluster_mask |})].
Proof.
  intros Hj Hk Hr Hnd. unfold addresses_in.
  rewrite (final_node_addresses j n k r nd Hj Hk Hr Hnd).
  destruct (final_index_bounds j n Hj) as [Hj3 _].
  pose proof (final_size_range cfg Hwf j n Hj) as Hn.
  rewrite filter_cons_True by (simpl; apply in_subnet_cluster; lia).
  f_equal. destruct (decide (k = Z.to_nat r)); [|done].
  rewrite filter_cons_False; [done|].
  simpl. apply not_in_subnet_backbone; lia.
Qed.

(** Every device of the final state is either the wireless device of a
    member of a cluster or the backbone device of a representative. *)
Lemma final_device_cases d dev :
  DeviceList (final_world cfg rd) !! d = Some dev →
  (∃ j n k, infraNodes cfg !! j = Some n ∧ (k < Z.to_nat n)%nat ∧
            d = (offset (infraNodes cfg) j + k)%nat ∧
            dev = cluster_device j (offset (infraNodes cfg) j) k) ∨
  (∃ j h, final_heads (infraNodes cfg) rd !! j = Some h ∧
          d = (total (infraNodes cfg) + j)%nat ∧
          dev = backbone_device (length (infraNodes cfg)) j h).
Proof.
  intros Hd.
  destruct (decide (d < total (infraNodes cfg))%nat) as [Hlt|Hge].
  - left. destruct (offset_decompose _ _ Hlt) as (j & n & k & Hj & Hk & ->).
    exists j, n, k. split_and!; [done|done|done|].
    rewrite (final_cluster_device cfg rd j n k Hj Hk) in Hd. by injection Hd.
  - right. set (j := (d - total (infraNodes cfg))%nat).
    assert (d = (total (infraNodes cfg) + j)%nat) as Hdj by lia.
    assert (j < length (final_heads (infraNodes cfg) rd))%nat as Hjlt.
    { apply lookup_lt_Some in Hd. unfold final_world in Hd. simpl in Hd.
      rewrite length_app, length_devices_from, length_imap in Hd. lia. }
    destruct (lookup_lt_is_Some_2 _ _ Hjlt) as [h Hh].
    exists j, h. split_and!; [done|done|].
    rewrite Hdj, (final_backbone_device cfg rd j h Hh) in Hd. by injection Hd.
Qed.

End FinalMembers.

(** C2.  The runs that complete are those of the configurations on which
    the assembly is defined (every size at least 1 and within the 254 hosts
    of a /24 block), and in every run that completes, for every cluster of
    requested size [n], exactly [n] nodes are created for the cluster, and
    none beyond the clusters' nodes; each of the [n] nodes has exactly one
    address in the cluster's subnet, held by a wireless device of the node
    that is attached to the channel created for this cluster, on which only
    devices of this cluster's nodes sit. *)
Theorem cluster_members cfg rd :
  array_typed cfg →
  (wf_config cfg ∧ 10 ≤ stopTime cfg ↔ ∃ L w, main_with cfg rd = Ok L w) ∧
  ∀ L w, main_with cfg rd = Ok L w →
    length (NodeList w) = total (infraNodes cfg) ∧
    ∀ j n, infraNodes cfg !! j = Some n →
      ∃ c, clusters L !! j = Some c ∧
        length c = Z.to_nat n ∧ NoDup c ∧
        (∀ j' c' h, j' ≠ j → clusters L !! j' = Some c' → h ∈ c → h ∉ c') ∧
        ChannelList w !! j = Some YansWifiChannel ∧
        (∀ d dev, DeviceList w !! d = Some dev → dev_channel dev = j →
                  dev_node dev ∈ c) ∧
        ∀ h, h ∈ c →
          ∃ nd d dev a,
            NodeList w !! h = Some nd ∧
            addresses_in (pool_subnet j) w nd = [(d, a)] ∧
            d ∈ node_devices nd ∧ DeviceList w !! d = Some dev ∧
            a ∈ dev_addresses dev ∧ dev_node dev = h ∧
            dev_type dev = YansWifiChannel ∧ dev_channel dev = j.
Proof.
  intros Htyped. split; [by apply completes_iff|].
  intros L w Hrun.
  destruct (completed_run cfg rd L w Htyped Hrun) as (Hwf & Hstop & -> & ->).
  split.
  { unfold final_world. wsimpl. by rewrite length_attach, length_nodes_from. }
  intros j n Hj.
  destruct (final_index_bounds cfg Hwf j n Hj) as [Hj3 Hjlt].
  pose proof (final_size_range cfg Hwf j n Hj) as Hn.
  exists (seq (offset (infraNodes cfg) j) (Z.to_nat n)).
  split_and!.
  - by apply final_cluster_lookup.
  - by rewrite length_seq.
  - apply NoDup_seq.
  - intros j' c' h Hne Hc' Hh Hh'.
    destruct (infraNodes cfg !! j') as [n'|] eqn:Hj'.
    + rewrite (final_cluster_lookup cfg rd j' n' Hj') in Hc'. injection Hc' as <-.
      apply elem_of_seq in Hh, Hh'.
      destruct (offset_inj (infraNodes cfg) j j' n n'
        (h - offset (infraNodes cfg) j) (h - offset (infraNodes cfg) j'))
        as [? _]; [done|done|lia|lia|lia|]. congruence.
    + apply lookup_lt_Some in Hc'. unfold final_locals in Hc'. cbn [clusters] in Hc'.
      rewrite length_containers_from in Hc'. apply lookup_ge_None in Hj'. lia.
  - unfold final_world. wsimpl.
    rewrite lookup_app_l by (by rewrite length_replicate).
    by apply lookup_replicate_2.
  - intros d dev Hd Hch.
    destruct (final_device_cases cfg rd d dev Hd)
      as [(j' & n' & k & Hj' & Hk & -> & ->)|(j' & h & Hh & -> & ->)].
    + simpl in Hch. subst j'. simplify_eq. simpl. apply elem_of_seq. lia.
    + simpl in Hch. lia.
  - intros h Hh. apply elem_of_seq in Hh.
    assert (∃ k, h = (offset (infraNodes cfg) j + k)%nat ∧ (k < Z.to_nat n)%nat)
      as (k & -> & Hk) by (exists (h - offset (infraNodes cfg) j)%nat; lia).
    destruct (final_draw_exists cfg rd j n Hj) as [r Hr].
    pose proof (final_node cfg rd Hwf j n k r Hj Hk Hr) as Hnd.
    eexists _, _, _, _. split_and!.
    + exact Hnd.
    + by apply (final_addresses_in_cluster cfg rd Hwf j n k r).
    + simpl. left.
    + by apply (final_cluster_device cfg rd j n k).
    + simpl. left.
    + done.
    + done.
    + done.
Qed.

End Members.

Lemma cluster_members_witness :
  array_typed shipped ∧
  ∃ L w c, @main_with lcg shipped 5 = Ok L w ∧
           length (NodeList w) = 7%nat ∧
           clusters L !! 1%nat = Some c ∧ length c = 3%nat.
Proof.
  split; [apply shipped_typed|].
  destruct (@cluster_members lcg shipped 5 shipped_typed) as (Hiff & Hrun).
  destruct (proj1 Hiff (conj shipped_wf shipped_stop)) as (L & w & HLw).
  destruct (Hrun L w HLw) as (Hlen & Hcl).
  destruct (Hcl 1%nat 3 eq_refl) as (c & Hc & Hlenc & _).
  exists L, w, c. split_and!; [exact HLw|exact Hlen|exact Hc|exact Hlenc].
Defined.

(** ** Representatives *)

Lemma draws_from_scripted script0 sizes : ∀ script,
  Forall2 (λ n r, 0 ≤ r ≤ n - 1) sizes script →
  @draws_from (scripted script0) script sizes = script.
Proof.
  induction sizes as [|n sizes IH]; intros script Hs;
    inversion Hs as [|? r ? script' Hr Hs']; subst; [done|].
  simpl. f_equal; [lia|by apply IH].
Qed.

Section Representatives.
Context `{G : UniformRandomBitGenerator}.

Lemma list_find_seq first m k :
  (k < m)%nat →
  list_find (λ h, h = (first + k)%nat) (seq first m) = Some (k, (first + k)%nat).
Proof.
  intros Hk. apply list_find_Some. split_and!; [by apply lookup_seq_lt|done|].
  intros i y Hy Hi. apply lookup_seq in Hy as [-> _]. lia.
Qed.

Section FinalRepresentatives.
Variables (cfg : Config) (rd : Z).
Hypothesis Hwf : wf_config cfg.

(** The member [k] of cluster [j] is a representative exactly when [k] is
    the index drawn for cluster [j]. *)
Lemma final_head_elem j n k r :
  infraNodes cfg !! j = Some n → (k < Z.to_nat n)%nat →
  draws_from (mt19937 rd) (infraNodes cfg) !! j = Some r →
  (offset (infraNodes cfg) j + k)%nat ∈ final_heads (infraNodes cfg) rd ↔
  k = Z.to_nat r.
Proof.
  intros Hj Hk Hr. split.
  - intros Hin. apply list_elem_of_lookup in Hin as [j' Hj'].
    apply (final_head_inv cfg rd) in Hj' as (n' & r' & Hn' & Hr' & Heq).
    pose proof (final_draws_range cfg rd Hwf _ _ _ Hn' Hr').
    destruct (offset_inj (infraNodes cfg) j j' n n' k (Z.to_nat r')) as [-> ->];
      [done|done|done|lia|done|].
    rewrite Hr in Hr'. by simplify_eq.
  - intros ->. eapply list_elem_of_lookup_2.
    by apply (final_head cfg rd j n r).
Qed.

(** The [j]-th draw is made over the range of cluster [j], from the state
    that the draws of the clusters before it left. *)
Lemma draws_from_lookup sizes : ∀ g j n,
  sizes !! j = Some n →
  draws_from g sizes !! j =
  Some (uniform_int_distribution 0 (n - 1) (rng_after g (take j sizes))).1.
Proof.
  induction sizes as [|x sizes IH]; intros g [|j] n Hj; simplify_eq/=; [done|].
  by apply IH.
Qed.

Lemma rng_after_take_S sizes : ∀ g j n,
  sizes !! j = Some n →
  rng_after g (take (S j) sizes) =
  (uniform_int_distribution 0 (n - 1) (rng_after g (take j sizes))).2.
Proof.
  induction sizes as [|x sizes IH]; intros g [|j] n Hj; simplify_eq/=; [done|].
  by apply IH.
Qed.

Lemma final_representative_index j n r :
  infraNodes cfg !! j = Some n →
  draws_from (mt19937 rd) (infraNodes cfg) !! j = Some r →
  representative_index (final_locals cfg rd) j = Some (Z.to_nat r).
Proof.
  intros Hj Hr. unfold representative_index.
  rewrite (final_cluster_lookup cfg rd j n Hj). simpl.
  unfold final_locals. cbn [head_cluster].
  rewrite (final_head cfg rd j n r Hj Hr). simpl.
  pose proof (final_draws_range cfg rd Hwf _ _ _ Hj Hr).
  by rewrite list_find_seq by lia.
Qed.

End FinalRepresentatives.

End Representatives.

(** C3.  In every run that completes (the runs of the configurations on
    which the assembly is defined), the generator is seeded once, from
    [rd ()], and every draw is made from the state the previous draw left
    (never reseeded); for the cluster of size [n] the draw is over
    [0, n - 1], the index drawn lies in that range, and the representative is
    the node of the cluster at that index.  No index of the range is
    excluded by the program: for every choice of indices within the ranges
    there is a generator under which they are the ones selected. *)
Theorem representative_selection `{G : UniformRandomBitGenerator} cfg rd :
  array_typed cfg →
  (wf_config cfg ∧ 10 ≤ stopTime cfg ↔ ∃ L w, main_with cfg rd = Ok L w) ∧
  (∀ L w, main_with cfg rd = Ok L w →
     rng L = rng_after (mt19937 rd) (infraNodes cfg) ∧
     ∀ j n, infraNodes cfg !! j = Some n →
       let before := rng_after (mt19937 rd) (take j (infraNodes cfg)) in
       rng_after (mt19937 rd) (take (S j) (infraNodes cfg)) =
         (uniform_int_distribution 0 (n - 1) before).2 ∧
       ∃ c r rep, clusters L !! j = Some c ∧
         r = (uniform_int_distribution 0 (n - 1) before).1 ∧
         0 ≤ r ≤ n - 1 ∧
         c !! Z.to_nat r = Some rep ∧ head_cluster L !! j = Some rep ∧
         representative_index L j = Some (Z.to_nat r)) ∧
  (∀ indices, wf_config cfg → 10 ≤ stopTime cfg →
     Forall2 (λ n r, 0 ≤ r ≤ n - 1) (infraNodes cfg) indices →
     ∃ L w, @main_with (scripted indices) cfg rd = Ok L w ∧
       ∀ j r, indices !! j = Some r →
         @representative_index (scripted indices) L j = Some (Z.to_nat r)).
Proof.
  intros Htyped. split; [by apply completes_iff|]. split.
  - intros L w Hrun.
    destruct (completed_run cfg rd L w Htyped Hrun) as (Hwf & Hstop & -> & ->).
    split; [done|]. intros j n Hj before.
    split; [by apply rng_after_take_S|].
    destruct (final_draw_exists cfg rd j n Hj) as [r Hr].
    pose proof (final_draws_range cfg rd Hwf _ _ _ Hj Hr) as Hrange.
    eexists _, r, _. split_and!.
    + by apply final_cluster_lookup.
    + rewrite (draws_from_lookup _ _ _ _ Hj) in Hr. by injection Hr.
    + lia.
    + lia.
    + apply lookup_seq_lt. lia.
    + by apply (final_head cfg rd j n r).
    + by apply (final_representative_index cfg rd Hwf j n r).
  - intros indices Hwf Hstop Hind. rewrite main_with_spec by done.
    eexists _, _. split; [done|]. intros j r Hr.
    destruct (Forall2_lookup_r _ _ _ _ _ Hind Hr) as (n & Hn & _).
    apply (final_representative_index cfg rd Hwf j n r Hn).
    simpl. by rewrite draws_from_scripted.
Qed.

(** C4.  In every run that completes (the runs of the configurations on
    which the assembly is defined), every cluster has exactly one representative;
    a representative has exactly two interfaces, the wireless device of its
    cluster, which still holds its address in the cluster's subnet, and one
    backbone device holding an address of the backbone's subnet; every
    other node has exactly one interface. *)
Theorem representative_interfaces `{G : UniformRandomBitGenerator} cfg rd :
  array_typed cfg →
  (wf_config cfg ∧ 10 ≤ stopTime cfg ↔ ∃ L w, main_with cfg rd = Ok L w) ∧
  ∀ L w, main_with cfg rd = Ok L w →
    length (head_cluster L) = length (clusters L) ∧
    (∀ j c, clusters L !! j = Some c →
       ∃ rep, head_cluster L !! j = Some rep ∧ rep ∈ c ∧
              ∀ h, h ∈ c → h ∈ head_cluster L → h = rep) ∧
    (∀ h nd, NodeList w !! h = Some nd →
       (h ∈ head_cluster L →
        ∃ j c ds d1 d2 dev1 dev2 a1 a2,
          clusters L !! j = Some c ∧ h ∈ c ∧
          node_devices nd = [d1; d2] ∧
          clusterDevices L !! j = Some ds ∧ d1 ∈ ds ∧
          DeviceList w !! d1 = Some dev1 ∧
          dev_type dev1 = YansWifiChannel ∧ dev_addresses dev1 = [a1] ∧
          in_subnet (ifa_local a1) (pool_subnet j) ∧
          d2 ∈ head_clusterDevices L ∧
          DeviceList w !! d2 = Some dev2 ∧
          dev_type dev2 = CsmaChannel ∧ dev_addresses dev2 = [a2] ∧
          in_subnet (ifa_local a2) backbone_subnet) ∧
       (h ∉ head_cluster L → ∃ d1, node_devices nd = [d1])).
Proof.
  intros Htyped. split; [by apply completes_iff|].
  intros L w Hrun.
  destruct (completed_run cfg rd L w Htyped Hrun) as (Hwf & Hstop & -> & ->).
  split_and!.
  - unfold final_locals, final_heads. cbn [head_cluster clusters].
    rewrite length_heads_from by apply length_draws_from.
    by rewrite length_containers_from.
  - intros j c Hc.
    assert (j < length (infraNodes cfg))%nat as Hjlt.
    { apply lookup_lt_Some in Hc. unfold final_locals in Hc. cbn [clusters] in Hc.
      by rewrite length_containers_from in Hc. }
    destruct (lookup_lt_is_Some_2 _ _ Hjlt) as [n Hj].
    rewrite (final_cluster_lookup cfg rd j n Hj) in Hc. injection Hc as <-.
    destruct (final_draw_exists cfg rd j n Hj) as [r Hr].
    pose proof (final_draws_range cfg rd Hwf _ _ _ Hj Hr) as Hrange.
    exists (offset (infraNodes cfg) j + Z.to_nat r)%nat. split_and!.
    + by apply (final_head cfg rd j n r).
    + apply elem_of_seq. lia.
    + intros h Hh Hin. apply elem_of_seq in Hh.
      assert (∃ k, h = (offset (infraNodes cfg) j + k)%nat ∧ (k < Z.to_nat n)%nat)
        as (k & -> & Hk) by (exists (h - offset (infraNodes cfg) j)%nat; lia).
      apply (final_head_elem cfg rd Hwf j n k r Hj Hk Hr) in Hin. by subst.
  - intros h nd Hnd.
    assert (h < total (infraNodes cfg))%nat as Hlt.
    { apply lookup_lt_Some in Hnd. unfold final_world in Hnd. simpl in Hnd.
      by rewrite length_attach, length_nodes_from in Hnd. }
    destruct (offset_decompose _ _ Hlt) as (j & n & k & Hj & Hk & ->).
    destruct (final_draw_exists cfg rd j n Hj) as [r Hr].
    destruct (final_index_bounds cfg Hwf j n Hj) as [Hj3 Hjlt].
    pose proof (final_size_range cfg Hwf j n Hj) as Hn.
    rewrite (final_node cfg rd Hwf j n k r Hj Hk Hr) in Hnd. injection Hnd as <-.
    cbn [node_devices]. split.
    + intros Hin. apply (final_head_elem cfg rd Hwf j n k r Hj Hk Hr) in Hin.
      rewrite decide_True by done.
      eexists j, _, _, _, _, _, _, _, _. split_and!.
      * by apply final_cluster_lookup.
      * apply elem_of_seq. lia.
      * done.
      * unfold final_locals. cbn [clusterDevices].
        by apply containers_from_lookup.
      * apply elem_of_seq. lia.
      * by apply (final_cluster_device cfg rd j n k).
      * done.
      * done.
      * simpl. apply in_subnet_cluster; lia.
      * unfold final_locals. cbn [head_clusterDevices]. apply elem_of_seq. lia.
      * apply (final_backbone_device cfg rd j).
        subst k. by apply (final_head cfg rd j n r).
      * done.
      * done.
      * simpl. apply in_subnet_backbone. lia.
    + intros Hnin. rewrite decide_False; [by eexists|].
      intros ->. apply Hnin.
      by apply (final_head_elem cfg rd Hwf j n (Z.to_nat r) r).
Qed.

(** C9.  In every run that completes (the runs of the configurations on
    which the assembly is defined, the reference one among them), the
    placement origin of cluster [j] is [((j + 1) * 50, (j + 1) * 20)],
    a function of the index alone; member [k] is placed on the two-column
    grid of spacing (5, 10) from that origin; and any node of a cluster lies
    strictly to the left of any node of a later cluster, so that the
    initial placements of distinct clusters occupy disjoint regions. *)
Theorem cluster_placement `{G : UniformRandomBitGenerator} cfg rd :
  array_typed cfg →
  (wf_config cfg ∧ 10 ≤ stopTime cfg ↔ ∃ L w, main_with cfg rd = Ok L w) ∧
  ∀ L w, main_with cfg rd = Ok L w →
    (∀ j c k h, clusters L !! j = Some c → c !! k = Some h →
       ∃ nd, NodeList w !! h = Some nd ∧
         node_position nd =
         Some ((Z.of_nat j + 1) * 50 + 5 * (Z.of_nat k `mod` 2),
               (Z.of_nat j + 1) * 20 + 10 * (Z.of_nat k `div` 2))) ∧
    (∀ j j' c c' h h' nd nd' p p',
       (j < j')%nat → clusters L !! j = Some c → clusters L !! j' = Some c' →
       h ∈ c → h' ∈ c' →
       NodeList w !! h = Some nd → NodeList w !! h' = Some nd' →
       node_position nd = Some p → node_position nd' = Some p' →
       p.1 ≤ (Z.of_nat j + 1) * 50 + 5 ∧ (Z.of_nat j + 1) * 50 + 5 < p'.1 ∧ p ≠ p').
Proof.
  intros Htyped. split; [by apply completes_iff|].
  intros L w Hrun.
  destruct (completed_run cfg rd L w Htyped Hrun) as (Hwf & Hstop & -> & ->).
  assert (∀ j c k h, clusters (final_locals cfg rd) !! j = Some c → c !! k = Some h →
    ∃ n r, infraNodes cfg !! j = Some n ∧ (k < Z.to_nat n)%nat ∧
           draws_from (mt19937 rd) (infraNodes cfg) !! j = Some r ∧
           h = (offset (infraNodes cfg) j + k)%nat) as Hmember.
  { intros j c k h Hc Hk.
    assert (j < length (infraNodes cfg))%nat as Hjlt.
    { apply lookup_lt_Some in Hc. unfold final_locals in Hc. cbn [clusters] in Hc.
      by rewrite length_containers_from in Hc. }
    destruct (lookup_lt_is_Some_2 _ _ Hjlt) as [n Hj].
    rewrite (final_cluster_lookup cfg rd j n Hj) in Hc. injection Hc as <-.
    apply lookup_seq in Hk as [-> Hk].
    destruct (final_draw_exists cfg rd j n Hj) as [r Hr].
    by exists n, r. }
  assert (∀ j c k h, clusters (final_locals cfg rd) !! j = Some c → c !! k = Some h →
    ∃ nd, NodeList (final_world cfg rd) !! h = Some nd ∧
      node_position nd =
      Some ((Z.of_nat j + 1) * 50 + 5 * (Z.of_nat k `mod` 2),
            (Z.of_nat j + 1) * 20 + 10 * (Z.of_nat k `div` 2))) as Hpos.
  { intros j c k h Hc Hk.
    destruct (Hmember j c k h Hc Hk) as (n & r & Hj & Hkn & Hr & ->).
    eexists. split; [by apply (final_node cfg rd Hwf j n k r)|done]. }
  split; [exact Hpos|].
  intros j j' c c' h h' nd nd' p p' Hlt Hc Hc' Hh Hh' Hnd Hnd' Hp Hp'.
  apply list_elem_of_lookup in Hh as [k Hk], Hh' as [k' Hk'].
  destruct (Hpos j c k h Hc Hk) as (nd0 & Hnd0 & Hp0).
  destruct (Hpos j' c' k' h' Hc' Hk') as (nd0' & Hnd0' & Hp0').
  simplify_eq. simpl.
  pose proof (Z.mod_pos_bound (Z.of_nat k) 2 ltac:(lia)).
  pose proof (Z.mod_pos_bound (Z.of_nat k') 2 ltac:(lia)).
  split_and!; [lia|lia|].
  intros Heq. injection Heq as Hx _. lia.
Qed.

Lemma representative_selection_witness :
  array_typed shipped ∧
  ∃ L w, @main_with lcg shipped 5 = Ok L w ∧
         @representative_index lcg L 0 = Some 2%nat ∧
         @representative_index lcg L 1 = Some 0%nat.
Proof.
  split; [apply shipped_typed|].
  destruct (@representative_selection lcg shipped 5 shipped_typed)
    as (Hiff & Hrun & _).
  destruct (proj1 Hiff (conj shipped_wf shipped_stop)) as (L & w & HLw).
  destruct (Hrun L w HLw) as (_ & Hrep).
  exists L, w. split; [exact HLw|].
  destruct (Hrep 0%nat 4 eq_refl) as (_ & c0 & r0 & rep0 & _ & Hr0 & _ & _ & _ & Hi0).
  destruct (Hrep 1%nat 3 eq_refl) as (_ & c1 & r1 & rep1 & _ & Hr1 & _ & _ & _ & Hi1).
  vm_compute in Hr0, Hr1. subst r0 r1.
  split; [exact Hi0|exact Hi1].
Defined.

Lemma representative_interfaces_witness :
  array_typed shipped ∧
  ∃ L w, @main_with lcg shipped 5 = Ok L w ∧
         length (head_cluster L) = length (clusters L).
Proof.
  split; [apply shipped_typed|].
  destruct (@representative_interfaces lcg shipped 5 shipped_typed)
    as (Hiff & Hrun).
  destruct (proj1 Hiff (conj shipped_wf shipped_stop)) as (L & w & HLw).
  destruct (Hrun L w HLw) as (Hlen & _).
  exists L, w. split; [exact HLw|exact Hlen].
Defined.

Lemma cluster_placement_witness :
  array_typed shipped ∧
  ∃ L w, @main_with lcg shipped 5 = Ok L w ∧
    ∀ c h, clusters L !! 1%nat = Some c → c !! 2%nat = Some h →
      ∃ nd, NodeList w !! h = Some nd ∧ node_position nd = Some (100, 50).
Proof.
  split; [apply shipped_typed|].
  destruct (@cluster_placement lcg shipped 5 shipped_typed) as (Hiff & Hrun).
  destruct (proj1 Hiff (conj shipped_wf shipped_stop)) as (L & w & HLw).
  destruct (Hrun L w HLw) as (Hpos & _).
  exists L, w. split; [exact HLw|].
  intros c h Hc Hh. exact (Hpos 1%nat c 2%nat h Hc Hh).
Defined.

(** ** Two runs *)

Section Determinism.
Context `{G : UniformRandomBitGenerator}.

Lemma cluster_body_ext cfg1 cfg2 i L :
  infraNodes cfg1 = infraNodes cfg2 →
  cluster_body cfg1 i L = cluster_body cfg2 i L.
Proof. intros Hsizes. unfold cluster_body. by rewrite Hsizes. Qed.

Lemma cluster_loop_ext cfg1 cfg2 indices :
  infraNodes cfg1 = infraNodes cfg2 →
  ∀ L w, cluster_loop cfg1 indices L w = cluster_loop cfg2 indices L w.
Proof.
  intros Hsizes. induction indices as [|i indices IH]; intros L w; [done|].
  simpl. munfold. rewrite (cluster_body_ext cfg1 cfg2) by done.
  destruct (cluster_body cfg2 i L w); [apply IH|done..].
Qed.

Lemma construct_clusters_ext cfg1 cfg2 g w :
  clusterHeadNodes cfg1 = clusterHeadNodes cfg2 →
  infraNodes cfg1 = infraNodes cfg2 →
  construct_clusters cfg1 g w = construct_clusters cfg2 g w.
Proof.
  intros Hcount Hsizes. unfold construct_clusters. munfold.
  repeat match goal with |- context [SetBase ?n ?m ?w] =>
    destruct (SetBase n m w); [|done..] end.
  rewrite Hcount. by apply cluster_loop_ext.
Qed.

Lemma run_simulation_assembled cfg L w :
  assembled ((run_simulation cfg ≫= λ _, mret L) w) = assembled (Ok L w).
Proof. done. Qed.

Lemma main_with_assembled cfg1 cfg2 rd :
  clusterHeadNodes cfg1 = clusterHeadNodes cfg2 →
  infraNodes cfg1 = infraNodes cfg2 →
  10 ≤ stopTime cfg1 → 10 ≤ stopTime cfg2 →
  assembled (main_with cfg1 rd) = assembled (main_with cfg2 rd).
Proof.
  intros Hcount Hsizes Hstop1 Hstop2. unfold main_with.
  destruct (Z.ltb_spec (stopTime cfg1) 10) as [?|_]; [lia|].
  destruct (Z.ltb_spec (stopTime cfg2) 10) as [?|_]; [lia|].
  munfold. rewrite (construct_clusters_ext cfg1 cfg2) by done.
  destruct (construct_clusters cfg2 (mt19937 rd) empty_World) as [L w| | |];
    [|done..].
  destruct (assemble_backbone L w) as [L' w'| | |]; [|done..].
  done.
Qed.

Lemma wf_config_ext cfg1 cfg2 :
  clusterHeadNodes cfg1 = clusterHeadNodes cfg2 →
  infraNodes cfg1 = infraNodes cfg2 →
  wf_config cfg1 → wf_config cfg2.
Proof.
  intros Hcount Hsizes [H1 H2 H3]. constructor; by rewrite <- ?Hcount, <- ?Hsizes.
Qed.

Lemma final_cluster_subnets_seed cfg1 cfg2 rd1 rd2 j :
  infraNodes cfg1 = infraNodes cfg2 → wf_config cfg1 → wf_config cfg2 →
  cluster_subnets (final_locals cfg1 rd1) (final_world cfg1 rd1) j =
  cluster_subnets (final_locals cfg2 rd2) (final_world cfg2 rd2) j.
Proof.
  intros Hsizes Hwf1 Hwf2.
  destruct (infraNodes cfg1 !! j) as [n|] eqn:Hj.
  - rewrite (final_cluster_subnets cfg1 rd1 j n) by done.
    rewrite Hsizes in Hj. by rewrite (final_cluster_subnets cfg2 rd2 j n).
  - unfold cluster_subnets, final_locals. cbn [clusterDevices].
    rewrite !lookup_ge_None_2; [done| |].
    + rewrite length_containers_from, <- Hsizes. by apply lookup_ge_None.
    + rewrite length_containers_from. by apply lookup_ge_None.
Qed.

(** C8.  Two runs with the same cluster count and the same cluster sizes
    (and stop times that pass the check): from the same seed they assemble
    the same state, whichever way they end, and in particular select the
    same representative index for each cluster; the subnets of the clusters
    and of the backbone are the same even from different seeds. *)
Theorem assembly_deterministic cfg1 cfg2 rd1 rd2 :
  clusterHeadNodes cfg1 = clusterHeadNodes cfg2 →
  infraNodes cfg1 = infraNodes cfg2 →
  10 ≤ stopTime cfg1 → 10 ≤ stopTime cfg2 →
  (rd1 = rd2 → assembled (main_with cfg1 rd1) = assembled (main_with cfg2 rd2)) ∧
  (wf_config cfg1 →
   ∃ L1 w1 L2 w2,
     main_with cfg1 rd1 = Ok L1 w1 ∧ main_with cfg2 rd2 = Ok L2 w2 ∧
     (∀ j, cluster_subnets L1 w1 j = cluster_subnets L2 w2 j) ∧
     backbone_subnets L1 w1 = backbone_subnets L2 w2 ∧
     (rd1 = rd2 →
      head_cluster L1 = head_cluster L2 ∧
      ∀ j, representative_index L1 j = representative_index L2 j)).
Proof.
  intros Hcount Hsizes Hstop1 Hstop2. split.
  - intros <-. by apply main_with_assembled.
  - intros Hwf1. pose proof (wf_config_ext _ _ Hcount Hsizes Hwf1) as Hwf2.
    rewrite !main_with_spec by done. eexists _, _, _, _.
    split; [done|]. split; [done|]. split_and!.
    + intros j. by apply final_cluster_subnets_seed.
    + rewrite !final_backbone_subnets by done. by rewrite Hsizes.
    + intros <-. unfold representative_index, final_locals.
      cbn [head_cluster clusters]. by rewrite Hsizes.
Qed.

End Determinism.

Lemma assembly_deterministic_witness :
  let cfg2 := {| clusterHeadNodes := 2; infraNodes := [4; 3]; stopTime := 30 |} in
  (clusterHeadNodes shipped = clusterHeadNodes cfg2 ∧
   infraNodes shipped = infraNodes cfg2 ∧
   10 ≤ stopTime shipped ∧ 10 ≤ stopTime cfg2) ∧
  @assembled lcg (main_with shipped 5) = @assembled lcg (main_with cfg2 5).
Proof.
  intros cfg2. split; [split_and!; [done|done|simpl; lia|simpl; lia]|].
  exact (proj1 (@assembly_deterministic lcg shipped cfg2 5 5 eq_refl eq_refl
                  ltac:(simpl; lia) ltac:(simpl; lia)) eq_refl).
Defined.

(** ** Cluster sizes are not checked *)

Section Quiet.
Context `{G : UniformRandomBitGenerator}.

Lemma quiet_ret {A} (a : A) : quiet (mret a).
Proof. intros w. by split_and!. Qed.

Lemma quiet_bind {A B} (m : M A) (k : A → M B) :
  quiet m → (∀ a, quiet (k a)) → quiet (m ≫= k).
Proof.
  intros Hm Hk w. destruct (Hm w) as (Hexit & Hcout & Hch). munfold.
  destruct (m w) as [a w'|s w'| |]; simpl in *.
  - destruct (Hk a w') as (Hexit' & Hcout' & Hch').
    split_and!; [done|congruence|lia].
  - by destruct (Hexit s w').
  - by split_and!.
  - by split_and!.
Qed.

Lemma busy_bind {A B} (m : M A) (k : A → M B) :
  busy m → (∀ a, quiet (k a)) → busy (m ≫= k).
Proof.
  intros Hm Hk w. destruct (Hm w) as (Hexit & Hcout & Hch). munfold.
  destruct (m w) as [a w'|s w'| |]; simpl in *.
  - destruct (Hk a w') as (Hexit' & Hcout' & Hch').
    split_and!; [done|congruence|lia].
  - by destruct (Hexit s w').
  - by split_and!.
  - by split_and!.
Qed.

Lemma quiet_gets {A} (f : World → A) : quiet (gets f).
Proof. intros w. by split_and!. Qed.

Lemma quiet_modify (f : World → World) :
  (∀ w, cout (f w) = cout w ∧
        (length (ChannelList w) ≤ length (ChannelList (f w)))%nat) →
  quiet (modify f).
Proof. intros Hf w. destruct (Hf w). by split_and!. Qed.

Lemma quiet_abort {A} : quiet (@abort A).
Proof. intros w. by split_and!. Qed.

Lemma quiet_undefined {A} : quiet (@undefined A).
Proof. intros w. by split_and!. Qed.

Lemma quiet_subscript {A} (a : list A) i : quiet (subscript a i).
Proof. unfold subscript. destruct (a !! i); [apply quiet_ret|apply quiet_undefined]. Qed.

Ltac quiet_step :=
  match goal with
  | |- quiet (mbind _ _) => apply quiet_bind
  | |- quiet (_ ≫= _) => apply quiet_bind
  | |- quiet (mret _) => apply quiet_ret
  | |- quiet (gets _) => apply quiet_gets
  | |- quiet (subscript _ _) => apply quiet_subscript
  | |- quiet abort => apply quiet_abort
  | |- quiet undefined => apply quiet_undefined
  | |- quiet (modify _) => apply quiet_modify; intros ?; wsimpl; split; [done|lia]
  | |- quiet (if ?b then _ else _) => destruct b
  | |- quiet (match ?x with _ => _ end) => destruct x
  | |- ∀ _, _ => intros ?
  | |- _ => progress cbv zeta
  | H : _ |- _ => solve [apply H]
  end.

Lemma quiet_Channel_Create t : quiet (Channel_Create t).
Proof.
  unfold Channel_Create. repeat quiet_step.
  apply quiet_modify. intros w. wsimpl. rewrite length_app. simpl. split; [done|lia].
Qed.

Lemma busy_Channel_Create t : busy (Channel_Create t).
Proof.
  intros w. unfold Channel_Create. munfold. wsimpl. simpl.
  split_and!; [done|done|]. rewrite length_app. simpl. lia.
Qed.

Lemma quiet_NodeContainer_Create c n : quiet (NodeContainer_Create c n).
Proof. unfold NodeContainer_Create. repeat quiet_step. Qed.

Lemma quiet_NodeContainer_Get c i : quiet (NodeContainer_Get c i).
Proof. unfold NodeContainer_Get. repeat quiet_step. Qed.

Lemma quiet_Install_devices t ch c : quiet (Install_devices t ch c).
Proof.
  induction c as [|n c IH]; simpl; [apply quiet_ret|].
  unfold Install_device. repeat quiet_step.
Qed.

Lemma quiet_InternetStackHelper_Install c : quiet (InternetStackHelper_Install c).
Proof. induction c as [|n c IH]; simpl; repeat quiet_step. Qed.

Lemma quiet_SetBase network mask : quiet (SetBase network mask).
Proof. unfold SetBase. repeat quiet_step. Qed.

Lemma quiet_NewAddress h : quiet (NewAddress h).
Proof. unfold NewAddress. repeat quiet_step. Qed.

Lemma quiet_Assign c : ∀ h, quiet (Assign h c).
Proof.
  induction c as [|d c IH]; intros h; simpl; [apply quiet_ret|].
  repeat quiet_step. apply quiet_NewAddress.
Qed.

Lemma quiet_MobilityHelper_Install c : ∀ g, quiet (MobilityHelper_Install g c).
Proof.
  induction c as [|n c IH]; intros g; simpl; [apply quiet_ret|].
  repeat quiet_step.
Qed.

Lemma quiet_cluster_rest cfg i L ch :
  quiet (
    n ← subscript (infraNodes cfg) i;
    c ← subscript (clusters L) i;
    c ← NodeContainer_Create c n;
    subscript (clusterDevices L) i;;
    devs ← WifiHelper_Install (Some ch) c;
    InternetStackHelper_Install c;;
    h ← subscript (ipAddrs L) i;
    h ← Assign h devs;
    let h := NewNetwork h in
    let mobility :=
      {| MinX := (Z.of_nat i + 1) * 50; MinY := (Z.of_nat i + 1) * 20;
         DeltaX := 5; DeltaY := 10; GridWidth := 2; Layout := RowFirst;
         m_current := 0 |} in
    MobilityHelper_Install mobility c;;
    let b := int (uint32_t (n - 1)) in
    if 0 <=? b then
      let '(random_integer, rng') := uniform_int_distribution 0 b (rng L) in
      rep ← NodeContainer_Get c random_integer;
      mret {| rng := rng';
              ipAddrs := <[i := h]> (ipAddrs L);
              clusters := <[i := c]> (clusters L);
              clusterDevices := <[i := devs]> (clusterDevices L);
              head_cluster := head_cluster L ++ [rep];
              ipAddrsH := ipAddrsH L;
              head_clusterDevices := head_clusterDevices L |}
    else undefined).
Proof.
  repeat first
    [ apply quiet_NodeContainer_Create | apply quiet_Install_devices
    | apply quiet_InternetStackHelper_Install | apply quiet_Assign
    | apply quiet_MobilityHelper_Install | apply quiet_NodeContainer_Get
    | quiet_step ].
Qed.

Lemma busy_cluster_body cfg i L : busy (cluster_body cfg i L).
Proof.
  unfold cluster_body. apply busy_bind; [apply busy_Channel_Create|].
  intros ch. apply quiet_cluster_rest.
Qed.

Lemma busy_quiet {A} (m : M A) : busy m → quiet m.
Proof.
  intros Hm w. destruct (Hm w) as (? & ? & ?). split_and!; [done|done|lia].
Qed.

Lemma quiet_cluster_loop cfg indices : ∀ L, quiet (cluster_loop cfg indices L).
Proof.
  induction indices as [|i indices IH]; intros L; simpl; [apply quiet_ret|].
  apply quiet_bind; [apply busy_quiet, busy_cluster_body|done].
Qed.

Lemma quiet_assemble_backbone L : quiet (assemble_backbone L).
Proof.
  unfold assemble_backbone, CsmaHelper_Install.
  repeat first
    [ apply quiet_SetBase | apply quiet_Channel_Create
    | apply quiet_Install_devices | apply quiet_Assign | quiet_step ].
Qed.

Lemma quiet_run_simulation cfg : quiet (run_simulation cfg).
Proof.
  unfold run_simulation, Simulator_Stop, Simulator_Run, Simulator_Destroy.
  repeat quiet_step.
Qed.

Lemma quiet_construct_clusters cfg g : quiet (construct_clusters cfg g).
Proof.
  unfold construct_clusters.
  repeat first [ apply quiet_SetBase | apply quiet_cluster_loop | quiet_step ].
Qed.

Lemma busy_construct_clusters cfg g :
  1 ≤ int (clusterHeadNodes cfg) → busy (construct_clusters cfg g).
Proof.
  intros Hcount w. unfold construct_clusters. munfold.
  change (Ipv4Address 192 167 0 0) with (pool_network 0 * 2 ^ 8).
  change (Ipv4Address 192 168 0 0) with (pool_network 1 * 2 ^ 8).
  change (Ipv4Address 192 169 0 0) with (pool_network 2 * 2 ^ 8).
  rewrite !SetBase_24 by (unfold pool_network; lia).
  destruct (Z.to_nat (int (clusterHeadNodes cfg))) as [|m] eqn:Hm; [lia|].
  cbn [seq cluster_loop].
  apply (busy_bind (cluster_body cfg 0 _) (λ L', cluster_loop cfg (seq 1 m) L')).
  - apply busy_cluster_body.
  - intros L'. apply quiet_cluster_loop.
Qed.

(** With a stop time that passes the check, [main] never calls [exit] and
    prints nothing, whatever the cluster sizes. *)
Lemma main_with_quiet cfg rd :
  10 ≤ stopTime cfg →
  (∀ s w, main_with cfg rd ≠ Exited s w) ∧ cout (world_of (main_with cfg rd)) = [].
Proof.
  intros Hstop. unfold main_with.
  destruct (Z.ltb_spec (stopTime cfg) 10) as [?|_]; [lia|].
  assert (quiet (mret () ≫= λ _,
            L ← construct_clusters cfg (mt19937 rd);
            L ← assemble_backbone L;
            run_simulation cfg;; mret L)) as Hq.
  { repeat first
      [ apply quiet_construct_clusters | apply quiet_assemble_backbone
      | apply quiet_run_simulation | quiet_step ]. }
  destruct (Hq empty_World) as (Hexit & Hcout & _). by split.
Qed.

Lemma main_with_busy cfg rd :
  10 ≤ stopTime cfg → 1 ≤ int (clusterHeadNodes cfg) →
  (0 < length (ChannelList (world_of (main_with cfg rd))))%nat.
Proof.
  intros Hstop Hcount. unfold main_with.
  destruct (Z.ltb_spec (stopTime cfg) 10) as [?|_]; [lia|].
  assert (busy (L ← construct_clusters cfg (mt19937 rd);
                L ← assemble_backbone L;
                run_simulation cfg;; mret L)) as Hb.
  { apply busy_bind; [by apply busy_construct_clusters|].
    intros L. repeat first
      [ apply quiet_assemble_backbone | apply quiet_run_simulation | quiet_step ]. }
  destruct (Hb empty_World) as (_ & _ & Hch). exact Hch.
Qed.

(** C6, as amended.  [main] makes no check of the cluster sizes: a run is
    rejected before anything is created exactly when the stop time is below
    10; with a stop time that passes the check the process prints no
    diagnostic and never calls [exit], whatever the sizes (zero included),
    and with at least one cluster a wireless channel exists by the time the
    process ends. *)
Theorem sizes_not_checked cfg rd :
  (rejected_before_creation (main_with cfg rd) ↔ stopTime cfg < 10) ∧
  (10 ≤ stopTime cfg →
   (∀ status w, main_with cfg rd ≠ Exited status w) ∧
   cout (world_of (main_with cfg rd)) = [] ∧
   (1 ≤ int (clusterHeadNodes cfg) →
    ChannelList (world_of (main_with cfg rd)) ≠ [])).
Proof.
  split.
  - split.
    + intros (s & w & Hrun & _).
      destruct (Z.lt_ge_cases (stopTime cfg) 10) as [?|Hstop]; [done|].
      by destruct (proj1 (main_with_quiet cfg rd ltac:(lia)) s w).
    + intros Hlow. rewrite main_with_low by done.
      eexists _, _. split; [done|]. by repeat split.
  - intros Hstop. destruct (main_with_quiet cfg rd Hstop) as [Hexit Hcout].
    split_and!; [done|done|].
    intros Hcount Hnil. pose proof (main_with_busy cfg rd Hstop Hcount) as Hch.
    rewrite Hnil in Hch. simpl in Hch. lia.
Qed.

End Quiet.

(** C6, as stated, fails: with a cluster of size 0 the run is not rejected;
    the first cluster is built (4 nodes, its channel and the channel of the
    second cluster exist) and the process ends in the draw over the empty
    range [0, -1], with no exit status of its own. *)
Lemma size_check_counterexample :
  (∃ n, n ∈ infraNodes empty_cluster ∧ n ≤ 0) ∧
  exit_status (@main_with lcg empty_cluster 5) = None ∧
  length (NodeList (world_of (@main_with lcg empty_cluster 5))) = 4%nat ∧
  length (ChannelList (world_of (@main_with lcg empty_cluster 5))) = 2%nat ∧
  cout (world_of (@main_with lcg empty_cluster 5)) = [] ∧
  ¬ @rejected_before_creation lcg (@main_with lcg empty_cluster 5).
Proof.
  split_and!.
  - exists 0. split; [|lia]. simpl. apply list_elem_of_In. simpl. tauto.
  - by vm_compute.
  - by vm_compute.
  - by vm_compute.
  - by vm_compute.
  - intros (s & w & Hrun & _).
    assert (exit_status (@main_with lcg empty_cluster 5) = None) as Hstatus
      by (by vm_compute).
    rewrite Hrun in Hstatus. discriminate.
Qed.

Lemma sizes_not_checked_witness :
  10 ≤ stopTime empty_cluster ∧
  ∀ status w, @main_with lcg empty_cluster 5 ≠ Exited status w.
Proof.
  split; [simpl; lia|].
  exact (proj1 (proj2 (@sizes_not_checked lcg empty_cluster 5) ltac:(simpl; lia))).
Defined.

(** * Further properties of [main]

    Properties of the assembly that the program shows beyond the ones
    above: how the runs on ill-formed configurations end, the assembled
    topology interface by interface, what the seed decides, and how the
    assembly of a cluster depends on the clusters around it. *)

(** ** Runs that end inside the cluster loop *)

(** *** The loop up to a cluster *)

Section Prefix.
Context `{G : UniformRandomBitGenerator}.

(** The loop over well-formed clusters, more clusters being left. *)
Lemma cluster_loop_prefix cfg hH hD sim out sizes :
  ∀ i first g pre post doneH restH doneC restC doneD restD heads nodes devs
    chans used,
    infraNodes cfg = pre ++ sizes ++ post → length pre = i →
    Forall (λ n, 1 ≤ n ≤ 254) sizes → (i + length sizes ≤ 3)%nat →
    length doneH = i → length doneC = i → length doneD = i →
    length nodes = first → length devs = first → length chans = i →
    Forall (λ x, x < pool_network i * 2 ^ 8) used →
    cluster_loop cfg (seq i (length sizes))
      {| rng := g; ipAddrs := doneH ++ fresh_pools i (length sizes) ++ restH;
         clusters := doneC ++ replicate (length sizes) [] ++ restC;
         clusterDevices := doneD ++ replicate (length sizes) [] ++ restD;
         head_cluster := heads; ipAddrsH := hH; head_clusterDevices := hD |}
      (mk_world nodes devs chans used sim out) =
    Ok {| rng := rng_after g sizes;
          ipAddrs := doneH ++ advanced_pools i (length sizes) ++ restH;
          clusters := doneC ++ containers_from first sizes ++ restC;
          clusterDevices := doneD ++ containers_from first sizes ++ restD;
          head_cluster := heads ++ heads_from first sizes (draws_from g sizes);
          ipAddrsH := hH; head_clusterDevices := hD |}
       (mk_world (nodes ++ nodes_from i first sizes)
          (devs ++ devices_from i first sizes)
          (chans ++ replicate (length sizes) YansWifiChannel)
          (used_from i sizes used) sim out).
Proof.
  induction sizes as [|n sizes IH];
    intros i first g pre post doneH restH doneC restC doneD restD heads nodes
      devs chans used Hcfg Hpre Hsizes Hi HlenH HlenC HlenD Hnodes Hdevs Hchans
      Hused.
  - simpl. munfold. by rewrite !app_nil_r.
  - apply Forall_cons in Hsizes as [Hn Hsizes]. simpl in Hi.
    cbn [length seq cluster_loop replicate fresh_pools fmap list_fmap app].
    munfold.
    rewrite (cluster_body_spec cfg i n first); try done; [| |lia].
    2:{ rewrite Hcfg. by apply list_lookup_middle. }
    rewrite (cons_middle _ doneH), (cons_middle _ doneC), (cons_middle _ doneD).
    rewrite !app_assoc.
    specialize (IH (S i) (first + Z.to_nat n)%nat
      (uniform_int_distribution 0 (n - 1) g).2 (pre ++ [n]) post
      (doneH ++ [pool24 (pool_network i + 1) 1]) restH
      (doneC ++ [seq first (Z.to_nat n)]) restC
      (doneD ++ [seq first (Z.to_nat n)]) restD
      (heads ++ [(first + Z.to_nat (uniform_int_distribution 0 (n - 1) g).1)%nat])).
    rewrite <- !app_assoc in IH. rewrite <- !app_assoc.
    unfold fresh_pools in IH. erewrite IH; clear IH.
    + cbn [nodes_from devices_from containers_from used_from draws_from
             rng_after heads_from advanced_pools length seq replicate fmap list_fmap app].
      rewrite <- !app_assoc. simpl. done.
    + by rewrite Hcfg.
    + rewrite length_app. simpl. lia.
    + done.
    + lia.
    + rewrite length_app. simpl. lia.
    + rewrite length_app. simpl. lia.
    + rewrite length_app. simpl. lia.
    + rewrite length_app, length_fmap, length_seq. lia.
    + rewrite length_app, length_fmap, length_seq. lia.
    + rewrite length_app. simpl. lia.
    + apply Forall_app. split.
      * apply Forall_reverse, Forall_fmap, Forall_forall. intros k Hk.
        apply elem_of_seq in Hk. unfold host_address, pool_network. simpl. lia.
      * eapply Forall_impl; [exact Hused|]. unfold pool_network. simpl.
        intros; lia.
Qed.

Lemma cluster_loop_app cfg l1 : ∀ l2 L w,
  cluster_loop cfg (l1 ++ l2) L w =
  (L' ← cluster_loop cfg l1 L; cluster_loop cfg l2 L') w.
Proof.
  induction l1 as [|i l1 IH]; intros l2 L w; [done|].
  cbn [app cluster_loop]. munfold.
  destruct (cluster_body cfg i L w) as [L1 w1| | |]; [|done..].
  apply IH.
Qed.

Lemma construct_clusters_reaches cfg g pre n post :
  array_typed cfg → infraNodes cfg = pre ++ n :: post →
  Forall (λ n, 1 ≤ n ≤ 254) pre → (length pre ≤ 3)%nat →
  construct_clusters cfg g empty_World =
  (L ← cluster_body cfg (length pre) (reached_locals g pre (S (length post)));
   cluster_loop cfg (seq (S (length pre)) (length post)) L) (reached_world pre).
Proof.
  intros [Hcount Hint] Hcfg Hpre Hlen.
  unfold construct_clusters. munfold.
  change (Ipv4Address 192 167 0 0) with (pool_network 0 * 2 ^ 8).
  change (Ipv4Address 192 168 0 0) with (pool_network 1 * 2 ^ 8).
  change (Ipv4Address 192 169 0 0) with (pool_network 2 * 2 ^ 8).
  rewrite !SetBase_24 by (unfold pool_network; lia).
  rewrite Hcount, int_uint32_t_small_id, !Nat2Z.id by lia.
  rewrite Hcfg, length_app. cbn [length].
  rewrite seq_app, replicate_add. cbn [seq plus].
  rewrite (cluster_loop_app cfg (seq 0 (length pre))). munfold.
  change [pool24 (pool_network 0) 1; pool24 (pool_network 1) 1;
          pool24 (pool_network 2) 1] with (fresh_pools 0 3).
  replace (fresh_pools 0 3)
    with ([] ++ fresh_pools 0 (length pre) ++
          fresh_pools (length pre) (3 - length pre)).
  2:{ simpl. unfold fresh_pools. rewrite <- fmap_app.
      change (length pre) with (0 + length pre)%nat at 2.
      rewrite <- (seq_app (length pre) (3 - length pre) 0). do 2 f_equal. lia. }
  change (replicate (length pre) [] ++ replicate (S (length post)) [])
    with ([] ++ replicate (length pre) (@nil nat) ++
          replicate (S (length post)) []).
  unfold empty_World.
  erewrite (cluster_loop_prefix cfg _ _ _ _ pre 0 0 g [] (n :: post)
              [] _ [] _ [] _ [] [] [] [] []); try done.
Qed.

Lemma construct_clusters_at cfg g j n :
  array_typed cfg → infraNodes cfg !! j = Some n → (j ≤ 3)%nat →
  Forall (λ n, 1 ≤ n ≤ 254) (take j (infraNodes cfg)) →
  length (take j (infraNodes cfg)) = j ∧
  construct_clusters cfg g empty_World =
  (L ← cluster_body cfg j
         (reached_locals g (take j (infraNodes cfg))
            (S (length (drop (S j) (infraNodes cfg)))));
   cluster_loop cfg (seq (S j) (length (drop (S j) (infraNodes cfg)))) L)
    (reached_world (take j (infraNodes cfg))).
Proof.
  intros Htyped Hn Hj Hpre.
  assert (length (take j (infraNodes cfg)) = j) as Hlen.
  { rewrite length_take. apply lookup_lt_Some in Hn. lia. }
  split; [done|].
  rewrite (construct_clusters_reaches cfg g (take j (infraNodes cfg)) n
             (drop (S j) (infraNodes cfg))); [|done| |done|lia].
  - by rewrite Hlen.
  - by rewrite take_drop_middle.
Qed.

Lemma reached_clusters g pre rest j :
  length pre = j → clusters (reached_locals g pre (S rest)) !! j = Some [].
Proof.
  intros <-. unfold reached_locals. cbn [clusters].
  rewrite lookup_app_r by (rewrite length_containers_from; lia).
  by rewrite length_containers_from, Nat.sub_diag.
Qed.

Lemma reached_clusterDevices g pre rest j :
  length pre = j → clusterDevices (reached_locals g pre (S rest)) !! j = Some [].
Proof.
  intros <-. unfold reached_locals. cbn [clusterDevices].
  rewrite lookup_app_r by (rewrite length_containers_from; lia).
  by rewrite length_containers_from, Nat.sub_diag.
Qed.

Lemma reached_pool g pre rest j :
  length pre = j → (j < 3)%nat →
  ipAddrs (reached_locals g pre rest) !! j = Some (pool24 (pool_network j) 1).
Proof.
  intros <- Hlt. unfold reached_locals, advanced_pools, fresh_pools. cbn [ipAddrs].
  rewrite lookup_app_r by (rewrite length_fmap, length_seq; lia).
  rewrite length_fmap, length_seq, Nat.sub_diag, list_lookup_fmap.
  rewrite lookup_seq_lt by lia. simpl. by rewrite Nat.add_0_r.
Qed.

Lemma reached_no_pool g pre rest :
  length pre = 3%nat → ipAddrs (reached_locals g pre rest) !! 3%nat = None.
Proof.
  intros Hlen. unfold reached_locals, advanced_pools, fresh_pools. cbn [ipAddrs].
  apply lookup_ge_None. rewrite length_app, !length_fmap, !length_seq. lia.
Qed.

Lemma reached_used pre i :
  Forall (λ n, 1 ≤ n ≤ 254) pre → (length pre ≤ i)%nat →
  Forall (λ x, x < pool_network i * 2 ^ 8) (used_from 0 pre []).
Proof.
  intros Hpre Hi.
  assert (∀ sizes k used, Forall (λ n, 1 ≤ n ≤ 254) sizes →
    (k + length sizes ≤ i)%nat →
    Forall (λ x, x < pool_network i * 2 ^ 8) used →
    Forall (λ x, x < pool_network i * 2 ^ 8) (used_from k sizes used)) as Hgen.
  { induction sizes as [|n sizes IH]; intros k used Hs Hk Hused; [done|].
    apply Forall_cons in Hs as [Hn Hs].
    simpl in *. apply IH; [done|lia|]. apply Forall_app. split; [|done].
    apply Forall_reverse, Forall_fmap, Forall_forall. intros x Hx.
    apply elem_of_seq in Hx. unfold host_address, pool_network. simpl. lia. }
  by apply Hgen.
Qed.

(** A run that reaches a cluster whose body does not return ends there. *)
Lemma main_with_stops cfg rd j n r :
  array_typed cfg → 10 ≤ stopTime cfg →
  infraNodes cfg !! j = Some n → (j ≤ 3)%nat →
  Forall (λ n, 1 ≤ n ≤ 254) (take j (infraNodes cfg)) →
  cluster_body cfg j
    (reached_locals (mt19937 rd) (take j (infraNodes cfg))
       (S (length (drop (S j) (infraNodes cfg)))))
    (reached_world (take j (infraNodes cfg))) = r →
  (∀ L w, r ≠ Ok L w) →
  main_with cfg rd = r.
Proof.
  intros Htyped Hstop Hn Hj Hpre Hbody Hr.
  destruct (construct_clusters_at cfg (mt19937 rd) j n Htyped Hn Hj Hpre)
    as [_ Hrun].
  unfold main_with. munfold.
  destruct (Z.ltb_spec (stopTime cfg) 10) as [?|_]; [lia|].
  rewrite Hrun, Hbody. destruct r as [L w| | |]; [by destruct (Hr L w)|done..].
Qed.

End Prefix.

(** *** Facts on sizes, devices and addresses *)

Lemma length_used_from sizes : ∀ i used,
  length (used_from i sizes used) = (total sizes + length used)%nat.
Proof.
  induction sizes as [|n sizes IH]; intros i used; [done|].
  simpl. rewrite IH, length_app, length_reverse, length_fmap, length_seq, total_cons.
  lia.
Qed.

Lemma total_take sizes j : total (take j sizes) = offset sizes j.
Proof. done. Qed.

Lemma offset_S sizes : ∀ j n,
  sizes !! j = Some n → offset sizes (S j) = (offset sizes j + Z.to_nat n)%nat.
Proof.
  induction sizes as [|x sizes IH]; intros [|j] n Hj; simplify_eq/=.
  - rewrite offset_cons, !offset_0. lia.
  - rewrite !offset_cons, (IH _ _ Hj). lia.
Qed.

(** The wireless devices of the clusters numbered from [i] sit on the
    channels numbered from [i]. *)
Lemma devices_from_channel sizes : ∀ i first,
  Forall (λ dev, (i ≤ dev_channel dev < i + length sizes)%nat)
    (devices_from i first sizes).
Proof.
  induction sizes as [|n sizes IH]; intros i first; simpl; [done|].
  apply Forall_app. split.
  - apply Forall_fmap, Forall_forall. intros k _. simpl. lia.
  - eapply Forall_impl; [apply IH|]. simpl. intros; lia.
Qed.

(** The dotted quads of the hosts of the cluster pools and of the backbone
    pool. *)
Lemma Ipv4Address_cluster_host j k :
  (j < 3)%nat → (k < 254)%nat →
  Ipv4Address 192 (167 + Z.of_nat j) 0 (Z.of_nat k + 1) =
  host_address (pool_network j) 1 k.
Proof.
  intros Hj Hk. unfold host_address. rewrite <- Z.add_assoc.
  rewrite <- lor_shifted_low by lia.
  rewrite <- pool_network_address by done.
  unfold Ipv4Address. f_equal; [|lia].
  destruct j as [|[|[|j]]]; [done|done|done|lia].
Qed.

Lemma Ipv4Address_backbone_host k :
  (k < 254)%nat →
  Ipv4Address 172 16 0 (Z.of_nat k + 1) = host_address backbone_network 1 k.
Proof.
  intros Hk. unfold host_address. rewrite <- Z.add_assoc.
  rewrite <- lor_shifted_low by lia.
  unfold Ipv4Address. f_equal. lia.
Qed.

(** *** The cluster at which the run ends *)

Section Failures.
Context `{G : UniformRandomBitGenerator}.

(** A cluster of requested size 0: the channel is created, nothing is
    installed, and the range of the draw is empty. *)
Lemma cluster_body_empty cfg i L h xD nodes devs chans used sim out :
  infraNodes cfg !! i = Some 0 → clusters L !! i = Some [] →
  clusterDevices L !! i = Some xD → ipAddrs L !! i = Some h →
  cluster_body cfg i L (mk_world nodes devs chans used sim out) =
  Undefined (mk_world nodes devs (chans ++ [YansWifiChannel]) used sim out).
Proof.
  intros Hn Hc Hd Hh.
  unfold cluster_body, Channel_Create, NodeContainer_Create, WifiHelper_Install.
  munfold. wsimpl. rewrite Hn, Hc, Hd, Hh.
  cbn [Z.to_nat replicate seq app Install_devices InternetStackHelper_Install
       Assign MobilityHelper_Install].
  munfold. wsimpl. by rewrite app_nil_r.
Qed.

(** A cluster for which no pool was declared: the nodes are created, the
    wireless devices and the stack installed, and the subscript of
    [ipAddrs] is out of range. *)
Lemma cluster_body_no_pool cfg i L n xD nodes devs chans used sim out :
  infraNodes cfg !! i = Some n → clusters L !! i = Some [] →
  clusterDevices L !! i = Some xD → ipAddrs L !! i = None →
  cluster_body cfg i L (mk_world nodes devs chans used sim out) =
  Undefined
    (mk_world
       (nodes ++ ((λ k, set_ipv4 (add_device (length devs + k) new_Node)) <$>
                  seq 0 (Z.to_nat n)))
       (devs ++ (mk_device YansWifiChannel (length chans) <$>
                 seq (length nodes) (Z.to_nat n)))
       (chans ++ [YansWifiChannel]) used sim out).
Proof.
  intros Hn Hc Hd Hh.
  unfold cluster_body, Channel_Create, NodeContainer_Create, WifiHelper_Install.
  munfold. wsimpl. rewrite Hn, Hc, Hd. wsimpl. cbn [app].
  rewrite Install_devices_spec.
  2:{ apply Forall_forall. intros x Hx. apply elem_of_seq in Hx.
      rewrite length_app, length_replicate. lia. }
  rewrite attach_range_n by apply length_replicate.
  rewrite length_seq.
  rewrite (replicate_fmap_seq new_Node), imap_fmap_seq.
  rewrite InternetStackHelper_Install_range_n;
    [|by rewrite length_fmap, length_seq|by apply Forall_fmap, Forall_true].
  rewrite <- list_fmap_compose. by rewrite Hh.
Qed.

(** [Assign] over more devices than the block has hosts left: the hosts up
    to 254 are handed out, in order, and the next request ends the run in
    the exhaustion assertion of the helper. *)
Lemma Assign_exhausts nw nodes chans sim out :
  0 ≤ nw < 2 ^ 24 →
  ∀ newd dl a used,
    1 ≤ a ≤ 255 → 255 < a + Z.of_nat (length newd) →
    Forall (λ d, ∃ nd, nodes !! dev_node d = Some nd ∧ node_ipv4 nd = true) newd →
    Forall (λ x, x < nw * 2 ^ 8 + a ∨ nw * 2 ^ 8 + 255 ≤ x) used →
    Assign (pool24 nw a) (seq (length dl) (length newd))
      (mk_world nodes (dl ++ newd) chans used sim out) =
    Aborted
      (mk_world nodes
         (dl ++ imap (assigned nw a) (take (Z.to_nat (255 - a)) newd) ++
          drop (Z.to_nat (255 - a)) newd) chans
         (reverse (host_address nw a <$> seq 0 (Z.to_nat (255 - a))) ++ used)
         sim out).
Proof.
  intros Hnw newd. induction newd as [|d newd IH]; intros dl a used Ha Hlen Hnodes Hused.
  - simpl in Hlen. lia.
  - apply Forall_cons in Hnodes as [(nd & Hnd & Hip) Hnodes].
    rewrite length_cons, Nat2Z.inj_succ in Hlen.
    cbn [length seq Assign]. munfold. wsimpl.
    rewrite list_lookup_middle by done. wsimpl.
    rewrite Hnd, Hip.
    destruct (decide (a = 255)) as [->|Hne].
    + unfold NewAddress. cbn [pool24 m_address m_max].
      destruct (Z.leb_spec 255 254) as [?|_]; [lia|]. munfold.
      by change (Z.to_nat (255 - 255)) with 0%nat.
    + rewrite NewAddress_24; [|done|lia|].
      2:{ intros Hin. rewrite Forall_forall in Hused. apply Hused in Hin. lia. }
      cbn [pool24 m_mask]. wsimpl.
      rewrite alter_app_r_alt by lia. rewrite Nat.sub_diag.
      cbn [alter list_alter]. rewrite cons_middle, app_assoc.
      replace (S (length dl))
        with (length (dl ++ [add_address {| ifa_local := nw * 2 ^ 8 + a;
                ifa_mask := Ipv4Mask 255 255 255 0 |} d]))
        by (rewrite length_app; simpl; lia).
      rewrite IH; [|lia|lia|done|].
      2:{ apply Forall_cons. split; [lia|]. eapply Forall_impl; [exact Hused|].
          simpl. intros; lia. }
      replace (Z.to_nat (255 - a)) with (S (Z.to_nat (255 - (a + 1)))) by lia.
      f_equal. f_equal.
      * rewrite <- app_assoc. cbn [take drop imap app]. do 2 f_equal.
        -- unfold assigned, host_address. simpl. by rewrite Z.add_0_r.
        -- f_equal. apply imap_ext. intros i x _. unfold assigned, host_address.
           simpl. do 2 f_equal. lia.
      * cbn [seq]. rewrite fmap_cons, reverse_cons, <- app_assoc. simpl.
        unfold host_address at 3. rewrite Z.add_0_r. do 2 f_equal.
        rewrite <- fmap_S_seq, <- list_fmap_compose.
        apply list_fmap_ext. intros i x _. unfold host_address. simpl. lia.
Qed.

Lemma Assign_exhausts_n nw nodes chans sim out newd dl used m first :
  0 ≤ nw < 2 ^ 24 → length dl = first → length newd = m → (254 < m)%nat →
  Forall (λ d, ∃ nd, nodes !! dev_node d = Some nd ∧ node_ipv4 nd = true) newd →
  Forall (λ x, x < nw * 2 ^ 8 + 1 ∨ nw * 2 ^ 8 + 255 ≤ x) used →
  Assign (pool24 nw 1) (seq first m)
    (mk_world nodes (dl ++ newd) chans used sim out) =
  Aborted
    (mk_world nodes (dl ++ imap (assigned nw 1) (take 254 newd) ++ drop 254 newd)
       chans (reverse (host_address nw 1 <$> seq 0 254) ++ used) sim out).
Proof.
  intros Hnw <- <- Hm Hnodes Hused.
  rewrite Assign_exhausts; [done|done|lia|lia|done|done].
Qed.

(** A cluster beyond the 254 hosts of its block: its nodes and devices are
    created, the first 254 devices receive the hosts .1 to .254, and the
    request for a 255th address ends the run. *)
Lemma cluster_body_large cfg i L n xD nodes devs chans used sim out :
  infraNodes cfg !! i = Some n → 254 < n → (i < 3)%nat →
  clusters L !! i = Some [] → clusterDevices L !! i = Some xD →
  ipAddrs L !! i = Some (pool24 (pool_network i) 1) →
  length devs = length nodes →
  Forall (λ x, x < pool_network i * 2 ^ 8) used →
  cluster_body cfg i L (mk_world nodes devs chans used sim out) =
  Aborted
    (mk_world
       (nodes ++ ((λ k, set_ipv4 (add_device (length devs + k) new_Node)) <$>
                  seq 0 (Z.to_nat n)))
       (devs ++
        imap (assigned (pool_network i) 1)
          (take 254 (mk_device YansWifiChannel (length chans) <$>
                     seq (length nodes) (Z.to_nat n))) ++
        drop 254 (mk_device YansWifiChannel (length chans) <$>
                  seq (length nodes) (Z.to_nat n)))
       (chans ++ [YansWifiChannel])
       (reverse (host_address (pool_network i) 1 <$> seq 0 254) ++ used)
       sim out).
Proof.
  intros Hn Hlarge Hi Hc Hd Hh Hlen Hused.
  assert (0 ≤ pool_network i < 2 ^ 24) as Hnw by (unfold pool_network; lia).
  unfold cluster_body, Channel_Create, NodeContainer_Create, WifiHelper_Install.
  munfold. wsimpl. rewrite Hn, Hc, Hd. wsimpl. cbn [app].
  rewrite Install_devices_spec.
  2:{ apply Forall_forall. intros x Hx. apply elem_of_seq in Hx.
      rewrite length_app, length_replicate. lia. }
  rewrite attach_range_n by apply length_replicate.
  rewrite length_seq.
  rewrite (replicate_fmap_seq new_Node), imap_fmap_seq.
  rewrite InternetStackHelper_Install_range_n;
    [|by rewrite length_fmap, length_seq|by apply Forall_fmap, Forall_true].
  rewrite <- list_fmap_compose. rewrite Hh.
  rewrite (Assign_exhausts_n (pool_network i));
    [done|done|done|by rewrite length_fmap, length_seq|lia| |].
  - apply Forall_fmap, Forall_forall. intros x Hx. apply elem_of_seq in Hx.
    simpl. eexists. split; [|shelve].
    rewrite lookup_app_r by lia. rewrite list_lookup_fmap.
    rewrite lookup_seq_lt by lia. simpl. reflexivity.
  - eapply Forall_impl; [exact Hused|]. simpl. intros; lia.
  Unshelve. done.
Qed.

(** The run on a configuration with a fourth cluster. *)
Lemma main_with_no_pool cfg rd n :
  array_typed cfg → 10 ≤ stopTime cfg →
  infraNodes cfg !! 3%nat = Some n →
  Forall (λ n, 1 ≤ n ≤ 254) (take 3 (infraNodes cfg)) →
  let pre := take 3 (infraNodes cfg) in
  main_with cfg rd =
  Undefined
    (mk_world
       (nodes_from 0 0 pre ++
        ((λ k, set_ipv4 (add_device (length (devices_from 0 0 pre) + k) new_Node)) <$>
         seq 0 (Z.to_nat n)))
       (devices_from 0 0 pre ++
        (mk_device YansWifiChannel (length (replicate (length pre) YansWifiChannel)) <$>
         seq (length (nodes_from 0 0 pre)) (Z.to_nat n)))
       (replicate (length pre) YansWifiChannel ++ [YansWifiChannel])
       (used_from 0 pre []) (Simulator empty_World) []).
Proof.
  intros Htyped Hstop Hn Hpre pre.
  assert (length pre = 3%nat) as Hlen.
  { unfold pre. rewrite length_take. apply lookup_lt_Some in Hn. lia. }
  eapply (main_with_stops cfg rd 3 n); [done..| |done].
  apply (cluster_body_no_pool cfg _ _ n []);
    [done|by apply reached_clusters|by apply reached_clusterDevices
    |by apply reached_no_pool].
Qed.

(** The run on a configuration whose first ill-formed cluster has size 0. *)
Lemma main_with_empty cfg rd j :
  array_typed cfg → 10 ≤ stopTime cfg → (j < 3)%nat →
  infraNodes cfg !! j = Some 0 →
  Forall (λ n, 1 ≤ n ≤ 254) (take j (infraNodes cfg)) →
  let pre := take j (infraNodes cfg) in
  main_with cfg rd =
  Undefined
    (mk_world (nodes_from 0 0 pre) (devices_from 0 0 pre)
       (replicate (length pre) YansWifiChannel ++ [YansWifiChannel])
       (used_from 0 pre []) (Simulator empty_World) []).
Proof.
  intros Htyped Hstop Hj Hn Hpre pre.
  assert (length pre = j) as Hlen.
  { unfold pre. rewrite length_take. apply lookup_lt_Some in Hn. lia. }
  eapply (main_with_stops cfg rd j 0); [done|done|done|lia|done| |done].
  apply (cluster_body_empty cfg _ _ (pool24 (pool_network j) 1) []);
    [done|by apply reached_clusters|by apply reached_clusterDevices
    |by apply reached_pool].
Qed.

(** The run on a configuration whose first ill-formed cluster is beyond
    the hosts of its block. *)
Lemma main_with_large cfg rd j n :
  array_typed cfg → 10 ≤ stopTime cfg → (j < 3)%nat →
  infraNodes cfg !! j = Some n → 254 < n →
  Forall (λ n, 1 ≤ n ≤ 254) (take j (infraNodes cfg)) →
  let pre := take j (infraNodes cfg) in
  let newd := mk_device YansWifiChannel
                (length (replicate (length pre) YansWifiChannel)) <$>
              seq (length (nodes_from 0 0 pre)) (Z.to_nat n) in
  main_with cfg rd =
  Aborted
    (mk_world
       (nodes_from 0 0 pre ++
        ((λ k, set_ipv4 (add_device (length (devices_from 0 0 pre) + k) new_Node)) <$>
         seq 0 (Z.to_nat n)))
       (devices_from 0 0 pre ++
        imap (assigned (pool_network j) 1) (take 254 newd) ++ drop 254 newd)
       (replicate (length pre) YansWifiChannel ++ [YansWifiChannel])
       (reverse (host_address (pool_network j) 1 <$> seq 0 254) ++
        used_from 0 pre [])
       (Simulator empty_World) []).
Proof.
  intros Htyped Hstop Hj Hn Hlarge Hpre pre newd.
  assert (length pre = j) as Hlen.
  { unfold pre. rewrite length_take. apply lookup_lt_Some in Hn. lia. }
  eapply (main_with_stops cfg rd j n); [done|done|done|lia|done| |done].
  apply (cluster_body_large cfg _ _ n []);
    [done|done|done|by apply reached_clusters|by apply reached_clusterDevices
    |by apply reached_pool| |].
  - by rewrite length_devices_from, length_nodes_from.
  - apply reached_used; [done|lia].
Qed.

(** X1.  More than three clusters.  [main] declares three cluster pools
    ([ipAddrs[3]]) whatever the number of clusters.  With a fourth cluster
    configured, the first three being well formed, the run builds the first
    three clusters, creates the channel, the nodes, the wireless devices and
    the stack of the fourth, and then subscripts [ipAddrs] at 3, past its
    end: the behaviour is undefined from there.  No device of the fourth
    cluster has received an address, nothing was printed and the simulator
    was not started. *)
Theorem fourth_cluster_undefined cfg rd n :
  array_typed cfg → 10 ≤ stopTime cfg →
  infraNodes cfg !! 3%nat = Some n →
  Forall (λ n, 1 ≤ n ≤ 254) (take 3 (infraNodes cfg)) →
  ∃ w, main_with cfg rd = Undefined w ∧
    length (ChannelList w) = 4%nat ∧
    length (NodeList w) = offset (infraNodes cfg) 4 ∧
    length (DeviceList w) = offset (infraNodes cfg) 4 ∧
    length (Ipv4AddressGenerator w) = offset (infraNodes cfg) 3 ∧
    (∀ d dev, DeviceList w !! d = Some dev →
       dev_channel dev = 3%nat → dev_addresses dev = []) ∧
    Simulator w = Simulator empty_World ∧ cout w = [].
Proof.
  intros Htyped Hstop Hn Hpre.
  assert (length (take 3 (infraNodes cfg)) = 3%nat) as Hlen.
  { rewrite length_take. apply lookup_lt_Some in Hn. lia. }
  eexists. split; [by apply (main_with_no_pool cfg rd n)|].
  set (pre := take 3 (infraNodes cfg)) in *. wsimpl.
  rewrite (offset_S _ _ _ Hn), <- total_take. fold pre.
  split_and!.
  - rewrite length_app, length_replicate, Hlen. done.
  - by rewrite length_app, length_nodes_from, length_fmap, length_seq.
  - by rewrite length_app, length_devices_from, length_fmap, length_seq.
  - by rewrite length_used_from, Nat.add_0_r.
  - intros d dev Hd Hch. apply lookup_app_Some in Hd as [Hd|[_ Hd]].
    + pose proof (devices_from_channel pre 0 0) as Hchans.
      rewrite Forall_forall in Hchans.
      apply list_elem_of_lookup_2, Hchans in Hd. lia.
    + rewrite list_lookup_fmap in Hd.
      destruct (seq _ _ !! _); simplify_eq/=. done.
  - done.
  - done.
Qed.

(** X2.  A cluster of size 0.  The upper bound of the draw,
    [infraNodes[i] - 1], is computed on [uint32_t]: for size 0 it wraps to
    4294967295, which the [int] parameter of the distribution reads as -1.
    When the first ill-formed cluster, of index [j], has size 0, the run
    builds the clusters before it, creates the channel of cluster [j], adds
    no node, device or address for it, and reaches the draw over the empty
    range [0, -1], which the distribution leaves undefined.  Nothing was
    printed and the simulator was not started. *)
Theorem empty_cluster_undefined cfg rd j :
  array_typed cfg → 10 ≤ stopTime cfg → (j < 3)%nat →
  infraNodes cfg !! j = Some 0 →
  Forall (λ n, 1 ≤ n ≤ 254) (take j (infraNodes cfg)) →
  int (uint32_t (0 - 1)) = -1 ∧
  ∃ w, main_with cfg rd = Undefined w ∧
    length (ChannelList w) = S j ∧
    length (NodeList w) = offset (infraNodes cfg) j ∧
    length (DeviceList w) = offset (infraNodes cfg) j ∧
    length (Ipv4AddressGenerator w) = offset (infraNodes cfg) j ∧
    (∀ dev, dev ∈ DeviceList w → dev_channel dev ≠ j) ∧
    Simulator w = Simulator empty_World ∧ cout w = [].
Proof.
  intros Htyped Hstop Hj Hn Hpre. split; [done|].
  assert (length (take j (infraNodes cfg)) = j) as Hlen.
  { rewrite length_take. apply lookup_lt_Some in Hn. lia. }
  eexists. split; [by apply (main_with_empty cfg rd j)|].
  set (pre := take j (infraNodes cfg)) in *. wsimpl.
  rewrite <- total_take. fold pre. split_and!.
  - rewrite length_app, length_replicate, Hlen. simpl. lia.
  - by rewrite length_nodes_from.
  - by rewrite length_devices_from.
  - by rewrite length_used_from, Nat.add_0_r.
  - intros dev Hdev. pose proof (devices_from_channel pre 0 0) as Hchans.
    rewrite Forall_forall in Hchans. apply Hchans in Hdev. lia.
  - done.
  - done.
Qed.

(** X3.  A cluster beyond its block.  When the first ill-formed cluster, of
    index [j] and size [n], has more than 254 nodes, the run creates the
    channel, the [n] nodes and the [n] devices of the cluster, hands the
    hosts 192.(167+j).0.1 to 192.(167+j).0.254 to its first 254 devices, in
    order, and ends in the exhaustion assertion of the address helper at
    the request for a 255th address: the devices from the 255th on have no
    address.  Nothing was printed and the simulator was not started. *)
Theorem oversized_cluster_aborts cfg rd j n :
  array_typed cfg → 10 ≤ stopTime cfg → (j < 3)%nat →
  infraNodes cfg !! j = Some n → 254 < n →
  Forall (λ n, 1 ≤ n ≤ 254) (take j (infraNodes cfg)) →
  ∃ w, main_with cfg rd = Aborted w ∧
    length (ChannelList w) = S j ∧
    length (NodeList w) = offset (infraNodes cfg) (S j) ∧
    length (DeviceList w) = offset (infraNodes cfg) (S j) ∧
    length (Ipv4AddressGenerator w) = (offset (infraNodes cfg) j + 254)%nat ∧
    (∀ k, (k < Z.to_nat n)%nat →
       ∃ dev, DeviceList w !! (offset (infraNodes cfg) j + k)%nat = Some dev ∧
         dev_channel dev = j ∧
         dev_addresses dev =
           if decide (k < 254)%nat
           then [{| ifa_local := Ipv4Address 192 (167 + Z.of_nat j) 0 (Z.of_nat k + 1);
                    ifa_mask := Ipv4Mask 255 255 255 0 |}]
           else []) ∧
    Simulator w = Simulator empty_World ∧ cout w = [].
Proof.
  intros Htyped Hstop Hj Hn Hlarge Hpre.
  assert (length (take j (infraNodes cfg)) = j) as Hlen.
  { rewrite length_take. apply lookup_lt_Some in Hn. lia. }
  eexists. split; [by apply (main_with_large cfg rd j n)|].
  set (pre := take j (infraNodes cfg)) in *. wsimpl.
  rewrite (offset_S _ _ _ Hn), <- total_take. fold pre.
  set (newd := mk_device YansWifiChannel (length (replicate (length pre) YansWifiChannel)) <$>
               seq (length (nodes_from 0 0 pre)) (Z.to_nat n)).
  assert (length newd = Z.to_nat n) as Hnewd
    by (unfold newd; by rewrite length_fmap, length_seq).
  split_and!.
  - rewrite length_app, length_replicate, Hlen. simpl. lia.
  - by rewrite length_app, length_nodes_from, length_fmap, length_seq.
  - rewrite !length_app, length_devices_from, length_imap, length_take,
      length_drop. lia.
  - rewrite length_app, length_reverse, length_fmap, length_seq, length_used_from.
    simpl. lia.
  - intros k Hk.
    rewrite lookup_app_r by (rewrite length_devices_from; lia).
    rewrite length_devices_from.
    replace (total pre + k - total pre)%nat with k by lia.
    assert (newd !! k = Some (mk_device YansWifiChannel j (total pre + k)%nat))
      as Hlook.
    { unfold newd. rewrite list_lookup_fmap, lookup_seq_lt by done. simpl.
      by rewrite length_replicate, length_nodes_from, Hlen. }
    destruct (decide (k < 254)%nat) as [Hlt|Hge].
    + rewrite lookup_app_l by (rewrite length_imap, length_take; lia).
      rewrite list_lookup_imap, lookup_take_lt by done. rewrite Hlook. simpl.
      eexists. split; [done|]. split; [done|]. simpl.
      by rewrite Ipv4Address_cluster_host.
    + rewrite lookup_app_r by (rewrite length_imap, length_take; lia).
      rewrite length_imap, length_take, lookup_drop.
      replace (254 + (k - 254 `min` length newd))%nat with k by lia.
      rewrite Hlook. by eexists.
  - done.
  - done.
Qed.

(** The first cluster on which the loop cannot complete: the one past the
    declared pools, or the first of size 0 or beyond 254. *)
Lemma first_offending_cluster sizes : ∀ b,
  Forall (λ n, 0 ≤ n) sizes →
  ¬ (Forall (λ n, 1 ≤ n ≤ 254) sizes ∧ (length sizes ≤ b)%nat) →
  ∃ j n, sizes !! j = Some n ∧ (j ≤ b)%nat ∧
    Forall (λ n, 1 ≤ n ≤ 254) (take j sizes) ∧
    (j = b ∨ ((j < b)%nat ∧ (n = 0 ∨ 254 < n))).
Proof.
  induction sizes as [|x sizes IH]; intros b Hnonneg Hbad.
  { destruct Hbad. split; [done|simpl; lia]. }
  apply Forall_cons in Hnonneg as [Hx Hnonneg].
  destruct b as [|b].
  { exists 0%nat, x. split_and!; [done|lia|done|by left]. }
  destruct (decide (1 ≤ x ≤ 254)) as [Hok|Hnok].
  - destruct (IH b Hnonneg) as (j & n & Hn & Hj & Hpre & Hcase).
    { intros [Hs Hl]. apply Hbad. split; [by apply Forall_cons|simpl; lia]. }
    exists (S j), n. split_and!; [done|lia|by apply Forall_cons|].
    destruct Hcase as [->|[Hlt Hn0]]; [by left|right; split; [lia|done]].
  - exists 0%nat, x. split_and!; [done|lia|done|].
    right. split; [lia|lia].
Qed.

(** X4.  How a run can end early (the sizes being unsigned).  [main] calls
    [exit] only with status 1 and only when the stop time is below 10.  A
    run that ends in an abort of the engine has passed the stop-time check
    and has a cluster of more than 254 nodes among its first three.  A run
    that leaves the behaviour defined by C++ has passed the stop-time check
    and has more than three clusters or a cluster of size 0 among its first
    three. *)
Theorem crash_diagnosis cfg rd :
  array_typed cfg → Forall (λ n, 0 ≤ n) (infraNodes cfg) →
  (∀ s w, main_with cfg rd = Exited s w → s = 1 ∧ stopTime cfg < 10) ∧
  (∀ w, main_with cfg rd = Aborted w →
     10 ≤ stopTime cfg ∧
     ∃ j n, (j < 3)%nat ∧ infraNodes cfg !! j = Some n ∧ 254 < n) ∧
  (∀ w, main_with cfg rd = Undefined w →
     10 ≤ stopTime cfg ∧
     ((3 < length (infraNodes cfg))%nat ∨
      ∃ j, (j < 3)%nat ∧ infraNodes cfg !! j = Some 0)).
Proof.
  intros Htyped Hnonneg.
  destruct (Z.lt_ge_cases (stopTime cfg) 10) as [Hlow|Hstop].
  { rewrite main_with_low by done. split_and!; [|done..].
    intros s w Heq. by injection Heq as <- _. }
  destruct (decide (Forall (λ n, 1 ≤ n ≤ 254) (infraNodes cfg) ∧
                    (length (infraNodes cfg) ≤ 3)%nat)) as [[Hs Hl]|Hbad].
  { rewrite main_with_spec; [done| |done].
    destruct Htyped as [Hcount _]. by constructor. }
  destruct (first_offending_cluster _ 3 Hnonneg Hbad)
    as (j & n & Hn & Hj & Hpre & Hcase).
  destruct Hcase as [->|[Hlt [->|Hlarge]]].
  - rewrite (main_with_no_pool cfg rd n) by done.
    split_and!; [done|done|].
    intros w _. split; [done|]. left. by apply lookup_lt_Some in Hn.
  - rewrite (main_with_empty cfg rd j) by done.
    split_and!; [done|done|].
    intros w _. split; [done|]. right. by exists j.
  - rewrite (main_with_large cfg rd j n) by done.
    split_and!; [done| |done].
    intros w _. split; [done|]. by exists j, n.
Qed.

End Failures.

Lemma fourth_cluster_undefined_witness :
  array_typed four_clusters ∧
  ∃ w, @main_with lcg four_clusters 5 = Undefined w ∧
       length (NodeList w) = 5%nat ∧ length (Ipv4AddressGenerator w) = 4%nat.
Proof.
  assert (array_typed four_clusters) as Htyped by (split; [done|simpl; lia]).
  split; [exact Htyped|].
  destruct (@fourth_cluster_undefined lcg four_clusters 5 1 Htyped
              ltac:(simpl; lia) eq_refl
              ltac:(simpl; repeat (apply Forall_cons_2; [lia|]); apply Forall_nil_2))
    as (w & Hrun & _ & Hnodes & _ & Hused & _).
  exists w. split; [exact Hrun|]. split; [exact Hnodes|exact Hused].
Defined.

Lemma empty_cluster_undefined_witness :
  array_typed empty_cluster ∧
  ∃ w, @main_with lcg empty_cluster 5 = Undefined w ∧
       length (NodeList w) = 4%nat ∧ length (ChannelList w) = 2%nat.
Proof.
  assert (array_typed empty_cluster) as Htyped by (split; [done|simpl; lia]).
  split; [exact Htyped|].
  destruct (@empty_cluster_undefined lcg empty_cluster 5 1 Htyped
              ltac:(simpl; lia) ltac:(lia) eq_refl
              ltac:(simpl; repeat (apply Forall_cons_2; [lia|]); apply Forall_nil_2))
    as (_ & w & Hrun & Hchans & Hnodes & _).
  exists w. split; [exact Hrun|]. split; [exact Hnodes|exact Hchans].
Defined.

Lemma oversized_cluster_aborts_witness :
  array_typed large_cluster ∧
  ∃ w, @main_with lcg large_cluster 5 = Aborted w ∧
       length (NodeList w) = 259%nat ∧
       length (Ipv4AddressGenerator w) = 258%nat.
Proof.
  assert (array_typed large_cluster) as Htyped by (split; [done|simpl; lia]).
  split; [exact Htyped|].
  destruct (@oversized_cluster_aborts lcg large_cluster 5 1 255 Htyped
              ltac:(simpl; lia) ltac:(lia) eq_refl ltac:(lia)
              ltac:(simpl; repeat (apply Forall_cons_2; [lia|]); apply Forall_nil_2))
    as (w & Hrun & _ & Hnodes & _ & Hused & _).
  exists w. split; [exact Hrun|]. split; [exact Hnodes|exact Hused].
Defined.

Lemma crash_diagnosis_witness :
  (array_typed large_cluster ∧ Forall (λ n, 0 ≤ n) (infraNodes large_cluster)) ∧
  ∃ w j n, @main_with lcg large_cluster 5 = Aborted w ∧
    (j < 3)%nat ∧ infraNodes large_cluster !! j = Some n ∧ 254 < n.
Proof.
  assert (array_typed large_cluster) as Htyped by (split; [done|simpl; lia]).
  assert (Forall (λ n, 0 ≤ n) (infraNodes large_cluster)) as Hnonneg
    by (simpl; repeat (apply Forall_cons_2; [lia|]); apply Forall_nil_2).
  split; [by split|].
  pose proof (@main_with_large lcg large_cluster 5 1 255 Htyped
                ltac:(simpl; lia) ltac:(lia) eq_refl ltac:(lia)
                ltac:(simpl; repeat (apply Forall_cons_2; [lia|]); apply Forall_nil_2))
    as Hrun.
  destruct (@crash_diagnosis lcg large_cluster 5 Htyped Hnonneg)
    as (_ & Habort & _).
  destruct (Habort _ Hrun) as (_ & j & n & Hj & Hn & Hlarge).
  eexists _, j, n. split; [exact Hrun|]. split; [exact Hj|]. split; [exact Hn|exact Hlarge].
Defined.

(** ** The assembled topology, interface by interface *)

Section Interfaces.
Context `{G : UniformRandomBitGenerator}.

Lemma final_clusterDevices_lookup cfg rd j ds k d :
  clusterDevices (final_locals cfg rd) !! j = Some ds → ds !! k = Some d →
  ∃ n, infraNodes cfg !! j = Some n ∧ (k < Z.to_nat n)%nat ∧
       d = (offset (infraNodes cfg) j + k)%nat.
Proof.
  intros Hds Hd. unfold final_locals in Hds. cbn [clusterDevices] in Hds.
  assert (j < length (infraNodes cfg))%nat as Hj.
  { apply lookup_lt_Some in Hds. by rewrite length_containers_from in Hds. }
  destruct (lookup_lt_is_Some_2 _ _ Hj) as [n Hn].
  rewrite (containers_from_lookup _ _ _ _ Hn) in Hds. injection Hds as <-.
  apply lookup_seq in Hd as [-> Hk]. by exists n.
Qed.

Lemma final_head_clusterDevices_lookup cfg rd j d :
  head_clusterDevices (final_locals cfg rd) !! j = Some d →
  (j < length (infraNodes cfg))%nat ∧ d = (total (infraNodes cfg) + j)%nat ∧
  ∃ h, final_heads (infraNodes cfg) rd !! j = Some h.
Proof.
  intros Hd. unfold final_locals in Hd. cbn [head_clusterDevices] in Hd.
  apply lookup_seq in Hd as [-> Hj]. split; [done|]. split; [done|].
  apply lookup_lt_is_Some_2. unfold final_heads.
  by rewrite length_heads_from by apply length_draws_from.
Qed.

Lemma final_node_position cfg rd (Hwf : wf_config cfg) h nd :
  NodeList (final_world cfg rd) !! h = Some nd →
  ∃ j n k, infraNodes cfg !! j = Some n ∧ (k < Z.to_nat n)%nat ∧
    h = (offset (infraNodes cfg) j + k)%nat ∧
    node_position nd =
      Some ((Z.of_nat j + 1) * 50 + 5 * (Z.of_nat k `mod` 2),
            (Z.of_nat j + 1) * 20 + 10 * (Z.of_nat k `div` 2)).
Proof.
  intros Hnd.
  assert (h < total (infraNodes cfg))%nat as Hh.
  { apply lookup_lt_Some in Hnd. unfold final_world in Hnd. simpl in Hnd.
    by rewrite length_attach, length_nodes_from in Hnd. }
  destruct (offset_decompose _ _ Hh) as (j & n & k & Hn & Hk & ->).
  destruct (final_draw_exists cfg rd j n Hn) as [r Hr].
  rewrite (final_node cfg rd Hwf j n k r Hn Hk Hr) in Hnd. injection Hnd as <-.
  by exists j, n, k.
Qed.

(** X5.  The address of every interface.  In a run that completes, the
    [k]-th device of cluster [j] is installed on the [k]-th node of the
    cluster and holds exactly the address 192.(167+j).0.(k+1)/24; the [j]-th
    backbone device is installed on the representative of cluster [j] and
    holds exactly 172.16.0.(j+1)/24. *)
Theorem interface_addresses cfg rd L w :
  array_typed cfg → main_with cfg rd = Ok L w →
  (∀ j ds k d, clusterDevices L !! j = Some ds → ds !! k = Some d →
     ∃ c h dev, clusters L !! j = Some c ∧ c !! k = Some h ∧
       DeviceList w !! d = Some dev ∧ dev_node dev = h ∧
       dev_addresses dev =
         [{| ifa_local := Ipv4Address 192 (167 + Z.of_nat j) 0 (Z.of_nat k + 1);
             ifa_mask := Ipv4Mask 255 255 255 0 |}]) ∧
  (∀ j d, head_clusterDevices L !! j = Some d →
     ∃ rep dev, head_cluster L !! j = Some rep ∧
       DeviceList w !! d = Some dev ∧ dev_node dev = rep ∧
       dev_addresses dev =
         [{| ifa_local := Ipv4Address 172 16 0 (Z.of_nat j + 1);
             ifa_mask := Ipv4Mask 255 255 255 0 |}]).
Proof.
  intros Htyped Hrun.
  destruct (completed_run cfg rd L w Htyped Hrun) as (Hwf & Hstop & -> & ->).
  split.
  - intros j ds k d Hds Hd.
    destruct (final_clusterDevices_lookup cfg rd j ds k d Hds Hd)
      as (n & Hn & Hk & ->).
    destruct (final_index_bounds cfg Hwf j n Hn) as [Hj3 _].
    pose proof (final_size_range cfg Hwf j n Hn) as Hsize.
    eexists _, _, _. split_and!.
    + by apply final_cluster_lookup.
    + by apply lookup_seq_lt.
    + by apply (final_cluster_device cfg rd j n k).
    + done.
    + simpl. rewrite Ipv4Address_cluster_host by lia. done.
  - intros j d Hd.
    destruct (final_head_clusterDevices_lookup cfg rd j d Hd) as (Hj & -> & h & Hh).
    pose proof (wf_pools _ Hwf) as Hpools.
    eexists _, _. split_and!.
    + exact Hh.
    + by apply final_backbone_device.
    + done.
    + simpl. rewrite Ipv4Address_backbone_host by lia. done.
Qed.

(** X6.  In a run that completes no two devices of the topology hold the
    same address, across the clusters and the backbone. *)
Theorem addresses_unique cfg rd L w :
  array_typed cfg → main_with cfg rd = Ok L w →
  ∀ d1 d2 dev1 dev2 a1 a2,
    DeviceList w !! d1 = Some dev1 → DeviceList w !! d2 = Some dev2 →
    a1 ∈ dev_addresses dev1 → a2 ∈ dev_addresses dev2 →
    ifa_local a1 = ifa_local a2 → d1 = d2.
Proof.
  intros Htyped Hrun.
  destruct (completed_run cfg rd L w Htyped Hrun) as (Hwf & Hstop & -> & ->).
  intros d1 d2 dev1 dev2 a1 a2 Hd1 Hd2 Ha1 Ha2 Heq.
  pose proof (wf_pools _ Hwf) as Hpools.
  destruct (final_device_cases cfg rd d1 dev1 Hd1)
    as [(j1 & n1 & k1 & Hn1 & Hk1 & -> & ->)|(j1 & h1 & Hh1 & -> & ->)];
  destruct (final_device_cases cfg rd d2 dev2 Hd2)
    as [(j2 & n2 & k2 & Hn2 & Hk2 & -> & ->)|(j2 & h2 & Hh2 & -> & ->)];
  simpl in Ha1, Ha2;
  apply list_elem_of_singleton in Ha1 as ->;
  apply list_elem_of_singleton in Ha2 as ->; simpl in Heq;
  unfold host_address, pool_network, backbone_network in Heq.
  - pose proof (final_size_range cfg Hwf _ _ Hn1).
    pose proof (final_size_range cfg Hwf _ _ Hn2).
    assert (j1 = j2) as -> by lia. f_equal. lia.
  - pose proof (final_size_range cfg Hwf _ _ Hn1).
    apply lookup_lt_Some in Hh2. unfold final_heads in Hh2.
    rewrite length_heads_from in Hh2 by apply length_draws_from. lia.
  - pose proof (final_size_range cfg Hwf _ _ Hn2).
    apply lookup_lt_Some in Hh1. unfold final_heads in Hh1.
    rewrite length_heads_from in Hh1 by apply length_draws_from. lia.
  - f_equal. lia.
Qed.

(** X7.  The census of a completed run, for any number of clusters: one
    wireless channel per cluster, in the order of the clusters, followed by
    exactly one CSMA channel; one device per node and one more per cluster;
    as many addresses handed out as there are devices; representatives that
    are pairwise distinct nodes.  Every device holds exactly one address,
    sits on a channel of its own type, is a CSMA device exactly when it is
    one of [head_clusterDevices], and is listed among the devices of the
    node it is installed on. *)
Theorem topology_census cfg rd L w :
  array_typed cfg → main_with cfg rd = Ok L w →
  ChannelList w =
    replicate (length (infraNodes cfg)) YansWifiChannel ++ [CsmaChannel] ∧
  length (DeviceList w) = (total (infraNodes cfg) + length (infraNodes cfg))%nat ∧
  length (Ipv4AddressGenerator w) = length (DeviceList w) ∧
  NoDup (head_cluster L) ∧
  ∀ d dev, DeviceList w !! d = Some dev →
    length (dev_addresses dev) = 1%nat ∧
    ChannelList w !! dev_channel dev = Some (dev_type dev) ∧
    (dev_type dev = CsmaChannel ↔ d ∈ head_clusterDevices L) ∧
    ∃ nd, NodeList w !! dev_node dev = Some nd ∧ d ∈ node_devices nd.
Proof.
  intros Htyped Hrun.
  destruct (completed_run cfg rd L w Htyped Hrun) as (Hwf & Hstop & -> & ->).
  assert (length (final_heads (infraNodes cfg) rd) = length (infraNodes cfg))
    as Hheads.
  { unfold final_heads. by rewrite length_heads_from by apply length_draws_from. }
  split_and!.
  - done.
  - unfold final_world. wsimpl.
    by rewrite length_app, length_devices_from, length_imap, Hheads.
  - unfold final_world. wsimpl.
    rewrite !length_app, length_reverse, length_fmap, length_seq,
      length_used_from, length_devices_from, length_imap, Hheads. simpl. lia.
  - unfold final_locals. cbn [head_cluster].
    apply heads_from_NoDup, final_draws_Forall2. done.
  - intros d dev Hd.
    destruct (final_device_cases cfg rd d dev Hd)
      as [(j & n & k & Hn & Hk & -> & ->)|(j & h & Hh & -> & ->)].
    + destruct (final_draw_exists cfg rd j n Hn) as [r Hr].
      pose proof (offset_lt_total _ _ _ Hn) as Hlt.
      split_and!.
      * done.
      * unfold final_world. wsimpl. cbn [cluster_device dev_channel dev_type].
        rewrite lookup_app_l by (rewrite length_replicate; by eapply lookup_lt_Some).
        apply lookup_replicate_2. by eapply lookup_lt_Some.
      * split; [done|]. unfold final_locals. cbn [head_clusterDevices].
        intros Hin. apply elem_of_seq in Hin. lia.
      * eexists. split; [by apply (final_node cfg rd Hwf j n k r)|].
        simpl. apply list_elem_of_here.
    + apply final_head_inv in Hh as (n & r & Hn & Hr & ->).
      pose proof (final_draws_range cfg rd Hwf _ _ _ Hn Hr) as Hrange.
      split_and!.
      * done.
      * unfold final_world. wsimpl. cbn [backbone_device dev_channel dev_type].
        rewrite lookup_app_r by (by rewrite length_replicate).
        by rewrite length_replicate, Nat.sub_diag.
      * split; [|done]. intros _. unfold final_locals. cbn [head_clusterDevices].
        apply elem_of_seq. apply lookup_lt_Some in Hn. lia.
      * eexists. split.
        { apply (final_node cfg rd Hwf j n (Z.to_nat r) r); [done|lia|done]. }
        simpl. rewrite decide_True by done.
        apply list_elem_of_further, list_elem_of_here.
Qed.

(** X8.  In a run that completes every node of the engine's node list
    carries the internet stack, has been given a position, belongs to
    exactly one cluster, and is the node of each device it lists. *)
Theorem nodes_partitioned cfg rd L w :
  array_typed cfg → main_with cfg rd = Ok L w →
  ∀ h nd, NodeList w !! h = Some nd →
    node_ipv4 nd = true ∧ (∃ p, node_position nd = Some p) ∧
    (∃ j c, clusters L !! j = Some c ∧ h ∈ c ∧
       ∀ j' c', clusters L !! j' = Some c' → h ∈ c' → j' = j) ∧
    ∀ d, d ∈ node_devices nd →
      ∃ dev, DeviceList w !! d = Some dev ∧ dev_node dev = h.
Proof.
  intros Htyped Hrun.
  destruct (completed_run cfg rd L w Htyped Hrun) as (Hwf & Hstop & -> & ->).
  intros h nd Hnd.
  assert (h < total (infraNodes cfg))%nat as Hh.
  { apply lookup_lt_Some in Hnd. unfold final_world in Hnd. simpl in Hnd.
    by rewrite length_attach, length_nodes_from in Hnd. }
  destruct (offset_decompose _ _ Hh) as (j & n & k & Hn & Hk & ->).
  destruct (final_draw_exists cfg rd j n Hn) as [r Hr].
  rewrite (final_node cfg rd Hwf j n k r Hn Hk Hr) in Hnd. injection Hnd as <-.
  cbn [node_ipv4 node_position node_devices]. split_and!.
  - done.
  - by eexists.
  - exists j, (seq (offset (infraNodes cfg) j) (Z.to_nat n)). split_and!.
    + by apply final_cluster_lookup.
    + apply elem_of_seq. lia.
    + intros j' c' Hc' Hin.
      assert (j' < length (infraNodes cfg))%nat as Hj'.
      { apply lookup_lt_Some in Hc'. unfold final_locals in Hc'.
        cbn [clusters] in Hc'. by rewrite length_containers_from in Hc'. }
      destruct (lookup_lt_is_Some_2 _ _ Hj') as [n' Hn'].
      rewrite (final_cluster_lookup cfg rd j' n' Hn') in Hc'. injection Hc' as <-.
      apply elem_of_seq in Hin.
      destruct (offset_inj (infraNodes cfg) j' j n' n
                  (offset (infraNodes cfg) j + k - offset (infraNodes cfg) j')%nat k)
        as [-> _]; [done|done|lia|done|lia|done].
  - intros d Hd. apply elem_of_cons in Hd as [->|Hd].
    + eexists. split; [by apply (final_cluster_device cfg rd j n k)|done].
    + destruct (decide (k = Z.to_nat r)) as [->|Hne]; [|by apply elem_of_nil in Hd].
      apply list_elem_of_singleton in Hd as ->.
      eexists. split.
      * apply final_backbone_device. by apply (final_head cfg rd j n r).
      * done.
Qed.

(** X9.  In a run that completes no two nodes of the topology start at the
    same position: two handles whose nodes have the same position are the
    same handle. *)
Theorem positions_distinct cfg rd L w :
  array_typed cfg → main_with cfg rd = Ok L w →
  ∀ h h' nd nd', NodeList w !! h = Some nd → NodeList w !! h' = Some nd' →
    node_position nd = node_position nd' → h = h'.
Proof.
  intros Htyped Hrun.
  destruct (completed_run cfg rd L w Htyped Hrun) as (Hwf & Hstop & -> & ->).
  intros h h' nd nd' Hnd Hnd' Heq.
  destruct (final_node_position cfg rd Hwf h nd Hnd)
    as (j & n & k & Hn & Hk & -> & Hp).
  destruct (final_node_position cfg rd Hwf h' nd' Hnd')
    as (j' & n' & k' & Hn' & Hk' & -> & Hp').
  rewrite Hp, Hp' in Heq. injection Heq as Hx Hy.
  pose proof (Z.mod_pos_bound (Z.of_nat k) 2 ltac:(lia)).
  pose proof (Z.mod_pos_bound (Z.of_nat k') 2 ltac:(lia)).
  pose proof (Z.div_mod (Z.of_nat k) 2 ltac:(lia)).
  pose proof (Z.div_mod (Z.of_nat k') 2 ltac:(lia)).
  assert (j = j') as <- by lia.
  f_equal. lia.
Qed.

(** X10.  The grid against the bounds of the motion.  [main] bounds the
    motion of every node by the rectangle [-500, 500] x [-500, 500] (line
    192) and places cluster [j] on a two-column grid that starts at
    [((j + 1) * 50, (j + 1) * 20)] and grows by 10 per row (lines 184-190).
    In a run that completes, all the members of cluster [j] start inside
    the rectangle exactly when the cluster has at most [98 - 4 * j] nodes
    (98, 94 and 90 nodes for the three pools). *)
Theorem placement_within_bounds cfg rd L w :
  array_typed cfg → main_with cfg rd = Ok L w →
  ∀ j n c, infraNodes cfg !! j = Some n → clusters L !! j = Some c →
    (∀ h nd p, h ∈ c → NodeList w !! h = Some nd → node_position nd = Some p →
               IsInside Bounds p) ↔
    n ≤ 98 - 4 * Z.of_nat j.
Proof.
  intros Htyped Hrun.
  destruct (completed_run cfg rd L w Htyped Hrun) as (Hwf & Hstop & -> & ->).
  intros j n c Hn Hc.
  rewrite (final_cluster_lookup cfg rd j n Hn) in Hc. injection Hc as <-.
  pose proof (final_size_range cfg Hwf j n Hn) as Hsize.
  destruct (final_index_bounds cfg Hwf j n Hn) as [Hj3 _].
  destruct (final_draw_exists cfg rd j n Hn) as [r Hr].
  split.
  - intros Hin.
    assert (Z.to_nat n - 1 < Z.to_nat n)%nat as Hk by lia.
    pose proof (final_node cfg rd Hwf j n _ r Hn Hk Hr) as Hnd.
    assert ((offset (infraNodes cfg) j + (Z.to_nat n - 1))%nat ∈
            seq (offset (infraNodes cfg) j) (Z.to_nat n)) as Hel
      by (apply elem_of_seq; lia).
    specialize (Hin _ _ _ Hel Hnd eq_refl).
    destruct Hin as [_ [_ Hy]]. unfold grid_position in Hy. simpl in Hy.
    replace (Z.of_nat (Z.to_nat n - 1)) with (n - 1) in Hy by lia.
    pose proof (Z.mod_pos_bound (n - 1) 2 ltac:(lia)).
    pose proof (Z.div_mod (n - 1) 2 ltac:(lia)). lia.
  - intros Hle h nd p Hh Hnd Hp. apply elem_of_seq in Hh.
    replace h with (offset (infraNodes cfg) j + (h - offset (infraNodes cfg) j))%nat
      in Hnd by lia.
    assert (h - offset (infraNodes cfg) j < Z.to_nat n)%nat as Hk by lia.
    rewrite (final_node cfg rd Hwf j n _ r Hn Hk Hr) in Hnd.
    injection Hnd as <-. simpl in Hp. injection Hp as <-.
    unfold IsInside, Bounds, grid_position. simpl.
    set (k := Z.of_nat (h - offset (infraNodes cfg) j)).
    assert (0 ≤ k ≤ n - 1) by lia.
    pose proof (Z.mod_pos_bound k 2 ltac:(lia)).
    pose proof (Z.div_mod k 2 ltac:(lia)). lia.
Qed.

End Interfaces.

Lemma interface_addresses_witness :
  array_typed shipped ∧
  ∃ L w dev, @main_with lcg shipped 5 = Ok L w ∧
    DeviceList w !! 5%nat = Some dev ∧
    dev_addresses dev =
      [{| ifa_local := Ipv4Address 192 168 0 2;
          ifa_mask := Ipv4Mask 255 255 255 0 |}].
Proof.
  split; [apply shipped_typed|].
  pose proof (@main_with_spec lcg shipped 5 shipped_wf shipped_stop) as Hrun.
  destruct (@interface_addresses lcg shipped 5 _ _ shipped_typed Hrun) as [Hcl _].
  destruct (Hcl 1%nat [4; 5; 6]%nat 1%nat 5%nat eq_refl eq_refl)
    as (c & h & dev & _ & _ & Hdev & _ & Haddr).
  eexists _, _, dev. split; [exact Hrun|]. split; [exact Hdev|exact Haddr].
Defined.

Lemma addresses_unique_witness :
  array_typed shipped ∧
  ∃ L w, @main_with lcg shipped 5 = Ok L w ∧
    ∀ dev1 dev2 a, DeviceList w !! 0%nat = Some dev1 →
      DeviceList w !! 7%nat = Some dev2 →
      a ∈ dev_addresses dev1 → a ∉ dev_addresses dev2.
Proof.
  split; [apply shipped_typed|].
  pose proof (@main_with_spec lcg shipped 5 shipped_wf shipped_stop) as Hrun.
  eexists _, _. split; [exact Hrun|].
  intros dev1 dev2 a Hd1 Hd2 Ha1 Ha2.
  pose proof (@addresses_unique lcg shipped 5 _ _ shipped_typed Hrun
                0%nat 7%nat dev1 dev2 a a Hd1 Hd2 Ha1 Ha2 eq_refl) as Heq.
  discriminate Heq.
Defined.

Lemma topology_census_witness :
  array_typed shipped ∧
  ∃ L w, @main_with lcg shipped 5 = Ok L w ∧
    ChannelList w = [YansWifiChannel; YansWifiChannel; CsmaChannel] ∧
    length (DeviceList w) = 9%nat.
Proof.
  split; [apply shipped_typed|].
  pose proof (@main_with_spec lcg shipped 5 shipped_wf shipped_stop) as Hrun.
  destruct (@topology_census lcg shipped 5 _ _ shipped_typed Hrun)
    as (Hchans & Hdevs & _).
  eexists _, _. split; [exact Hrun|]. split; [exact Hchans|exact Hdevs].
Defined.

Lemma nodes_partitioned_witness :
  array_typed shipped ∧
  ∃ L w, @main_with lcg shipped 5 = Ok L w ∧
    ∀ nd, NodeList w !! 6%nat = Some nd → node_ipv4 nd = true.
Proof.
  split; [apply shipped_typed|].
  pose proof (@main_with_spec lcg shipped 5 shipped_wf shipped_stop) as Hrun.
  eexists _, _. split; [exact Hrun|]. intros nd Hnd.
  exact (proj1 (@nodes_partitioned lcg shipped 5 _ _ shipped_typed Hrun
                  6%nat nd Hnd)).
Defined.

Lemma positions_distinct_witness :
  array_typed shipped ∧
  ∃ L w, @main_with lcg shipped 5 = Ok L w ∧
    ∀ nd nd', NodeList w !! 0%nat = Some nd → NodeList w !! 4%nat = Some nd' →
      node_position nd ≠ node_position nd'.
Proof.
  split; [apply shipped_typed|].
  pose proof (@main_with_spec lcg shipped 5 shipped_wf shipped_stop) as Hrun.
  eexists _, _. split; [exact Hrun|]. intros nd nd' Hnd Hnd' Heq.
  pose proof (@positions_distinct lcg shipped 5 _ _ shipped_typed Hrun
                0%nat 4%nat nd nd' Hnd Hnd' Heq) as Hh.
  discriminate Hh.
Defined.

Lemma placement_within_bounds_witness :
  array_typed shipped ∧
  ∃ L w, @main_with lcg shipped 5 = Ok L w ∧
    ∀ h nd p, h ∈ [0; 1; 2; 3]%nat → NodeList w !! h = Some nd →
      node_position nd = Some p → IsInside Bounds p.
Proof.
  split; [apply shipped_typed|].
  pose proof (@main_with_spec lcg shipped 5 shipped_wf shipped_stop) as Hrun.
  eexists _, _. split; [exact Hrun|].
  apply (proj2 (@placement_within_bounds lcg shipped 5 _ _ shipped_typed Hrun
                  0%nat 4 [0; 1; 2; 3]%nat eq_refl eq_refl)).
  simpl. lia.
Defined.

(** ** What the seed decides *)

Lemma attach_placement c : ∀ d l,
  node_placement <$> attach d c l = node_placement <$> l.
Proof.
  induction c as [|n c IH]; intros d l; [done|].
  simpl. rewrite IH. apply list_eq. intros i.
  rewrite !list_lookup_fmap.
  destruct (decide (n = i)) as [->|Hne].
  - rewrite list_lookup_alter_eq. by destruct (l !! i).
  - by rewrite list_lookup_alter_ne.
Qed.

Lemma backbone_attachment ch heads :
  device_attachment <$> imap (backbone_device ch) heads =
  (λ j, (ch, CsmaChannel,
         [{| ifa_local := host_address backbone_network 1 j;
             ifa_mask := cluster_mask |}])) <$> seq 0 (length heads).
Proof.
  apply list_eq. intros j.
  rewrite !list_lookup_fmap, list_lookup_imap.
  destruct (heads !! j) as [h|] eqn:Hh.
  - rewrite lookup_seq_lt by (by eapply lookup_lt_Some). done.
  - rewrite lookup_seq_ge; [done|]. by apply lookup_ge_None.
Qed.

(** X11.  What the seed decides.  Two completed runs of one configuration,
    under any two generators and seeds, agree on the clusters, on the
    devices of every container, on the pools, the channels, the addresses
    handed out and the simulator, on the stack and position of every node,
    and on the channel, type and addresses of every device; their wireless
    devices are the same.  The draws decide only the node on which each
    backbone device is installed. *)
Theorem seed_selects_representatives_only
    (G1 G2 : UniformRandomBitGenerator) cfg rd1 rd2 L1 w1 L2 w2 :
  array_typed cfg →
  @main_with G1 cfg rd1 = Ok L1 w1 → @main_with G2 cfg rd2 = Ok L2 w2 →
  clusters L1 = clusters L2 ∧ clusterDevices L1 = clusterDevices L2 ∧
  head_clusterDevices L1 = head_clusterDevices L2 ∧
  ipAddrs L1 = ipAddrs L2 ∧ ipAddrsH L1 = ipAddrsH L2 ∧
  ChannelList w1 = ChannelList w2 ∧
  Ipv4AddressGenerator w1 = Ipv4AddressGenerator w2 ∧
  Simulator w1 = Simulator w2 ∧
  node_placement <$> NodeList w1 = node_placement <$> NodeList w2 ∧
  device_attachment <$> DeviceList w1 = device_attachment <$> DeviceList w2 ∧
  ∀ d dev1 dev2, DeviceList w1 !! d = Some dev1 → DeviceList w2 !! d = Some dev2 →
    dev_type dev1 = YansWifiChannel → dev1 = dev2.
Proof.
  intros Htyped Hrun1 Hrun2.
  destruct (@completed_run G1 cfg rd1 L1 w1 Htyped Hrun1) as (Hwf & Hstop & -> & ->).
  destruct (@completed_run G2 cfg rd2 L2 w2 Htyped Hrun2) as (_ & _ & -> & ->).
  split_and!; try done.
  - unfold final_world. wsimpl. by rewrite !attach_placement.
  - unfold final_world. wsimpl. rewrite !fmap_app, !backbone_attachment.
    unfold final_heads. by rewrite !length_heads_from by apply length_draws_from.
  - intros d dev1 dev2 Hd1 Hd2 Htype.
    destruct (@final_device_cases G1 cfg rd1 d dev1 Hd1)
      as [(j & n & k & Hn & Hk & -> & ->)|(j & h & Hh & -> & ->)]; [|done].
    rewrite (@final_cluster_device G2 cfg rd2 j n k Hn Hk) in Hd2.
    by injection Hd2.
Qed.

Lemma seed_selects_representatives_only_witness :
  array_typed shipped ∧
  ∃ L1 w1 L2 w2,
    @main_with lcg shipped 5 = Ok L1 w1 ∧
    @main_with (scripted [3; 1]) shipped 0 = Ok L2 w2 ∧
    @clusters lcg L1 = @clusters (scripted [3; 1]) L2 ∧
    Ipv4AddressGenerator w1 = Ipv4AddressGenerator w2.
Proof.
  split; [apply shipped_typed|].
  pose proof (@main_with_spec lcg shipped 5 shipped_wf shipped_stop) as Hrun1.
  pose proof (@main_with_spec (scripted [3; 1]) shipped 0 shipped_wf shipped_stop)
    as Hrun2.
  destruct (seed_selects_representatives_only lcg (scripted [3; 1]) shipped 5 0
              _ _ _ _ shipped_typed Hrun1 Hrun2)
    as (Hclusters & _ & _ & _ & _ & _ & Hused & _).
  eexists _, _, _, _. split; [exact Hrun1|]. split; [exact Hrun2|].
  split; [exact Hclusters|exact Hused].
Defined.

(** ** The pools after the run *)

Section Pools.
Context `{G : UniformRandomBitGenerator}.

(** The addresses handed out are hosts of the blocks of the clusters. *)
Lemma elem_of_used_from sizes : ∀ i used a,
  a ∈ used_from i sizes used →
  a ∈ used ∨
  ∃ j n k, sizes !! j = Some n ∧ (k < Z.to_nat n)%nat ∧
           a = host_address (pool_network (i + j)) 1 k.
Proof.
  induction sizes as [|n sizes IH]; intros i used a Ha; [by left|].
  simpl in Ha. apply IH in Ha as [Ha|(j & n' & k & Hj & Hk & ->)].
  - apply elem_of_app in Ha as [Ha|Ha]; [|by left].
    right. apply elem_of_reverse, list_elem_of_fmap in Ha as (k & -> & Hk).
    apply elem_of_seq in Hk. exists 0%nat, n, k.
    rewrite Nat.add_0_r. split_and!; [done|lia|done].
  - right. exists (S j), n', k. split_and!; [done|done|].
    do 2 f_equal. lia.
Qed.

Lemma current_subnet_pool24 nw a :
  0 ≤ nw < 2 ^ 24 →
  current_subnet (pool24 nw a) =
  {| subnet_network := nw * 2 ^ 8; subnet_mask := Ipv4Mask 255 255 255 0 |}.
Proof.
  intros Hnw. unfold current_subnet, pool24. simpl. f_equal.
  rewrite Z.shiftl_mul_pow2 by lia. apply uint32_t_small. lia.
Qed.

Lemma final_pool_lookup cfg rd j h :
  wf_config cfg → ipAddrs (final_locals cfg rd) !! j = Some h →
  (j < 3)%nat ∧
  h = pool24 (pool_network j +
              (if decide (j < length (infraNodes cfg))%nat then 1 else 0)) 1.
Proof.
  intros Hwf Hh. pose proof (wf_pools _ Hwf) as Hpools.
  unfold final_locals, advanced_pools, fresh_pools in Hh. cbn [ipAddrs] in Hh.
  apply lookup_app_Some in Hh as [Hh|[Hge Hh]].
  - rewrite list_lookup_fmap in Hh.
    destruct (seq 0 _ !! j) as [j'|] eqn:Hj; simplify_eq/=.
    apply lookup_seq in Hj as [-> Hj]. simpl.
    rewrite decide_True by done. split; [lia|done].
  - rewrite length_fmap, length_seq in Hge, Hh.
    rewrite list_lookup_fmap in Hh.
    destruct (seq _ _ !! _) as [j'|] eqn:Hj; simplify_eq/=.
    apply lookup_seq in Hj as [-> Hj].
    replace (length (infraNodes cfg) + (j - length (infraNodes cfg)))%nat
      with j by lia.
    rewrite decide_False by lia. rewrite Z.add_0_r. split; [lia|done].
Qed.

(** X12.  The pools after the run.  In a run that completes [ipAddrs] still
    holds three pools; every cursor is back on host .1; the cursor of the
    pool of a cluster stands on 192.(167+j).1.0/24, the block after the one
    its cluster received, that of a pool without cluster on its base block
    192.(167+j).0.0/24, and that of the backbone pool on 172.16.1.0/24; and
    no address handed out during the run lies in the block under any
    cursor. *)
Theorem cursors_on_unused_blocks cfg rd L w :
  array_typed cfg → main_with cfg rd = Ok L w →
  length (ipAddrs L) = 3%nat ∧
  (∀ j h, ipAddrs L !! j = Some h →
     m_address h = 1 ∧
     current_subnet h =
       {| subnet_network :=
            Ipv4Address 192 (167 + Z.of_nat j)
              (if decide (j < length (infraNodes cfg))%nat then 1 else 0) 0;
          subnet_mask := Ipv4Mask 255 255 255 0 |}) ∧
  m_address (ipAddrsH L) = 1 ∧
  current_subnet (ipAddrsH L) =
    {| subnet_network := Ipv4Address 172 16 1 0;
       subnet_mask := Ipv4Mask 255 255 255 0 |} ∧
  ∀ h a, h ∈ ipAddrsH L :: ipAddrs L → a ∈ Ipv4AddressGenerator w →
         ¬ in_subnet a (current_subnet h).
Proof.
  intros Htyped Hrun.
  destruct (completed_run cfg rd L w Htyped Hrun) as (Hwf & Hstop & -> & ->).
  pose proof (wf_pools _ Hwf) as Hpools.
  split_and!.
  - unfold final_locals, advanced_pools, fresh_pools. cbn [ipAddrs].
    rewrite length_app, !length_fmap, !length_seq. lia.
  - intros j h Hh. apply final_pool_lookup in Hh as [Hj ->]; [|done].
    split; [done|].
    rewrite current_subnet_pool24
      by (unfold pool_network; destruct (decide _); lia).
    f_equal.
    destruct j as [|[|[|j]]]; [| | |lia]; by destruct (decide _).
  - done.
  - done.
  - intros h a Hh Ha Hin.
    assert (∃ nw k, 0 ≤ nw < 2 ^ 24 ∧ (k < 254)%nat ∧ a = host_address nw 1 k ∧
              (nw = backbone_network ∨
               ∃ j, (j < length (infraNodes cfg))%nat ∧ nw = pool_network j))
      as (nw & k & Hnw & Hk & -> & Hcase).
    { unfold final_world in Ha. simpl in Ha.
      apply elem_of_app in Ha as [Ha|Ha].
      - apply elem_of_reverse, list_elem_of_fmap in Ha as (k & -> & Hk).
        apply elem_of_seq in Hk.
        exists backbone_network, k. split_and!;
          [unfold backbone_network; lia..|lia|done|by left].
      - apply elem_of_used_from in Ha as [Ha|(j & n & k & Hn & Hk & ->)];
          [by apply elem_of_nil in Ha|].
        pose proof (final_size_range cfg Hwf j n Hn).
        destruct (final_index_bounds cfg Hwf j n Hn) as [Hj3 Hjlt].
        exists (pool_network j), k. simpl. split_and!;
          [unfold pool_network; lia..|lia|done|right; by exists j]. }
    assert (∃ nwh, 0 ≤ nwh < 2 ^ 24 ∧ h = pool24 nwh 1 ∧
              (nwh = backbone_network + 1 ∨
               ∃ j', (j' < 3)%nat ∧
                 nwh = pool_network j' +
                   (if decide (j' < length (infraNodes cfg))%nat then 1 else 0)))
      as (nwh & Hnwh & -> & Hcaseh).
    { apply elem_of_cons in Hh as [->|Hh].
      - exists (backbone_network + 1).
        split_and!; [unfold backbone_network; lia..|done|by left].
      - apply list_elem_of_lookup in Hh as [j' Hh].
        apply final_pool_lookup in Hh as [Hj' ->]; [|done].
        eexists. split_and!; [| |done|right; by exists j'];
          unfold pool_network; destruct (decide _); lia. }
    rewrite current_subnet_pool24 in Hin by done.
    unfold in_subnet in Hin. simpl in Hin. rewrite in_subnet_host in Hin by done.
    destruct Hcase as [->|(j & Hj & ->)];
      destruct Hcaseh as [->|(j' & Hj' & ->)];
      unfold backbone_network, pool_network in Hin;
      try destruct (decide (j' < length (infraNodes cfg))%nat); lia.
Qed.

End Pools.

Lemma cursors_on_unused_blocks_witness :
  array_typed shipped ∧
  ∃ L w h, @main_with lcg shipped 5 = Ok L w ∧
    ipAddrs L !! 0%nat = Some h ∧
    current_subnet h =
      {| subnet_network := Ipv4Address 192 167 1 0;
         subnet_mask := Ipv4Mask 255 255 255 0 |}.
Proof.
  split; [apply shipped_typed|].
  pose proof (@main_with_spec lcg shipped 5 shipped_wf shipped_stop) as Hrun.
  destruct (@cursors_on_unused_blocks lcg shipped 5 _ _ shipped_typed Hrun)
    as (_ & Hpools & _).
  eexists _, _, _. split; [exact Hrun|]. split; [reflexivity|].
  exact (proj2 (Hpools 0%nat _ eq_refl)).
Defined.

(** ** The smallest cluster *)

Section Singleton.
Context `{G : UniformRandomBitGenerator}.

(** X13.  A cluster of one node.  In a run that completes, a cluster of
    size 1 consists of a single node, which is its representative, at
    index 0, whatever the generator and the seed: the draw is over [0, 0]. *)
Theorem singleton_cluster cfg rd L w j :
  array_typed cfg → main_with cfg rd = Ok L w →
  infraNodes cfg !! j = Some 1 →
  ∃ h, clusters L !! j = Some [h] ∧ head_cluster L !! j = Some h ∧
       representative_index L j = Some 0%nat.
Proof.
  intros Htyped Hrun Hn.
  destruct (completed_run cfg rd L w Htyped Hrun) as (Hwf & Hstop & -> & ->).
  destruct (final_draw_exists cfg rd j 1 Hn) as [r Hr].
  pose proof (final_draws_range cfg rd Hwf _ _ _ Hn Hr) as Hrange.
  assert (r = 0) as -> by lia.
  exists (offset (infraNodes cfg) j). split_and!.
  - by rewrite (final_cluster_lookup cfg rd j 1 Hn).
  - unfold final_locals. cbn [head_cluster].
    rewrite (final_head cfg rd j 1 0 Hn Hr). f_equal. simpl. lia.
  - by rewrite (final_representative_index cfg rd Hwf j 1 0 Hn Hr).
Qed.

End Singleton.

Lemma lone_node_wf : wf_config lone_node.
Proof.
  constructor; [done|simpl; lia|].
  simpl. repeat (apply Forall_cons_2; [lia|]). apply Forall_nil_2.
Qed.

Lemma singleton_cluster_witness :
  array_typed lone_node ∧
  ∃ L w, @main_with lcg lone_node 5 = Ok L w ∧
    clusters L !! 0%nat = Some [0%nat] ∧ head_cluster L !! 0%nat = Some 0%nat.
Proof.
  assert (array_typed lone_node) as Htyped by (split; [done|simpl; lia]).
  split; [exact Htyped|].
  pose proof (@main_with_spec lcg lone_node 5 lone_node_wf ltac:(simpl; lia))
    as Hrun.
  destruct (@singleton_cluster lcg lone_node 5 _ _ 0%nat Htyped Hrun eq_refl)
    as (h & Hc & Hh & _).
  eexists _, _. split; [exact Hrun|].
  assert (h = 0%nat) as -> by (injection Hc as <-; reflexivity).
  split; [exact Hc|exact Hh].
Defined.

(** ** Adding clusters *)

Section Extension.
Context `{G : UniformRandomBitGenerator}.

Lemma total_app s1 s2 : total (s1 ++ s2) = (total s1 + total s2)%nat.
Proof.
  induction s1 as [|n s1 IH]; [done|].
  simpl. rewrite !total_cons, IH. lia.
Qed.

Lemma nodes_from_app s1 s2 : ∀ i first,
  nodes_from i first (s1 ++ s2) =
  nodes_from i first s1 ++ nodes_from (i + length s1) (first + total s1) s2.
Proof.
  induction s1 as [|n s1 IH]; intros i first.
  - simpl. rewrite total_nil. do 2 f_equal; lia.
  - simpl. rewrite IH, total_cons, <- app_assoc. do 3 f_equal; lia.
Qed.

Lemma devices_from_app s1 s2 : ∀ i first,
  devices_from i first (s1 ++ s2) =
  devices_from i first s1 ++ devices_from (i + length s1) (first + total s1) s2.
Proof.
  induction s1 as [|n s1 IH]; intros i first.
  - simpl. rewrite total_nil. do 2 f_equal; lia.
  - simpl. rewrite IH, total_cons, <- app_assoc. do 3 f_equal; lia.
Qed.

Lemma containers_from_app s1 s2 : ∀ first,
  containers_from first (s1 ++ s2) =
  containers_from first s1 ++ containers_from (first + total s1) s2.
Proof.
  induction s1 as [|n s1 IH]; intros first.
  - simpl. rewrite total_nil. f_equal; lia.
  - simpl. rewrite IH, total_cons. do 3 f_equal; lia.
Qed.

Lemma draws_from_app s1 s2 : ∀ g,
  draws_from g (s1 ++ s2) = draws_from g s1 ++ draws_from (rng_after g s1) s2.
Proof.
  induction s1 as [|n s1 IH]; intros g; [done|].
  simpl. by rewrite IH.
Qed.

Lemma heads_from_app s1 s2 : ∀ first d1 d2,
  length d1 = length s1 →
  heads_from first (s1 ++ s2) (d1 ++ d2) =
  heads_from first s1 d1 ++ heads_from (first + total s1) s2 d2.
Proof.
  induction s1 as [|n s1 IH]; intros first [|r d1] d2 Hlen; simplify_eq/=.
  - rewrite total_nil. f_equal; lia.
  - rewrite IH by done. rewrite total_cons. do 3 f_equal; lia.
Qed.

(** X14.  Adding clusters.  Take two completed runs from one seed, the
    second on a configuration that appends clusters to that of the first.
    The clusters, the device containers and the representatives of the
    first run are the leading ones of the second; the nodes of the first
    run are the leading nodes of the second, with the same stack and
    position; and every wireless device of the first run is a device of
    the second, under the same handle, on the same node and channel and
    with the same address. *)
Theorem earlier_clusters_stable cfg1 cfg2 rd more L1 w1 L2 w2 :
  array_typed cfg1 → array_typed cfg2 →
  infraNodes cfg2 = infraNodes cfg1 ++ more →
  main_with cfg1 rd = Ok L1 w1 → main_with cfg2 rd = Ok L2 w2 →
  clusters L1 `prefix_of` clusters L2 ∧
  clusterDevices L1 `prefix_of` clusterDevices L2 ∧
  head_cluster L1 `prefix_of` head_cluster L2 ∧
  (node_placement <$> NodeList w1) `prefix_of` (node_placement <$> NodeList w2) ∧
  ∀ d dev, DeviceList w1 !! d = Some dev → dev_type dev = YansWifiChannel →
           DeviceList w2 !! d = Some dev.
Proof.
  intros Htyped1 Htyped2 Hmore Hrun1 Hrun2.
  destruct (completed_run cfg1 rd L1 w1 Htyped1 Hrun1) as (Hwf1 & _ & -> & ->).
  destruct (completed_run cfg2 rd L2 w2 Htyped2 Hrun2) as (Hwf2 & _ & -> & ->).
  unfold final_locals, final_world, final_heads. wsimpl.
  cbn [clusters clusterDevices head_cluster]. rewrite Hmore.
  split_and!.
  - rewrite containers_from_app. by eexists.
  - rewrite containers_from_app. by eexists.
  - rewrite draws_from_app, heads_from_app by apply length_draws_from.
    by eexists.
  - rewrite !attach_placement, nodes_from_app, fmap_app. by eexists.
  - intros d dev Hd Htype.
    apply lookup_app_Some in Hd as [Hd|[_ Hd]].
    + rewrite devices_from_app, <- app_assoc. by apply lookup_app_l_Some.
    + rewrite list_lookup_imap in Hd.
      destruct (heads_from _ _ _ !! _); simplify_eq/=.
Qed.

End Extension.

Lemma three_clusters_wf : wf_config three_clusters.
Proof.
  constructor; [done|simpl; lia|].
  simpl. repeat (apply Forall_cons_2; [lia|]). apply Forall_nil_2.
Qed.

Lemma earlier_clusters_stable_witness :
  array_typed shipped ∧ array_typed three_clusters ∧
  ∃ L1 w1 L2 w2,
    @main_with lcg shipped 5 = Ok L1 w1 ∧
    @main_with lcg three_clusters 5 = Ok L2 w2 ∧
    head_cluster L1 `prefix_of` head_cluster L2.
Proof.
  assert (array_typed three_clusters) as Htyped by (split; [done|simpl; lia]).
  split; [apply shipped_typed|]. split; [exact Htyped|].
  pose proof (@main_with_spec lcg shipped 5 shipped_wf shipped_stop) as Hrun1.
  pose proof (@main_with_spec lcg three_clusters 5 three_clusters_wf
                ltac:(simpl; lia)) as Hrun2.
  destruct (@earlier_clusters_stable lcg shipped three_clusters 5 [2] _ _ _ _
              shipped_typed Htyped eq_refl Hrun1 Hrun2)
    as (_ & _ & Hheads & _).
  eexists _, _, _, _. split; [exact Hrun1|]. split; [exact Hrun2|exact Hheads].
Defined.
